(** * Handmade-Heroes: the FBA inventory server (server/src)

    A shallow embedding of [server/src/reports.ts] and of the cache, cooldown,
    report-refresh, snapshot-merge and status code of [server/src/index.ts],
    with the properties the specification states about them.

    Conventions of the embedding.
    - A JavaScript [number] that the program only produces finite
      ([parseNumber], [pickNumber], the quantities of an item) is an exact
      rational [Q]; a [number] that can be [NaN] or infinite
      ([Number(...)] of a header, a cooldown deadline) is a [jsnum].
      Rounding of binary64 and overflow to [Infinity] of huge literals are
      not represented: decimal literals are read exactly.
    - [Date.now()] is an integer number of milliseconds, a [Z].
    - A JavaScript string is a [string] of 8-bit characters; the white space
      of [trim] and of [\s] is the ASCII part of it, and the case mappings
      are those of the ASCII letters. On a text of ASCII characters these
      are the operations of JavaScript; what JavaScript does to other
      characters (it writes "SS" for the upper case of sharp s) is not
      represented, and a statement that needs it is stated for ASCII
      texts.
    - The collation of [localeCompare] is not fixed: it is an answer of the
      runtime, like [gunzipSync].
    - A [Map] or plain object used as a map is an insertion-ordered
      association list ([JsMap]).
    - Asynchronous code is a state-and-exception monad over [World]; every
      upstream call consumes one scripted reply and appends to a trace.
      One asynchronous function runs at a time: interleavings of a manual
      refresh with a sweep are not represented. *)

From Stdlib Require Import ZArith QArith String Ascii List Bool Lia OrderedTypeEx.
Import ListNotations.

Local Open Scope string_scope.
Local Open Scope Z_scope.

(* ===================================================================== *)
(** * JavaScript strings and numbers *)
(* ===================================================================== *)

Module Js.

Definition chars (s : string) : list ascii := list_ascii_of_string s.
Definition str (l : list ascii) : string := string_of_list_ascii l.

Definition code (c : ascii) : Z := Z.of_nat (nat_of_ascii c).

(** White space of [String.prototype.trim] and of the regexp class [\s],
    restricted to ASCII: TAB, LF, VT, FF, CR and SPACE. *)
Definition is_space (c : ascii) : bool :=
  let n := code c in ((9 <=? n) && (n <=? 13)) || (n =? 32).

Definition is_digit (c : ascii) : bool :=
  let n := code c in (48 <=? n) && (n <=? 57).

Fixpoint dropWhile {A} (p : A -> bool) (l : list A) : list A :=
  match l with
  | [] => []
  | x :: r => if p x then dropWhile p r else l
  end.

Fixpoint takeWhile {A} (p : A -> bool) (l : list A) : list A :=
  match l with
  | [] => []
  | x :: r => if p x then x :: takeWhile p r else []
  end.

Definition trim_chars (l : list ascii) : list ascii :=
  rev (dropWhile is_space (rev (dropWhile is_space l))).

(** [s.trim()] *)
Definition trim (s : string) : string := str (trim_chars (chars s)).

Definition lower_char (c : ascii) : ascii :=
  let n := code c in
  if (65 <=? n) && (n <=? 90) then ascii_of_nat (nat_of_ascii c + 32) else c.

(** [s.toLowerCase()], on the ASCII letters *)
Definition toLowerCase (s : string) : string := str (map lower_char (chars s)).

(** [s.toUpperCase()], on the ASCII letters: a character outside a..z is
    left as it is. *)
Definition upper_char (c : ascii) : ascii :=
  let n := code c in
  if (97 <=? n) && (n <=? 122) then ascii_of_nat (nat_of_ascii c - 32) else c.

Definition toUpperCase (s : string) : string := str (map upper_char (chars s)).

(** [s.startsWith(p)] *)
Definition startsWith (s p : string) : bool := String.prefix p s.

(** [s.includes(sub)] *)
Fixpoint includes (s sub : string) : bool :=
  String.prefix sub s ||
  match s with
  | EmptyString => false
  | String _ r => includes r sub
  end.

(** [s.split(c)] for a one-character separator. *)
Fixpoint split_chars (sep : ascii) (l : list ascii) : list (list ascii) :=
  match l with
  | [] => [[]]
  | c :: r =>
      if Ascii.eqb c sep then [] :: split_chars sep r
      else match split_chars sep r with
           | [] => [[c]]
           | w :: ws => (c :: w) :: ws
           end
  end.

Definition split (sep : ascii) (s : string) : list string :=
  map str (split_chars sep (chars s)).

Definition LF : ascii := ascii_of_nat 10.
Definition CR : ascii := ascii_of_nat 13.
Definition TAB : ascii := ascii_of_nat 9.

(** [s.split(/\r?\n/)]: a line ends at LF, and a CR directly before that LF
    belongs to the separator. *)
Fixpoint split_lines_chars (l : list ascii) : list (list ascii) :=
  match l with
  | [] => [[]]
  | c :: r =>
      if Ascii.eqb c LF then [] :: split_lines_chars r
      else
        match r with
        | c' :: r' =>
            if Ascii.eqb c CR && Ascii.eqb c' LF then
              [] :: split_lines_chars r'
            else match split_lines_chars r with
                 | [] => [[c]]
                 | w :: ws => (c :: w) :: ws
                 end
        | [] => [[c]]
        end
  end.

Definition split_lines (s : string) : list string :=
  map str (split_lines_chars (chars s)).

(** Truthiness of a string: non-empty. *)
Definition truthy_str (s : string) : bool :=
  match s with EmptyString => false | _ => true end.

(** [a || b] on an optional string ([undefined] is falsy). *)
Definition or_str (a : option string) (b : option string) : option string :=
  match a with
  | Some s => if truthy_str s then a else b
  | None => b
  end.

(** [a || ""]-style ending of a chain: the chain's value as a string. *)
Definition or_default (a : option string) (d : string) : string :=
  match a with
  | Some s => if truthy_str s then s else d
  | None => d
  end.

(** ** Numbers *)

Inductive jsnum : Type :=
| NaN
| Inf (negative : bool)
| Fin (q : Q).

Definition is_finite (n : jsnum) : bool :=
  match n with Fin _ => true | _ => false end.

(** Truthiness of a number: neither [NaN] nor zero. *)
Definition truthy_num (n : jsnum) : bool :=
  match n with
  | NaN => false
  | Inf _ => true
  | Fin q => negb (Qeq_bool q 0)
  end.

(** [a < b] *)
Definition lt (a b : jsnum) : bool :=
  match a, b with
  | NaN, _ | _, NaN => false
  | Inf true, Inf true => false
  | Inf true, _ => true
  | _, Inf true => false
  | Inf false, _ => false
  | _, Inf false => true
  | Fin x, Fin y => negb (Qle_bool y x)
  end.

(** [a > b] *)
Definition gt (a b : jsnum) : bool := lt b a.

(** [a + b] *)
Definition add (a b : jsnum) : jsnum :=
  match a, b with
  | NaN, _ | _, NaN => NaN
  | Inf s, Inf t => if Bool.eqb s t then Inf s else NaN
  | Inf s, Fin _ | Fin _, Inf s => Inf s
  | Fin x, Fin y => Fin (x + y)
  end.

(** [a * b] *)
Definition mul (a b : jsnum) : jsnum :=
  match a, b with
  | NaN, _ | _, NaN => NaN
  | Inf s, Inf t => Inf (xorb s t)
  | Inf s, Fin q | Fin q, Inf s =>
      if Qeq_bool q 0 then NaN
      else Inf (xorb s (negb (Qle_bool 0 q)))
  | Fin x, Fin y => Fin (x * y)
  end.

Definition ofZ (z : Z) : jsnum := Fin (inject_Z z).

(** *** [Number(string)]: the StringNumericLiteral grammar *)

Definition digit_val (c : ascii) : Z := code c - 48.

Definition digits_value (ds : list ascii) : Z :=
  fold_left (fun acc c => 10 * acc + digit_val c) ds 0.

(** Value of a digit in a radix up to 16, if it is one. *)
Definition radix_digit (radix : Z) (c : ascii) : option Z :=
  let n := code c in
  let v := if is_digit c then n - 48
           else if (97 <=? n) && (n <=? 102) then n - 87
           else if (65 <=? n) && (n <=? 70) then n - 55
           else 16 in
  if v <? radix then Some v else None.

Fixpoint radix_value (radix : Z) (ds : list ascii) (acc : Z) : option Z :=
  match ds with
  | [] => Some acc
  | c :: r =>
      match radix_digit radix c with
      | Some v => radix_value radix r (radix * acc + v)
      | None => None
      end
  end.

(** [0x..], [0o..], [0b..] (no sign allowed, at least one digit). *)
Definition nonDecimal (l : list ascii) : option Z :=
  match l with
  | z :: p :: (d :: _) as ds =>
      if Ascii.eqb z "0" then
        let k := lower_char p in
        if Ascii.eqb k "x" then radix_value 16 ds 0
        else if Ascii.eqb k "o" then radix_value 8 ds 0
        else if Ascii.eqb k "b" then radix_value 2 ds 0
        else None
      else None
  | _ => None
  end.

Definition pow10 (e : Z) : Q :=
  if 0 <=? e then inject_Z (10 ^ e) else 1 # Z.to_pos (10 ^ (- e)).

(** ExponentPart followed by the end of the literal. *)
Definition exponent (l : list ascii) : option Z :=
  match l with
  | [] => Some 0
  | e :: r =>
      if Ascii.eqb (lower_char e) "e" then
        let '(neg, ds) :=
          match r with
          | s :: r' =>
              if Ascii.eqb s "-" then (true, r')
              else if Ascii.eqb s "+" then (false, r')
              else (false, r)
          | [] => (false, r)
          end in
        match ds with
        | [] => None
        | _ => if forallb is_digit ds
               then Some (if neg then - digits_value ds else digits_value ds)
               else None
        end
      else None
  end.

(** StrUnsignedDecimalLiteral *)
Definition unsignedDecimal (l : list ascii) : jsnum :=
  if String.eqb (str l) "Infinity" then Inf false
  else
    let ip := takeWhile is_digit l in
    let r1 := dropWhile is_digit l in
    let '(hasDot, fp, r2) :=
      match r1 with
      | c :: r =>
          if Ascii.eqb c "." then (true, takeWhile is_digit r, dropWhile is_digit r)
          else (false, [], r1)
      | [] => (false, [], r1)
      end in
    match ip, fp with
    | [], [] => NaN
    | _, _ =>
        match exponent r2 with
        | Some e =>
            let k := Z.of_nat (length fp) in
            Fin ((digits_value (ip ++ fp) # 1) * pow10 (e - k))
        | None => NaN
        end
    end.

Definition neg (n : jsnum) : jsnum :=
  match n with
  | NaN => NaN
  | Inf s => Inf (negb s)
  | Fin q => Fin (- q)
  end.

(** StrDecimalLiteral *)
Definition strDecimal (l : list ascii) : jsnum :=
  match l with
  | c :: r =>
      if Ascii.eqb c "-" then neg (unsignedDecimal r)
      else if Ascii.eqb c "+" then unsignedDecimal r
      else unsignedDecimal l
  | [] => NaN
  end.

(** [Number(s)] for a string [s]. *)
Definition Number (s : string) : jsnum :=
  match trim_chars (chars s) with
  | [] => Fin 0
  | l => match nonDecimal l with
         | Some z => Fin (inject_Z z)
         | None => strDecimal l
         end
  end.

End Js.

(* ===================================================================== *)
(** * Insertion-ordered maps ([Map<string, V>] and plain objects) *)
(* ===================================================================== *)

Module JsMap.

Section Ops.
Context {V : Type}.

Definition t := list (string * V).

Definition empty : t := [].

(** [m.get(k)], [obj[k]] *)
Fixpoint get (k : string) (m : t) : option V :=
  match m with
  | [] => None
  | (k', v) :: r => if String.eqb k k' then Some v else get k r
  end.

(** [m.set(k, v)], [obj[k] = v]: an existing key keeps its position, a new
    key goes last. *)
Fixpoint set (k : string) (v : V) (m : t) : t :=
  match m with
  | [] => [(k, v)]
  | (k', v') :: r =>
      if String.eqb k k' then (k', v) :: r else (k', v') :: set k v r
  end.

(** [m.delete(k)] *)
Fixpoint delete (k : string) (m : t) : t :=
  match m with
  | [] => []
  | (k', v') :: r =>
      if String.eqb k k' then r else (k', v') :: delete k r
  end.

(** [m.values()], in insertion order *)
Definition values (m : t) : list V := map snd m.

Definition keys (m : t) : list string := map fst m.

(** [m.size] *)
Definition size (m : t) : nat := length m.

End Ops.

Arguments t : clear implicits.

End JsMap.

(* ===================================================================== *)
(** * reports.ts: the tabular report parser and the extractors *)
(* ===================================================================== *)

Module Reports.

Import Js.

(** A parsed line: [Record<string, string>]. Its entries are listed in
    insertion order, which is what [Object.entries] gives for the header
    names of a report. *)
Definition Row := JsMap.t string.

Definition is_sep (c : ascii) : bool := is_space c || Ascii.eqb c "_".

(** [.replace(/[\s_]+/g, "-")]: [in_run] tells that the previous character
    already belonged to the run being replaced. *)
Fixpoint collapse_seps (in_run : bool) (l : list ascii) : list ascii :=
  match l with
  | [] => []
  | c :: r =>
      if is_sep c then
        if in_run then collapse_seps true r
        else "-"%char :: collapse_seps true r
      else c :: collapse_seps false r
  end.

Definition normalizeHeader (header : string) : string :=
  str (collapse_seps false (chars (toLowerCase (trim header)))).

(** [headers.forEach((header, idx) => row[header] = (values[idx] ?? "").trim())] *)
Fixpoint fill_row (headers values : list string) (row : Row) : Row :=
  match headers with
  | [] => row
  | h :: hs =>
      let v := match values with [] => "" | v :: _ => v end in
      fill_row hs (tl values) (JsMap.set h (trim v) row)
  end.

Definition parseTabDelimited (content : string) : list Row :=
  let lines :=
    filter (fun line => negb (Nat.eqb (String.length (trim line)) 0))
           (split_lines content) in
  match lines with
  | [] => []
  | first :: rest =>
      let headers := map normalizeHeader (split TAB first) in
      map (fun line => fill_row headers (split TAB line) JsMap.empty) rest
  end.

Definition keep_numeric (c : ascii) : bool :=
  is_digit c || Ascii.eqb c "." || Ascii.eqb c "-".

(** [parseNumber(value: string | undefined)] *)
Definition parseNumber (value : option string) : Q :=
  match value with
  | None => 0%Q
  | Some v =>
      if negb (truthy_str v) then 0%Q
      else
        let cleaned := str (filter keep_numeric (chars v)) in
        match Number cleaned with
        | Fin parsed => parsed
        | _ => 0%Q
        end
  end.

Definition Qgt_bool (x y : Q) : bool := negb (Qle_bool x y).

(** [parsePercent(value: string | undefined)] *)
Definition parsePercent (value : option string) : Q :=
  match value with
  | None => 0%Q
  | Some v =>
      if negb (truthy_str v) then 0%Q
      else if includes v "%" then (parseNumber value / 100)%Q
      else
        let parsed := parseNumber value in
        if Qgt_bool parsed 1 then (parsed / 100)%Q else parsed
  end.

(** The body of the [for ... of Object.entries(row)] loop: the two
    [continue] guards, then the accumulation. *)
Definition age_step (total : Q) (entry : string * string) : Q :=
  let '(key, value) := entry in
  if negb (startsWith key "inv-age-") then total
  else if includes key "0-to-90"
          || includes key "0-to-30"
          || includes key "31-to-60"
          || includes key "61-to-90" then total
  else (total + parseNumber (Some value))%Q.

Definition computeAge90Plus (row : Row) : Q :=
  fold_left age_step row 0%Q.

End Reports.

(* ===================================================================== *)
(** * types.ts and the data of index.ts *)
(* ===================================================================== *)

(** [StoreKey = keyof typeof REGION_CONFIG] *)
Inductive StoreKey : Type := US | CA | UK | AU.

Definition StoreKey_eqb (a b : StoreKey) : bool :=
  match a, b with
  | US, US | CA, CA | UK, UK | AU, AU => true
  | _, _ => false
  end.

(** A [Map<StoreKey, V>]: only [get] and [set] are used on these maps. *)
Definition StoreMap (V : Type) := StoreKey -> option V.

Definition store_set {V} (m : StoreMap V) (k : StoreKey) (v : V) : StoreMap V :=
  fun k' => if StoreKey_eqb k k' then Some v else m k'.

Module PlanningItem.
Record t : Type := mk {
  sku : string;
  title : string;
  available : Q;
  inbound : Q;
  reserved : Q;
  sales7d : Q;
  sellThrough : Q;
  age90plusUnits : Q;
  estimatedLtsf : Q;
  estimatedStorage : Q
}.
End PlanningItem.

Module PlanningCache.
Record t : Type := mk {
  fetchedAt : Z;
  items : JsMap.t PlanningItem.t;
  agingRisk : Q
}.
End PlanningCache.

Module StoreInventoryItem.
Record t : Type := mk {
  sku : string;
  title : string;
  onHand : Q;
  reserved : Q;
  inbound : Q;
  sales7d : Q;
  age90plus : bool;
  stranded : Q;
  suppressed : Q;
  sellThrough : Q;
  margin : Q
}.
End StoreInventoryItem.

Module StoreShipment.
Record t : Type := mk {
  id : string;
  status : string;
  eta : string;
  units : Q
}.
End StoreShipment.

Module ShipmentsCache.
Record t : Type := mk {
  fetchedAt : Z;
  shipments : list StoreShipment.t
}.
End ShipmentsCache.

Record ReviewStats : Type := {
  today : Q;
  last7Days : Q;
  last30Days : Q;
  lastRunAt : option string
}.

Module StoreData.
Record t : Type := mk {
  code : StoreKey;
  name : string;
  marketplace : string;
  currency : string;
  ipiScore : Q;
  storageUtilization : Q;
  agingRisk : Q;
  strandedUnits : Q;
  suppressedUnits : Q;
  inventory : list StoreInventoryItem.t;
  shipments : list StoreShipment.t;
  warnings : list string;
  reviewStats : option ReviewStats
}.
End StoreData.

(** ** Upstream payloads, as far as the code reads them *)

(** A JSON scalar in a quantity field: [null]/[undefined], a string or a
    number. *)
Inductive jsval : Type :=
| JNull
| JStr (s : string)
| JNum (n : Js.jsnum).

Record RawReserved : Type := {
  rr_totalReservedQuantity : jsval
}.

Record RawDetails : Type := {
  d_fulfillableQuantity : jsval;
  d_totalQuantity : jsval;
  d_reservedQuantity : option RawReserved;
  d_inboundQuantity : jsval;
  d_inboundWorkingQuantity : jsval;
  d_inboundShippedQuantity : jsval;
  d_inboundReceivingQuantity : jsval
}.

Record RawSummary : Type := {
  s_inventoryDetails : option RawDetails;
  s_totalQuantity : jsval;
  s_totalAvailableQuantity : jsval;
  s_totalReservedQuantity : jsval;
  s_totalInboundQuantity : jsval;
  s_inboundWorkingQuantity : jsval;
  s_totalInboundWorkingQuantity : jsval;
  s_inboundShippedQuantity : jsval;
  s_totalInboundShippedQuantity : jsval;
  s_inboundReceivingQuantity : jsval;
  s_totalInboundReceivingQuantity : jsval;
  s_sellerSku : option string;
  s_asin : option string;
  s_productName : option string;
  s_itemName : option string;
  s_itemTitle : option string;
  s_title : option string
}.

(** [inventoryResponse.payload?.inventorySummaries]: absent, or a list whose
    elements are summaries; a [null] element is [None]. *)
Definition InventoryResponse := option (list (option RawSummary)).

Record RawShipment : Type := {
  sh_ShipmentId : option string;
  sh_shipmentId : option string;
  sh_ShipmentStatus : option string;
  sh_shipmentStatus : option string;
  sh_EstimatedArrivalDate : option string;
  sh_estimatedArrivalDate : option string;
  sh_ExpectedArrivalDate : option string;
  sh_expectedArrivalDate : option string;
  sh_TotalUnits : jsval;
  sh_totalUnits : jsval;
  sh_TotalQuantity : jsval;
  sh_totalQuantity : jsval;
  sh_BoxCount : jsval;
  sh_boxCount : jsval
}.

(** [response.payload?.ShipmentData] and [response.payload?.shipmentData];
    a [null] element of either list is [None]. *)
Record ShipmentsResponse : Type := {
  p_ShipmentData : option (list (option RawShipment));
  p_shipmentData : option (list (option RawShipment))
}.

(** An element of [payload.reports], and the payload of [getReport]. *)
Record ReportMeta : Type := {
  reportId : option string;
  reportDocumentId : option string;
  createdTime : option string;
  processingStatus : option string
}.

Record ReportDocumentPayload : Type := {
  url : string;
  compressionAlgorithm : option string
}.

(** A thrown value, as [createReportOnce] and [getErrorSummary] read it:
    [response.status], [response.headers["retry-after"]], [code] and the
    message. *)
Record JsError : Type := {
  err_status : option Z;
  err_retryAfter : option string;
  err_code : option string;
  err_message : string
}.

Inductive Outcome (A : Type) : Type :=
| Ok (a : A)
| Throw (e : JsError).
Arguments Ok {A} a.
Arguments Throw {A} e.

(** One scripted upstream reply: the time the request took and how it
    ended. *)
Record Reply (A : Type) : Type := {
  elapsed : Z;
  result : Outcome A
}.
Arguments elapsed {A} r.
Arguments result {A} r.

(** The requests the server issues ([spApiGet], [spApiPost], [axios.get]),
    with the arguments that identify them. *)
Inductive Call : Type :=
| GetInventorySummaries (store : StoreKey)
| GetShipments (store : StoreKey)
| ListReports (store : StoreKey)
| GetReport (id : string)
| GetReportDocument (id : string)
| CreateReport (store : StoreKey)
| Download (url : string).

(** Console output, kept as the parts of each template literal. *)
Inductive LogLine : Type :=
| InventoryFetchFailed (store : StoreKey) (e : JsError)
| ShipmentsFetchFailed (store : StoreKey) (e : JsError)
| PlanningReportFailed (store : StoreKey) (e : JsError)
| BackgroundTaskFailed (label : string) (e : JsError)
| RateLimited (backoff : Js.jsnum)
| HeadersSample (headers : list string)
| PlanningCached (store : StoreKey) (rows : nat)
| FinishedWhilePolling (store : StoreKey)
| AlreadyProcessing (store : StoreKey) (status : string)
| PlanningReused (store : StoreKey).

(** [process.env], with the [?? ""] defaults applied. *)
Record Env : Type := {
  lwaClientId : string;
  lwaClientSecret : string;
  REFRESH_TOKEN_NA : string;
  REFRESH_TOKEN_EU : string;
  REFRESH_TOKEN_AU : string
}.

(** What the environment answers. A reply is chosen by the number of
    requests issued before it, so a run can be scripted request by request.
    [gunzipSync], the date formatting of [formatEta] and the collation of
    [localeCompare] belong to the runtime; [localeCompare a b] is the sign of
    [a.localeCompare(b)]. *)
Record Upstream : Type := {
  inventory_reply : nat -> Reply InventoryResponse;
  shipments_reply : nat -> Reply (option ShipmentsResponse);
  listReports_reply : nat -> Reply (option (list ReportMeta));
  getReport_reply : nat -> Reply (option ReportMeta);
  getReportDocument_reply : nat -> Reply (option ReportDocumentPayload);
  createReport_reply : nat -> Reply (option string);
  download_reply : nat -> Reply string;
  gunzipSync : string -> Outcome string;
  toLocaleDateString : string -> option string;
  localeCompare : string -> string -> comparison
}.

(** The mutable module state of index.ts, the clock, and what has been sent
    and printed so far. *)
Record World : Type := {
  clock : Z;
  planningCache : StoreMap PlanningCache.t;
  reportCooldownUntil : StoreMap Js.jsnum;
  shipmentsCache : StoreMap ShipmentsCache.t;
  planningReportHeadersLogged : bool;
  planningRefreshInProgress : bool;
  reviewStats : ReviewStats;
  calls : list Call;
  console : list LogLine
}.

(* ===================================================================== *)
(** * The effect monad: module state, clock, requests, exceptions *)
(* ===================================================================== *)

Definition M (A : Type) : Type := World -> Outcome A * World.

Definition ret {A} (a : A) : M A := fun w => (Ok a, w).

Definition bind {A B} (m : M A) (k : A -> M B) : M B :=
  fun w =>
    match m w with
    | (Ok a, w') => k a w'
    | (Throw e, w') => (Throw e, w')
    end.

Definition throw {A} (e : JsError) : M A := fun w => (Throw e, w).

(** [try { m } catch (error) { h error }] *)
Definition try_catch {A} (m : M A) (h : JsError -> M A) : M A :=
  fun w =>
    match m w with
    | (Ok a, w') => (Ok a, w')
    | (Throw e, w') => h e w'
    end.

(** [try { m } finally { f }] with an [f] that cannot throw. *)
Definition try_finally {A} (m : M A) (f : World -> World) : M A :=
  fun w => let '(r, w') := m w in (r, f w').

Definition gets {A} (f : World -> A) : M A := fun w => (Ok (f w), w).

Definition modify (f : World -> World) : M unit := fun w => (Ok tt, f w).

Declare Scope js_scope.
Delimit Scope js_scope with js.
Notation "x <- c1 ;; c2" := (bind c1 (fun x => c2))
  (at level 100, c1 at next level, right associativity) : js_scope.
Notation "c1 ;;; c2" := (bind c1 (fun _ => c2))
  (at level 100, right associativity) : js_scope.

Definition set_clock (t : Z) (w : World) : World :=
  {| clock := t;
     planningCache := planningCache w;
     reportCooldownUntil := reportCooldownUntil w;
     shipmentsCache := shipmentsCache w;
     planningReportHeadersLogged := planningReportHeadersLogged w;
     planningRefreshInProgress := planningRefreshInProgress w;
     reviewStats := reviewStats w;
     calls := calls w;
     console := console w |}.

Definition set_planningCache (m : StoreMap PlanningCache.t) (w : World) : World :=
  {| clock := clock w;
     planningCache := m;
     reportCooldownUntil := reportCooldownUntil w;
     shipmentsCache := shipmentsCache w;
     planningReportHeadersLogged := planningReportHeadersLogged w;
     planningRefreshInProgress := planningRefreshInProgress w;
     reviewStats := reviewStats w;
     calls := calls w;
     console := console w |}.

Definition set_reportCooldownUntil (m : StoreMap Js.jsnum) (w : World) : World :=
  {| clock := clock w;
     planningCache := planningCache w;
     reportCooldownUntil := m;
     shipmentsCache := shipmentsCache w;
     planningReportHeadersLogged := planningReportHeadersLogged w;
     planningRefreshInProgress := planningRefreshInProgress w;
     reviewStats := reviewStats w;
     calls := calls w;
     console := console w |}.

Definition set_shipmentsCache (m : StoreMap ShipmentsCache.t) (w : World) : World :=
  {| clock := clock w;
     planningCache := planningCache w;
     reportCooldownUntil := reportCooldownUntil w;
     shipmentsCache := m;
     planningReportHeadersLogged := planningReportHeadersLogged w;
     planningRefreshInProgress := planningRefreshInProgress w;
     reviewStats := reviewStats w;
     calls := calls w;
     console := console w |}.

Definition set_headersLogged (b : bool) (w : World) : World :=
  {| clock := clock w;
     planningCache := planningCache w;
     reportCooldownUntil := reportCooldownUntil w;
     shipmentsCache := shipmentsCache w;
     planningReportHeadersLogged := b;
     planningRefreshInProgress := planningRefreshInProgress w;
     reviewStats := reviewStats w;
     calls := calls w;
     console := console w |}.

Definition set_refreshInProgress (b : bool) (w : World) : World :=
  {| clock := clock w;
     planningCache := planningCache w;
     reportCooldownUntil := reportCooldownUntil w;
     shipmentsCache := shipmentsCache w;
     planningReportHeadersLogged := planningReportHeadersLogged w;
     planningRefreshInProgress := b;
     reviewStats := reviewStats w;
     calls := calls w;
     console := console w |}.

Definition set_calls (c : list Call) (w : World) : World :=
  {| clock := clock w;
     planningCache := planningCache w;
     reportCooldownUntil := reportCooldownUntil w;
     shipmentsCache := shipmentsCache w;
     planningReportHeadersLogged := planningReportHeadersLogged w;
     planningRefreshInProgress := planningRefreshInProgress w;
     reviewStats := reviewStats w;
     calls := c;
     console := console w |}.

Definition set_console (c : list LogLine) (w : World) : World :=
  {| clock := clock w;
     planningCache := planningCache w;
     reportCooldownUntil := reportCooldownUntil w;
     shipmentsCache := shipmentsCache w;
     planningReportHeadersLogged := planningReportHeadersLogged w;
     planningRefreshInProgress := planningRefreshInProgress w;
     reviewStats := reviewStats w;
     calls := calls w;
     console := c |}.

(** [console.log], [console.warn], [console.error] *)
Definition log (l : LogLine) : M unit :=
  modify (fun w => set_console (console w ++ [l]) w).

(** [await sleep(ms)], [await new Promise(r => setTimeout(r, ms))] *)
Definition sleep (ms : Z) : M unit :=
  modify (fun w => set_clock (clock w + ms) w).

(** An awaited request: it is recorded, the clock moves by the time the
    reply took, and the reply's result is returned or thrown. Obtaining the
    access token is part of the request. *)
Definition request {A} (c : Call) (reply : nat -> Reply A) : M A :=
  fun w =>
    let r := reply (length (calls w)) in
    (result r, set_clock (clock w + elapsed r) (set_calls (calls w ++ [c]) w)).

(** The [TypeError] of reading a property of [null]. *)
Definition TypeError : JsError :=
  {| err_status := None; err_retryAfter := None; err_code := None;
     err_message := "TypeError" |}.

(** The [RangeError] of [toISOString] on an invalid date. *)
Definition RangeError : JsError :=
  {| err_status := None; err_retryAfter := None; err_code := None;
     err_message := "RangeError" |}.

(* ===================================================================== *)
(** * index.ts *)
(* ===================================================================== *)

Import Js Reports.
Local Open Scope js_scope.

Inductive Region : Type := NA | EU | AU_FE.

Record RegionConfig : Type := {
  region : Region;
  marketplaceId : string;
  refreshToken : string
}.

Definition REGION_CONFIG (env : Env) (store : StoreKey) : RegionConfig :=
  match store with
  | US => {| region := NA; marketplaceId := "ATVPDKIKX0DER";
             refreshToken := REFRESH_TOKEN_NA env |}
  | CA => {| region := NA; marketplaceId := "A2EUQ1WTGCTBG2";
             refreshToken := REFRESH_TOKEN_NA env |}
  | UK => {| region := EU; marketplaceId := "A1F83G8C2ARO7P";
             refreshToken := REFRESH_TOKEN_EU env |}
  | AU => {| region := AU_FE; marketplaceId := "A39IBJ37TRP1C6";
             refreshToken := REFRESH_TOKEN_AU env |}
  end.

Definition REPORT_CACHE_TTL_MS : Z := 6 * 60 * 60 * 1000.
Definition REPORT_COOLDOWN_MS : Z := 15 * 60 * 1000.
Definition SHIPMENTS_CACHE_TTL_MS : Z := 5 * 60 * 1000.
Definition REPORT_STORES : list StoreKey := [US].

Definition getPlanningCache (store : StoreKey) (w : World) : option PlanningCache.t :=
  match planningCache w store with
  | None => None
  | Some cached =>
      if clock w - PlanningCache.fetchedAt cached >? REPORT_CACHE_TTL_MS then None
      else Some cached
  end.

Definition getShipmentsCache (store : StoreKey) (w : World) : option ShipmentsCache.t :=
  match shipmentsCache w store with
  | None => None
  | Some cached =>
      if clock w - ShipmentsCache.fetchedAt cached >? SHIPMENTS_CACHE_TTL_MS then None
      else Some cached
  end.

(** [reportCooldownUntil.get(store) ?? 0] *)
Definition cooldownOf (store : StoreKey) (w : World) : jsnum :=
  match reportCooldownUntil w store with Some t => t | None => Fin 0 end.

Definition hasCredentials (env : Env) (store : StoreKey) : bool :=
  truthy_str (lwaClientId env) && truthy_str (lwaClientSecret env)
  && truthy_str (refreshToken (REGION_CONFIG env store)).

(** [pickNumber(...values)]: the first value that is neither [null],
    [undefined] nor [""] and whose number is finite. *)
Fixpoint pickNumber (values : list jsval) : option Q :=
  match values with
  | [] => None
  | value :: rest =>
      match value with
      | JNull => pickNumber rest
      | JStr s =>
          if negb (truthy_str s) then pickNumber rest
          else match Number s with
               | Fin parsed => Some parsed
               | _ => pickNumber rest
               end
      | JNum (Fin parsed) => Some parsed
      | JNum _ => pickNumber rest
      end
  end.

(** [a ?? b] *)
Definition nullish {A} (a : option A) (b : A) : A :=
  match a with Some x => x | None => b end.

Definition nullish_opt {A} (a b : option A) : option A :=
  match a with Some _ => a | None => b end.

(** [null] counts as 0 in [inboundWorking + inboundShipped + inboundReceiving]. *)
Definition num0 (a : option Q) : Q := nullish a 0%Q.

(** The function mapped over [inventorySummaries]. *)
Definition itemOfSummary (summary : RawSummary) : StoreInventoryItem.t :=
  let details := s_inventoryDetails summary in
  let d (f : RawDetails -> jsval) : jsval :=
    match details with Some x => f x | None => JNull end in
  let fulfillable := pickNumber [d d_fulfillableQuantity] in
  let totalQuantity :=
    pickNumber [s_totalQuantity summary; d d_totalQuantity;
                s_totalAvailableQuantity summary] in
  let reserved :=
    pickNumber [match details with
                | Some x => match d_reservedQuantity x with
                            | Some r => rr_totalReservedQuantity r
                            | None => JNull
                            end
                | None => JNull
                end;
                s_totalReservedQuantity summary] in
  let inboundTotal := pickNumber [d d_inboundQuantity; s_totalInboundQuantity summary] in
  let inboundWorking :=
    pickNumber [d d_inboundWorkingQuantity; s_inboundWorkingQuantity summary;
                s_totalInboundWorkingQuantity summary] in
  let inboundShipped :=
    pickNumber [d d_inboundShippedQuantity; s_inboundShippedQuantity summary;
                s_totalInboundShippedQuantity summary] in
  let inboundReceiving :=
    pickNumber [d d_inboundReceivingQuantity; s_inboundReceivingQuantity summary;
                s_totalInboundReceivingQuantity summary] in
  let inbound :=
    nullish inboundTotal
            (num0 inboundWorking + num0 inboundShipped + num0 inboundReceiving)%Q in
  let sku := nullish (nullish_opt (s_sellerSku summary) (s_asin summary)) "UNKNOWN" in
  let title :=
    nullish (nullish_opt (nullish_opt (nullish_opt (s_productName summary)
                                                   (s_itemName summary))
                                      (s_itemTitle summary))
                         (s_title summary))
            sku in
  {| StoreInventoryItem.sku := sku;
     StoreInventoryItem.title := title;
     StoreInventoryItem.onHand := nullish (nullish_opt fulfillable totalQuantity) 0%Q;
     StoreInventoryItem.reserved := nullish reserved 0%Q;
     StoreInventoryItem.inbound := inbound;
     StoreInventoryItem.sales7d := 0%Q;
     StoreInventoryItem.age90plus := false;
     StoreInventoryItem.stranded := 0%Q;
     StoreInventoryItem.suppressed := 0%Q;
     StoreInventoryItem.sellThrough := 0%Q;
     StoreInventoryItem.margin := 0%Q |}.

(** [inventorySummaries.map(...)]: reading [summary.inventoryDetails] of a
    [null] element throws. *)
Fixpoint mapSummaries (l : list (option RawSummary)) : Outcome (list StoreInventoryItem.t) :=
  match l with
  | [] => Ok []
  | None :: _ => Throw TypeError
  | Some s :: r =>
      match mapSummaries r with
      | Ok items => Ok (itemOfSummary s :: items)
      | Throw e => Throw e
      end
  end.

(** The callback of the second [inventory.map], on the working copy
    [merged] of the planning items: a matched record is consumed. *)
Definition mergeItem (merged : JsMap.t PlanningItem.t) (item : StoreInventoryItem.t)
  : StoreInventoryItem.t * JsMap.t PlanningItem.t :=
  match JsMap.get (StoreInventoryItem.sku item) merged with
  | Some planningItem =>
      ({| StoreInventoryItem.sku := StoreInventoryItem.sku item;
          StoreInventoryItem.title :=
            if truthy_str (PlanningItem.title planningItem)
            then PlanningItem.title planningItem
            else StoreInventoryItem.title item;
          StoreInventoryItem.onHand :=
            if Qeq_bool (StoreInventoryItem.onHand item) 0
            then PlanningItem.available planningItem
            else StoreInventoryItem.onHand item;
          StoreInventoryItem.reserved :=
            if Qeq_bool (StoreInventoryItem.reserved item) 0
            then PlanningItem.reserved planningItem
            else StoreInventoryItem.reserved item;
          StoreInventoryItem.inbound :=
            if Qeq_bool (StoreInventoryItem.inbound item) 0
            then PlanningItem.inbound planningItem
            else StoreInventoryItem.inbound item;
          StoreInventoryItem.sales7d := PlanningItem.sales7d planningItem;
          StoreInventoryItem.age90plus :=
            Qgt_bool (PlanningItem.age90plusUnits planningItem) 0;
          StoreInventoryItem.stranded := StoreInventoryItem.stranded item;
          StoreInventoryItem.suppressed := StoreInventoryItem.suppressed item;
          StoreInventoryItem.sellThrough := PlanningItem.sellThrough planningItem;
          StoreInventoryItem.margin := StoreInventoryItem.margin item |},
       JsMap.delete (StoreInventoryItem.sku item) merged)
  | None => (item, merged)
  end.

Fixpoint mergeInventory (merged : JsMap.t PlanningItem.t)
         (inventory : list StoreInventoryItem.t)
  : list StoreInventoryItem.t * JsMap.t PlanningItem.t :=
  match inventory with
  | [] => ([], merged)
  | item :: rest =>
      let '(item', merged') := mergeItem merged item in
      let '(rest', merged'') := mergeInventory merged' rest in
      (item' :: rest', merged'')
  end.

(** The item pushed for a planning record that no live item consumed. *)
Definition syntheticItem (planningItem : PlanningItem.t) : StoreInventoryItem.t :=
  {| StoreInventoryItem.sku := PlanningItem.sku planningItem;
     StoreInventoryItem.title :=
       if truthy_str (PlanningItem.title planningItem)
       then PlanningItem.title planningItem
       else PlanningItem.sku planningItem;
     StoreInventoryItem.onHand := PlanningItem.available planningItem;
     StoreInventoryItem.reserved := PlanningItem.reserved planningItem;
     StoreInventoryItem.inbound := PlanningItem.inbound planningItem;
     StoreInventoryItem.sales7d := PlanningItem.sales7d planningItem;
     StoreInventoryItem.age90plus :=
       Qgt_bool (PlanningItem.age90plusUnits planningItem) 0;
     StoreInventoryItem.stranded := 0%Q;
     StoreInventoryItem.suppressed := 0%Q;
     StoreInventoryItem.sellThrough := PlanningItem.sellThrough planningItem;
     StoreInventoryItem.margin := 0%Q |}.

(** The [if (planning) { ... }] block: the merged inventory. *)
Definition mergePlanning (planning : PlanningCache.t)
           (inventory : list StoreInventoryItem.t) : list StoreInventoryItem.t :=
  let '(inventory', merged) := mergeInventory (PlanningCache.items planning) inventory in
  inventory' ++ map syntheticItem (JsMap.values merged).

(** The body of [rows.forEach((row) => { ... })], which [cachePlanningReport]
    and [refreshPlanningReport] both contain word for word: the state is the
    [items] map and the [agingRisk] accumulator. *)
Definition rowSku (row : Row) : string :=
  or_default (or_str (or_str (JsMap.get "sku" row) (JsMap.get "seller-sku" row))
                     (JsMap.get "seller-sku-sku" row)) "".

Definition rowSales7d (row : Row) : Q :=
  let first := parseNumber (JsMap.get "units-shipped-t7" row) in
  if negb (Qeq_bool first 0) then first
  else parseNumber (JsMap.get "sales-shipped-last-7-days" row).

Definition planningItemOfRow (sku : string) (row : Row) : PlanningItem.t :=
  {| PlanningItem.sku := sku;
     PlanningItem.title :=
       or_default (or_str (JsMap.get "product-name" row) (JsMap.get "item-name" row)) "";
     PlanningItem.available :=
       parseNumber (or_str (JsMap.get "available" row)
                           (JsMap.get "available-quantity" row));
     PlanningItem.inbound :=
       (parseNumber (JsMap.get "inbound-working-quantity" row)
        + parseNumber (JsMap.get "inbound-shipped-quantity" row)
        + parseNumber (JsMap.get "inbound-receiving-quantity" row)
        + parseNumber (JsMap.get "inbound-quantity" row))%Q;
     PlanningItem.reserved :=
       parseNumber (or_str (JsMap.get "reserved-quantity" row)
                           (JsMap.get "total-reserved-quantity" row));
     PlanningItem.sales7d := rowSales7d row;
     PlanningItem.sellThrough := parsePercent (JsMap.get "sell-through" row);
     PlanningItem.age90plusUnits := computeAge90Plus row;
     PlanningItem.estimatedLtsf :=
       (parseNumber (JsMap.get "estimated-ltsf-next-charge" row)
        + parseNumber (JsMap.get "projected-ltsf-11-mo" row))%Q;
     PlanningItem.estimatedStorage :=
       parseNumber (JsMap.get "estimated-storage-cost-next-month" row) |}.

Definition planningStep (acc : JsMap.t PlanningItem.t * Q) (row : Row)
  : JsMap.t PlanningItem.t * Q :=
  let '(items, agingRisk) := acc in
  let sku := rowSku row in
  if negb (truthy_str sku) then acc
  else
    let item := planningItemOfRow sku row in
    (JsMap.set sku item items,
     (agingRisk + (PlanningItem.estimatedLtsf item + PlanningItem.estimatedStorage item))%Q).

Definition buildPlanning (rows : list Row) : JsMap.t PlanningItem.t * Q :=
  fold_left planningStep rows (JsMap.empty, 0%Q).

(** [planningCache.set(store, { fetchedAt: Date.now(), items, agingRisk })]
    followed by the "cached" log line. *)
Definition storePlanning (store : StoreKey) (built : JsMap.t PlanningItem.t * Q) : M unit :=
  modify (fun w =>
    set_planningCache
      (store_set (planningCache w) store
         {| PlanningCache.fetchedAt := clock w;
            PlanningCache.items := fst built;
            PlanningCache.agingRisk := snd built |}) w) ;;;
  log (PlanningCached store (JsMap.size (fst built))).

Definition cachePlanningReport (store : StoreKey) (content : string) : M unit :=
  let rows := parseTabDelimited content in
  logged <- gets planningReportHeadersLogged ;;
  (match rows with
   | first :: _ =>
       if negb logged then
         modify (set_headersLogged true) ;;;
         log (HeadersSample (firstn 50 (JsMap.keys first)))
       else ret tt
   | [] => ret tt
   end) ;;;
  storePlanning store (buildPlanning rows).

Section Server.

Variable env : Env.
Variable up : Upstream.

(** [formatEta(dateString?)] *)
Definition formatEta (dateString : option string) : string :=
  match dateString with
  | None => "TBD"
  | Some s =>
      if negb (truthy_str s) then "TBD"
      else match toLocaleDateString up s with
           | None => "TBD"
           | Some text => text
           end
  end.

Definition shipmentOfRaw (shipment : RawShipment) : StoreShipment.t :=
  {| StoreShipment.id :=
       nullish (nullish_opt (sh_ShipmentId shipment) (sh_shipmentId shipment)) "UNKNOWN";
     StoreShipment.status :=
       nullish (nullish_opt (sh_ShipmentStatus shipment) (sh_shipmentStatus shipment))
               "Unknown";
     StoreShipment.eta :=
       formatEta
         (nullish_opt
            (nullish_opt
               (nullish_opt (sh_EstimatedArrivalDate shipment)
                            (sh_estimatedArrivalDate shipment))
               (sh_ExpectedArrivalDate shipment))
            (sh_expectedArrivalDate shipment));
     StoreShipment.units :=
       nullish (pickNumber [sh_TotalUnits shipment; sh_totalUnits shipment;
                            sh_TotalQuantity shipment; sh_totalQuantity shipment;
                            sh_BoxCount shipment; sh_boxCount shipment]) 0%Q |}.

(** [data.map(...)]: reading [shipment.ShipmentId] of a [null] element
    throws. *)
Fixpoint mapShipments (l : list (option RawShipment)) : Outcome (list StoreShipment.t) :=
  match l with
  | [] => Ok []
  | None :: _ => Throw TypeError
  | Some shipment :: r =>
      match mapShipments r with
      | Ok shipments => Ok (shipmentOfRaw shipment :: shipments)
      | Throw e => Throw e
      end
  end.

Definition liftOutcome {A} (o : Outcome A) : M A :=
  match o with Ok a => ret a | Throw e => throw e end.

Definition fetchInboundShipments (store : StoreKey) : M (list StoreShipment.t) :=
  cached <- gets (getShipmentsCache store) ;;
  match cached with
  | Some c => ret (ShipmentsCache.shipments c)
  | None =>
      if negb (hasCredentials env store) then ret []
      else
        try_catch
          (response <- request (GetShipments store) (shipments_reply up) ;;
           let data :=
             nullish
               (nullish_opt
                  (match response with Some p => p_ShipmentData p | None => None end)
                  (match response with Some p => p_shipmentData p | None => None end))
               [] in
           shipments <- liftOutcome (mapShipments data) ;;
           modify (fun w =>
             set_shipmentsCache
               (store_set (shipmentsCache w) store
                  {| ShipmentsCache.fetchedAt := clock w;
                     ShipmentsCache.shipments := shipments |}) w) ;;;
           ret shipments)
          (fun error =>
             log (ShipmentsFetchFailed store error) ;;;
             ret [])
  end.

Definition storeName (store : StoreKey) : string :=
  match store with
  | US => "United States"
  | UK => "United Kingdom"
  | CA => "Canada"
  | AU => "Australia"
  end.

Definition storeText (store : StoreKey) : string :=
  match store with US => "US" | CA => "CA" | UK => "UK" | AU => "AU" end.

Definition storeCurrency (store : StoreKey) : string :=
  match store with
  | US => "USD"
  | UK => "GBP"
  | CA => "CAD"
  | AU => "AUD"
  end.

(** The [fallback] object of [fetchInventorySnapshot]. *)
Definition fallback (store : StoreKey) (stats : ReviewStats) : StoreData.t :=
  {| StoreData.code := store;
     StoreData.name := storeName store;
     StoreData.marketplace := "Amazon " ++ storeText store;
     StoreData.currency := storeCurrency store;
     StoreData.ipiScore := 0%Q;
     StoreData.storageUtilization := 0%Q;
     StoreData.agingRisk := 0%Q;
     StoreData.strandedUnits := 0%Q;
     StoreData.suppressedUnits := 0%Q;
     StoreData.inventory := [];
     StoreData.shipments := [];
     StoreData.warnings := [];
     StoreData.reviewStats := Some stats |}.

(** [{ ...fallback, inventory, shipments, agingRisk }] *)
Definition withSnapshot (base : StoreData.t) (inventory : list StoreInventoryItem.t)
           (shipments : list StoreShipment.t) (agingRisk : Q) : StoreData.t :=
  {| StoreData.code := StoreData.code base;
     StoreData.name := StoreData.name base;
     StoreData.marketplace := StoreData.marketplace base;
     StoreData.currency := StoreData.currency base;
     StoreData.ipiScore := StoreData.ipiScore base;
     StoreData.storageUtilization := StoreData.storageUtilization base;
     StoreData.agingRisk := agingRisk;
     StoreData.strandedUnits := StoreData.strandedUnits base;
     StoreData.suppressedUnits := StoreData.suppressedUnits base;
     StoreData.inventory := inventory;
     StoreData.shipments := shipments;
     StoreData.warnings := StoreData.warnings base;
     StoreData.reviewStats := StoreData.reviewStats base |}.

Definition fetchInventorySnapshot (store : StoreKey) : M StoreData.t :=
  stats <- gets reviewStats ;;
  let fallback := fallback store stats in
  if negb (hasCredentials env store) then ret fallback
  else
    try_catch
      (inventoryResponse <- request (GetInventorySummaries store) (inventory_reply up) ;;
       let inventorySummaries := nullish inventoryResponse [] in
       shipments <- fetchInboundShipments store ;;
       inventory <- liftOutcome (mapSummaries inventorySummaries) ;;
       planning <- gets (getPlanningCache store) ;;
       match planning with
       | Some planning =>
           ret (withSnapshot fallback (mergePlanning planning inventory) shipments
                             (PlanningCache.agingRisk planning))
       | None =>
           ret (withSnapshot fallback inventory shipments (StoreData.agingRisk fallback))
       end)
      (fun error =>
         log (InventoryFetchFailed store error) ;;;
         ret fallback).

(** ** The report-job orchestrator *)

(** [listReports] of reports.ts: [response.payload?.reports ?? []]. *)
Definition listReports (store : StoreKey) : M (list ReportMeta) :=
  reports <- request (ListReports store) (listReports_reply up) ;;
  ret (nullish reports []).

(** [getReport] of reports.ts: [response.payload]. *)
Definition getReport (id : string) : M (option ReportMeta) :=
  request (GetReport id) (getReport_reply up).

(** [getReportDocument] of reports.ts: [response.payload]. *)
Definition getReportDocument (id : string) : M (option ReportDocumentPayload) :=
  request (GetReportDocument id) (getReportDocument_reply up).

(** [createReport] of reports.ts: [response.reportId]. *)
Definition createReport (store : StoreKey) : M (option string) :=
  request (CreateReport store) (createReport_reply up).

(** [downloadReport] of reports.ts. *)
Definition downloadReport (url : string) (compressionAlgorithm : option string) : M string :=
  buffer <- request (Download url) (download_reply up) ;;
  match compressionAlgorithm with
  | Some algorithm =>
      if String.eqb (toUpperCase algorithm) "GZIP"
      then liftOutcome (gunzipSync up buffer)
      else ret buffer
  | None => ret buffer
  end.

(** [retryAfter > 0 ? retryAfter * 1000 : REPORT_COOLDOWN_MS] with
    [retryAfter = Number(headers?.["retry-after"] ?? 0)]. *)
Definition backoffOf (error : JsError) : jsnum :=
  let retryAfter :=
    match err_retryAfter error with
    | Some header => Number header
    | None => Fin 0
    end in
  if gt retryAfter (Fin 0) then mul retryAfter (ofZ 1000) else ofZ REPORT_COOLDOWN_MS.

Definition createReportOnce (store : StoreKey) : M (option string) :=
  try_catch
    (createReport store)
    (fun error =>
       match err_status error with
       | Some 429 =>
           let backoff := backoffOf error in
           modify (fun w =>
             set_reportCooldownUntil
               (store_set (reportCooldownUntil w) store (add (ofZ (clock w)) backoff)) w) ;;;
           log (RateLimited backoff) ;;;
           ret (Some "")
       | _ => throw error
       end).

Definition truthy_opt (s : option string) : bool :=
  match s with Some x => truthy_str x | None => false end.

Definition status_is (report : option ReportMeta) (status : string) : bool :=
  match report with
  | Some r => match processingStatus r with
              | Some s => String.eqb s status
              | None => false
              end
  | None => false
  end.

(** [report?.processingStatus === "DONE" && report.reportDocumentId] *)
Definition doneDocument (report : option ReportMeta) : option string :=
  match report with
  | Some r =>
      if status_is report "DONE" && truthy_opt (reportDocumentId r)
      then reportDocumentId r else None
  | None => None
  end.

Definition cancelledOrFatal (report : option ReportMeta) : bool :=
  status_is report "CANCELLED" || status_is report "FATAL".

(** The polling loop of [refreshPlanningReport]; the result is
    [reportDocumentId], [""] when the loop ends without one. *)
Fixpoint pollCreated (attempts : nat) (id : string) : M string :=
  match attempts with
  | O => ret ""
  | S n =>
      report <- getReport id ;;
      match doneDocument report with
      | Some documentId => ret documentId
      | None =>
          if cancelledOrFatal report then ret ""
          else sleep 10000 ;;; pollCreated n id
      end
  end.

(** The polling loop of [loadLatestPlanningReport]: [Some b] when the
    function returns [b] from inside the loop, [None] when the attempts are
    used up. *)
Fixpoint pollLatest (attempts : nat) (store : StoreKey) (id : string) : M (option bool) :=
  match attempts with
  | O => ret None
  | S n =>
      report <- getReport id ;;
      match doneDocument report with
      | Some documentId =>
          document <- getReportDocument documentId ;;
          match document with
          | Some doc =>
              if truthy_str (url doc) then
                content <- downloadReport (url doc) (compressionAlgorithm doc) ;;
                cachePlanningReport store content ;;;
                log (FinishedWhilePolling store) ;;;
                ret (Some true)
              else ret (Some true)
          | None => ret (Some true)
          end
      | None =>
          if cancelledOrFatal report then ret (Some false)
          else sleep 10000 ;;; pollLatest n store id
      end
  end.

(** [.sort((a, b) => (b.createdTime ?? "").localeCompare(a.createdTime ?? ""))]:
    a stable sort by the runtime's [localeCompare]. The comparator of [a]
    and [b] is positive, so that [b] goes first, exactly when
    [b.createdTime] collates after [a.createdTime]; on a tie the order of
    the list is kept. The sort is written as an insertion from the right,
    which is what a stable sort gives for a comparator that is a total
    preorder, as a collation is. *)
Definition created (r : ReportMeta) : string := nullish (createdTime r) "".

Fixpoint insertNewestFirst (x : ReportMeta) (sorted : list ReportMeta) : list ReportMeta :=
  match sorted with
  | [] => [x]
  | y :: rest =>
      match localeCompare up (created y) (created x) with
      | Gt => y :: insertNewestFirst x rest
      | _ => x :: sorted
      end
  end.

Definition sortNewestFirst (l : list ReportMeta) : list ReportMeta :=
  fold_right insertNewestFirst [] l.

Definition loadLatestPlanningReport (store : StoreKey) : M bool :=
  reports <- listReports store ;;
  match reports with
  | [] => ret false
  | _ =>
      match sortNewestFirst (filter (fun r => truthy_opt (createdTime r)) reports) with
      | [] => ret false
      | latest :: _ =>
          if truthy_opt (processingStatus latest)
             && negb (status_is (Some latest) "DONE") then
            polled <- (if truthy_opt (reportId latest)
                       then pollLatest 12 store (nullish (reportId latest) "")
                       else ret None) ;;
            match polled with
            | Some returned => ret returned
            | None =>
                log (AlreadyProcessing store (nullish (processingStatus latest) "")) ;;;
                ret true
            end
          else if negb (truthy_opt (reportDocumentId latest)) then ret false
          else
            document <- getReportDocument (nullish (reportDocumentId latest) "") ;;
            match document with
            | Some doc =>
                if truthy_str (url doc) then
                  content <- downloadReport (url doc) (compressionAlgorithm doc) ;;
                  cachePlanningReport store content ;;;
                  log (PlanningReused store) ;;;
                  ret true
                else ret false
            | None => ret false
            end
      end
  end.

Definition refreshPlanningReport (store : StoreKey) : M unit :=
  if negb (hasCredentials env store) then ret tt
  else
    cachedNow <- gets (getPlanningCache store) ;;
    match cachedNow with
    | Some _ => ret tt
    | None =>
        try_catch
          (reused <- loadLatestPlanningReport store ;;
           if reused : bool then ret tt
           else
             cooldown <- gets (cooldownOf store) ;;
             now <- gets clock ;;
             if lt (ofZ now) cooldown then ret tt
             else
               reportId <- createReportOnce store ;;
               if negb (truthy_opt reportId) then ret tt
               else
                 reportDocumentId <- pollCreated 12 (nullish reportId "") ;;
                 if negb (truthy_str reportDocumentId) then ret tt
                 else
                   document <- getReportDocument reportDocumentId ;;
                   match document with
                   | Some doc =>
                       if truthy_str (url doc) then
                         content <- downloadReport (url doc) (compressionAlgorithm doc) ;;
                         storePlanning store (buildPlanning (parseTabDelimited content))
                       else ret tt
                   | None => ret tt
                   end)
          (fun error => log (PlanningReportFailed store error))
    end.

(** [for (const store of REPORT_STORES) { await refreshPlanningReport(store);
    await sleep(15000); }] *)
Fixpoint refreshEach (stores : list StoreKey) : M unit :=
  match stores with
  | [] => ret tt
  | store :: rest =>
      refreshPlanningReport store ;;;
      sleep 15000 ;;;
      refreshEach rest
  end.

Definition refreshAllPlanningReports : M unit :=
  inProgress <- gets planningRefreshInProgress ;;
  if inProgress : bool then ret tt
  else
    modify (set_refreshInProgress true) ;;;
    try_finally (refreshEach REPORT_STORES) (set_refreshInProgress false).

(** [runBackground(label, task)] *)
Definition runBackground (label : string) (task : M unit) : M unit :=
  try_catch task (fun error => log (BackgroundTaskFailed label error)).

End Server.

(** ** The status query, [GET /api/reports/planning/status] *)

(** The text of [new Date(t).toISOString()], kept as the time value it
    renders. *)
Inductive IsoString : Type := Iso (ms : Z).

(** [new Date(t).toISOString()]: the time value is clipped (an invalid date
    beyond 8.64e15 ms or for a non-finite [t]) and truncated to an integer;
    an invalid date throws. *)
Definition toISOString (t : jsnum) : Outcome IsoString :=
  match t with
  | Fin q =>
      if Qle_bool (-(8640000000000000 # 1)) q && Qle_bool q (8640000000000000 # 1)
      then Ok (Iso (Z.quot (Qnum q) (Z.pos (Qden q))))
      else Throw RangeError
  | _ => Throw RangeError
  end.

Record StatusRow : Type := {
  st_store : StoreKey;
  st_cached : bool;
  st_cachedAt : option IsoString;
  st_cooldownUntil : option IsoString
}.

(** The callback of [REPORT_STORES.map] in the handler. *)
Definition statusOf (w : World) (store : StoreKey) : Outcome StatusRow :=
  let cached := planningCache w store in
  let cooldownUntil := cooldownOf store w in
  match
    match cached with
    | Some c =>
        match toISOString (ofZ (PlanningCache.fetchedAt c)) with
        | Ok text => Ok (Some text)
        | Throw e => Throw e
        end
    | None => Ok None
    end
  with
  | Throw e => Throw e
  | Ok cachedAt =>
      match
        if truthy_num cooldownUntil then
          match toISOString cooldownUntil with
          | Ok text => Ok (Some text)
          | Throw e => Throw e
          end
        else Ok None
      with
      | Throw e => Throw e
      | Ok cooldownText =>
          Ok {| st_store := store;
                st_cached := match cached with Some _ => true | None => false end;
                st_cachedAt := cachedAt;
                st_cooldownUntil := cooldownText |}
      end
  end.

Fixpoint mapOutcome {A B} (f : A -> Outcome B) (l : list A) : Outcome (list B) :=
  match l with
  | [] => Ok []
  | x :: r =>
      match f x with
      | Throw e => Throw e
      | Ok y => match mapOutcome f r with
                | Ok ys => Ok (y :: ys)
                | Throw e => Throw e
                end
      end
  end.

Definition planningStatus (w : World) : Outcome (list StatusRow) :=
  mapOutcome (statusOf w) REPORT_STORES.

(* ===================================================================== *)
(** * Vocabulary of the specification *)
(* ===================================================================== *)

(** A text ends with another. *)
Definition endsWith (s p : string) : bool :=
  String.prefix (str (rev (chars p))) (str (rev (chars s))).

(** The bucket an aging column is named after: what follows [inv-age-],
    without a closing [-days]. *)
Definition bucketOf (column : string) : string :=
  let rest := substring 8 (String.length column - 8) column in
  if endsWith rest "-days"
  then substring 0 (String.length rest - 5) rest
  else rest.

(** The four buckets the specification sets aside. *)
Definition youngBuckets : list string :=
  ["0-to-90"; "0-to-30"; "31-to-60"; "61-to-90"].

(** The specification's reading of an aging column that counts: its
    normalized name starts with [inv-age-] and the bucket it is named after
    is none of 0-to-90, 0-to-30, 31-to-60, 61-to-90. *)
Definition spec_olderThan90 (column : string) : bool :=
  startsWith column "inv-age-"
  && negb (existsb (String.eqb (bucketOf column)) youngBuckets).

Definition sumQ (l : list Q) : Q := fold_right Qplus 0%Q l.

(** The specification's [age90PlusUnits]: the sum over the counting
    columns. *)
Definition spec_age90PlusUnits (row : Row) : Q :=
  sumQ (map (fun entry => parseNumber (Some (snd entry)))
            (filter (fun entry => spec_olderThan90 (fst entry)) row)).

(** The amended reading: the name starts with [inv-age-] and the text of
    none of the four buckets occurs anywhere in it. *)
Definition withoutBucketText (column : string) : bool :=
  startsWith column "inv-age-"
  && negb (includes column "0-to-90")
  && negb (includes column "0-to-30")
  && negb (includes column "31-to-60")
  && negb (includes column "61-to-90").

(** The sum over the columns of the amended reading. *)
Definition unitsWithoutBucketText (row : Row) : Q :=
  sumQ (map (fun entry => parseNumber (Some (snd entry)))
            (filter (fun entry => withoutBucketText (fst entry)) row)).

(** Every character of the text is an ASCII character. *)
Definition isAscii (s : string) : bool :=
  forallb (fun c => code c <? 128) (chars s).

(** The characters that remain when [%] is stripped from a text. *)
Definition notPercent (c : ascii) : bool := negb (Ascii.eqb c "%").

(** [estimatedLtsf + estimatedStorage] of a record. *)
Definition riskOf (item : PlanningItem.t) : Q :=
  (PlanningItem.estimatedLtsf item + PlanningItem.estimatedStorage item)%Q.

(** The rows the loop does not drop. *)
Definition hasSku (row : Row) : bool := truthy_str (rowSku row).

(** The last row of a report that carries a given sku. *)
Definition lastRowOf (sku : string) (rows : list Row) : option Row :=
  find (fun row => String.eqb (rowSku row) sku) (rev rows).

(** The time values [Date] can render. *)
Definition validTime (t : Q) : Prop :=
  (- (8640000000000000 # 1) <= t /\ t <= 8640000000000000 # 1)%Q.

(** A cooldown entry the status handler can print: falsy (printed as
    [null]) or a valid time value. *)
Definition printable (t : jsnum) : Prop :=
  truthy_num t = false \/ exists text, toISOString t = Ok text.

(** The ways the live part of a snapshot fetch throws: the request itself
    fails, or the payload has a [null] where a summary should be. *)
Inductive liveFetchFails (up : Upstream) (w : World) : JsError -> Prop :=
| RequestThrows e :
    result (inventory_reply up (length (calls w))) = Throw e ->
    liveFetchFails up w e
| NullSummary payload :
    result (inventory_reply up (length (calls w))) = Ok payload ->
    In None (nullish payload []) ->
    liveFetchFails up w TypeError.

(* ===================================================================== *)
(** * Scenarios *)
(* ===================================================================== *)

Module Scenario.

Definition env : Env :=
  {| lwaClientId := "client"; lwaClientSecret := "secret";
     REFRESH_TOKEN_NA := "token-na"; REFRESH_TOKEN_EU := "";
     REFRESH_TOKEN_AU := "" |}.

Definition httpError (status : Z) (retryAfter : option string) : JsError :=
  {| err_status := Some status; err_retryAfter := retryAfter;
     err_code := None; err_message := "Request failed" |}.

Definition always {A} (a : A) : nat -> Reply A :=
  fun _ => {| elapsed := 0; result := Ok a |}.

Definition failing {A} (ms : Z) (e : JsError) : nat -> Reply A :=
  fun _ => {| elapsed := ms; result := Throw e |}.

(** An upstream that answers every request with an empty payload. In the
    scenarios the date text is printed as it comes and texts collate by
    character code. *)
Definition idle : Upstream :=
  {| inventory_reply := always None;
     shipments_reply := always None;
     listReports_reply := always None;
     getReport_reply := always None;
     getReportDocument_reply := always None;
     createReport_reply := always None;
     download_reply := always "";
     gunzipSync := fun s => Ok s;
     toLocaleDateString := fun s => Some s;
     localeCompare := String.compare |}.

(** Report creation is rate limited: first with [retry-after: 300], then,
    one second later, with [retry-after: 120]. *)
Definition rateLimited : Upstream :=
  {| inventory_reply := always None;
     shipments_reply := always None;
     listReports_reply := always None;
     getReport_reply := always None;
     getReportDocument_reply := always None;
     createReport_reply := fun n =>
       match n with
       | O => {| elapsed := 0; result := Throw (httpError 429 (Some "300")) |}
       | _ => {| elapsed := 1000; result := Throw (httpError 429 (Some "120")) |}
       end;
     download_reply := always "";
     gunzipSync := fun s => Ok s;
     toLocaleDateString := fun s => Some s;
     localeCompare := String.compare |}.

(** The live inventory endpoint answers 503 after 250 ms. *)
Definition inventoryDown : Upstream :=
  {| inventory_reply := failing 250 (httpError 503 None);
     shipments_reply := always None;
     listReports_reply := always None;
     getReport_reply := always None;
     getReportDocument_reply := always None;
     createReport_reply := always None;
     download_reply := always "";
     gunzipSync := fun s => Ok s;
     toLocaleDateString := fun s => Some s;
     localeCompare := String.compare |}.

(** The answer of [getReport] for report "R1" while it is not done. *)
Definition pending (status : string) : Reply (option ReportMeta) :=
  {| elapsed := 0;
     result := Ok (Some {| reportId := Some "R1"; reportDocumentId := None;
                           createdTime := None;
                           processingStatus := Some status |}) |}.

(** Two lines for the same sku; the shipped units of the first are 0. *)
Definition duplicateReport : string :=
  "sku	product-name	available	estimated-ltsf-next-charge	estimated-storage-cost-next-month	units-shipped-t7	sales-shipped-last-7-days
A	Widget	42	1.5	2	0	4
A	Widget	7	3	1	5	9".

(** No report exists yet; creation succeeds with id "R1", which is queued,
    then in progress, then done with document "D1", a gzip document that
    holds [duplicateReport]. *)
Definition reportReady : Upstream :=
  {| inventory_reply := always None;
     shipments_reply := always None;
     listReports_reply := always None;
     getReport_reply := fun n =>
       match n with
       | 2%nat => pending "IN_QUEUE"
       | 3%nat => pending "IN_PROGRESS"
       | _ => {| elapsed := 0;
                 result := Ok (Some {| reportId := Some "R1";
                                       reportDocumentId := Some "D1";
                                       createdTime := None;
                                       processingStatus := Some "DONE" |}) |}
       end;
     getReportDocument_reply :=
       always (Some {| url := "https://documents/D1";
                       compressionAlgorithm := Some "gzip" |});
     createReport_reply := fun _ => {| elapsed := 300; result := Ok (Some "R1") |};
     download_reply := always duplicateReport;
     gunzipSync := fun s => Ok s;
     toLocaleDateString := fun s => Some s;
     localeCompare := String.compare |}.

Definition noStats : ReviewStats :=
  {| today := 0; last7Days := 0; last30Days := 0; lastRunAt := None |}.

(** A server that has just started, at clock 1000000. *)
Definition started : World :=
  {| clock := 1000000;
     planningCache := fun _ => None;
     reportCooldownUntil := fun _ => None;
     shipmentsCache := fun _ => None;
     planningReportHeadersLogged := false;
     planningRefreshInProgress := false;
     reviewStats := noStats;
     calls := [];
     console := [] |}.

Definition widget : PlanningItem.t :=
  {| PlanningItem.sku := "A";
     PlanningItem.title := "Widget";
     PlanningItem.available := 42;
     PlanningItem.inbound := 6;
     PlanningItem.reserved := 2;
     PlanningItem.sales7d := 3;
     PlanningItem.sellThrough := 1 # 8;
     PlanningItem.age90plusUnits := 10;
     PlanningItem.estimatedLtsf := 4;
     PlanningItem.estimatedStorage := 1 |}.

Definition widgetCache (fetched : Z) : PlanningCache.t :=
  {| PlanningCache.fetchedAt := fetched;
     PlanningCache.items := [("A", widget)];
     PlanningCache.agingRisk := 5 |}.

Definition pallet : StoreShipment.t :=
  {| StoreShipment.id := "FBA1"; StoreShipment.status := "SHIPPED";
     StoreShipment.eta := "Nov 3"; StoreShipment.units := 12 |}.

(** A world at clock [now] whose US planning entry was fetched at
    [fetched] and whose US shipment list was fetched at [shipped]. *)
Definition cachedWorld (now fetched shipped : Z) : World :=
  {| clock := now;
     planningCache := store_set (fun _ => None) US (widgetCache fetched);
     reportCooldownUntil := fun _ => None;
     shipmentsCache :=
       store_set (fun _ => None) US
         {| ShipmentsCache.fetchedAt := shipped;
            ShipmentsCache.shipments := [pallet] |};
     planningReportHeadersLogged := true;
     planningRefreshInProgress := false;
     reviewStats := noStats;
     calls := [];
     console := [] |}.

(** A live item as [itemOfSummary] builds it. *)
Definition live (sku : string) (onHand : Q) : StoreInventoryItem.t :=
  {| StoreInventoryItem.sku := sku;
     StoreInventoryItem.title := sku;
     StoreInventoryItem.onHand := onHand;
     StoreInventoryItem.reserved := 0;
     StoreInventoryItem.inbound := 0;
     StoreInventoryItem.sales7d := 0;
     StoreInventoryItem.age90plus := false;
     StoreInventoryItem.stranded := 0;
     StoreInventoryItem.suppressed := 0;
     StoreInventoryItem.sellThrough := 0;
     StoreInventoryItem.margin := 0 |}.

(** The aging columns of the specification's example. *)
Definition agingReport : string :=
  "sku	inv-age-0-to-90-days	inv-age-91-to-180-days	inv-age-181-to-365-days
A	5	7	3".

(** Three aging columns older than 90 days; the names of the last two hold
    the texts 0-to-90 and 0-to-30 inside their own bounds. *)
Definition wideBuckets : string :=
  "sku	inv-age-91-to-180-days	inv-age-180-to-900-days	inv-age-100-to-300-days
A	7	9	4".

(** A live summary that carries a sku and a fulfillable quantity only. *)
Definition bareSummary (sku : string) (fulfillable : Z) : RawSummary :=
  {| s_inventoryDetails :=
       Some {| d_fulfillableQuantity := JNum (ofZ fulfillable);
               d_totalQuantity := JNull;
               d_reservedQuantity := None;
               d_inboundQuantity := JNull;
               d_inboundWorkingQuantity := JNull;
               d_inboundShippedQuantity := JNull;
               d_inboundReceivingQuantity := JNull |};
     s_totalQuantity := JNull;
     s_totalAvailableQuantity := JNull;
     s_totalReservedQuantity := JNull;
     s_totalInboundQuantity := JNull;
     s_inboundWorkingQuantity := JNull;
     s_totalInboundWorkingQuantity := JNull;
     s_inboundShippedQuantity := JNull;
     s_totalInboundShippedQuantity := JNull;
     s_inboundReceivingQuantity := JNull;
     s_totalInboundReceivingQuantity := JNull;
     s_sellerSku := Some sku;
     s_asin := None;
     s_productName := None;
     s_itemName := None;
     s_itemTitle := None;
     s_title := None |}.

(** The live inventory endpoint answers with two summaries, "B" with 3
    units and "C" with none. *)
Definition liveInventory : Upstream :=
  {| inventory_reply :=
       always (Some [Some (bareSummary "B" 3); Some (bareSummary "C" 0)]);
     shipments_reply := always None;
     listReports_reply := always None;
     getReport_reply := always None;
     getReportDocument_reply := always None;
     createReport_reply := always None;
     download_reply := always "";
     gunzipSync := fun s => Ok s;
     toLocaleDateString := fun s => Some s;
     localeCompare := String.compare |}.

(** A world with a stale US planning entry (fetched at 0, seven hours ago)
    and a US cooldown that ended at 20000000. *)
Definition staleWorld : World :=
  {| clock := 25200000;
     planningCache := store_set (fun _ => None) US (widgetCache 0);
     reportCooldownUntil := store_set (fun _ => None) US (Fin 20000000);
     shipmentsCache := fun _ => None;
     planningReportHeadersLogged := true;
     planningRefreshInProgress := false;
     reviewStats := noStats;
     calls := [];
     console := [] |}.

End Scenario.

(* ===================================================================== *)
(** * spapi.ts: the access-token cache *)
(* ===================================================================== *)

Module SpApi.

(** [CachedToken]; [token] is [undefined] when the token endpoint answered
    without an [access_token]. *)
Record CachedToken : Type := {
  token : option string;
  expiresAt : jsnum
}.

(** The two fields of [SpApiConfig] that [getAccessToken] reads. *)
Record Credentials : Type := {
  clientId : string;
  refresh : string
}.

(** [response.data] of the token endpoint. *)
Record TokenData : Type := {
  access_token : option string;
  expires_in : jsval
}.

(** The module state of spapi.ts, the clock, and the refresh tokens posted
    to the token endpoint so far. *)
Record State : Type := {
  now : Z;
  tokenCache : JsMap.t CachedToken;
  posted : list string
}.

(** [`${config.lwaClientId}:${config.refreshToken}`] *)
Definition cacheKey (config : Credentials) : string :=
  clientId config ++ ":" ++ refresh config.

(** [Number(response.data.expires_in ?? 3600)] *)
Definition lifetime (data : TokenData) : jsnum :=
  match expires_in data with
  | JNull => Fin 3600
  | JStr s => Number s
  | JNum n => n
  end.

(** [cached && cached.expiresAt > now + 60_000] *)
Definition usable (cached : option CachedToken) (t : Z) : bool :=
  match cached with
  | Some c => gt (expiresAt c) (ofZ (t + 60000))
  | None => false
  end.

(** [getAccessToken(config)]; [replies n] is the token endpoint's answer to
    the request issued after [n] earlier ones. [now] is read once, before
    the request. *)
Definition getAccessToken (replies : nat -> Reply TokenData) (config : Credentials)
           (s : State) : Outcome (option string) * State :=
  let key := cacheKey config in
  let cached := JsMap.get key (tokenCache s) in
  let t := now s in
  if usable cached t then
    (Ok (match cached with Some c => token c | None => None end), s)
  else
    let reply := replies (length (posted s)) in
    let posted' := (posted s ++ [refresh config])%list in
    match result reply with
    | Throw e =>
        (Throw e,
         {| now := t + elapsed reply; tokenCache := tokenCache s; posted := posted' |})
    | Ok data =>
        let accessToken := access_token data in
        let expiresIn := lifetime data in
        (Ok accessToken,
         {| now := t + elapsed reply;
            tokenCache :=
              JsMap.set key
                {| token := accessToken;
                   expiresAt := add (ofZ t) (mul expiresIn (ofZ 1000)) |}
                (tokenCache s);
            posted := posted' |})
    end.

End SpApi.

(* ===================================================================== *)
(** * reviews.ts *)
(* ===================================================================== *)

Module Reviews.

(** [ReviewRequestResult] *)
Record ReviewRequestResult : Type := {
  success : list string;
  failed : list (string * string)
}.

(** The [for (const orderId of config.orderIds)] loop of [requestReviews]:
    [posts n] tells how the [n]-th [spApiPost] of the run ends, [sent] is
    the number of posts made before this order. *)
Fixpoint requestLoop (posts : nat -> Outcome unit) (sent : nat)
         (orderIds : list string) (results : ReviewRequestResult)
  : ReviewRequestResult :=
  match orderIds with
  | [] => results
  | orderId :: rest =>
      let results' :=
        match posts sent with
        | Ok _ =>
            {| success := (success results ++ [orderId])%list;
               failed := failed results |}
        | Throw _ =>
            {| success := success results;
               failed := (failed results ++ [(orderId, "Request failed")])%list |}
        end in
      requestLoop posts (S sent) rest results'
  end.

Definition requestReviews (posts : nat -> Outcome unit) (orderIds : list string)
  : ReviewRequestResult :=
  requestLoop posts 0 orderIds {| success := []; failed := [] |}.

(** [mergeReviewStats(current, increment, when)]; [whenIso] is
    [when.toISOString()], of which [todayKey] is the first ten characters. *)
Definition mergeReviewStats (current : ReviewStats) (increment : Q) (whenIso : string)
  : ReviewStats :=
  let todayKey := substring 0 10 whenIso in
  {| today :=
       if match lastRunAt current with
          | Some last => startsWith last todayKey
          | None => false
          end
       then (today current + increment)%Q
       else increment;
     last7Days := (last7Days current + increment)%Q;
     last30Days := (last30Days current + increment)%Q;
     lastRunAt := Some whenIso |}.

End Reviews.

(** ** The daily batch and the sweep's callers in index.ts *)

Definition set_reviewStats (stats : ReviewStats) (w : World) : World :=
  {| clock := clock w;
     planningCache := planningCache w;
     reportCooldownUntil := reportCooldownUntil w;
     shipmentsCache := shipmentsCache w;
     planningReportHeadersLogged := planningReportHeadersLogged w;
     planningRefreshInProgress := planningRefreshInProgress w;
     reviewStats := stats;
     calls := calls w;
     console := console w |}.

(** The callback of [cron.schedule("0 9 * * *", ...)]: for each store with
    credentials the eligible orders are the empty list the source writes,
    so the loop body always reaches its second [continue]; the request and
    the update of [reviewStats] after it are kept as written. [nowIso] is
    [new Date().toISOString()]. *)
Fixpoint dailyBatchLoop (env : Env) (posts : nat -> Outcome unit) (nowIso : string)
         (stores : list StoreKey) (w : World) : World :=
  match stores with
  | [] => w
  | store :: rest =>
      if negb (hasCredentials env store) then dailyBatchLoop env posts nowIso rest w
      else
        let eligibleOrderIds : list string := [] in
        if Nat.eqb (length eligibleOrderIds) 0 then dailyBatchLoop env posts nowIso rest w
        else
          let result := Reviews.requestReviews posts eligibleOrderIds in
          dailyBatchLoop env posts nowIso rest
            (set_reviewStats
               (Reviews.mergeReviewStats (reviewStats w)
                  (inject_Z (Z.of_nat (length (Reviews.success result)))) nowIso) w)
  end.

Definition dailyBatch (env : Env) (posts : nat -> Outcome unit) (nowIso : string)
           (w : World) : World :=
  dailyBatchLoop env posts nowIso [US; UK; CA; AU] w.

(** ** More vocabulary *)

(** A value [pickNumber] passes over: [null], the empty text, or something
    whose number is not finite. *)
Definition skipped (value : jsval) : bool :=
  match value with
  | JNull => true
  | JStr s => if truthy_str s then negb (is_finite (Number s)) else true
  | JNum n => negb (is_finite n)
  end.

(** The number of a value [pickNumber] accepts. *)
Definition numberOf (value : jsval) : Q :=
  match value with
  | JStr s => match Number s with Fin q => q | _ => 0%Q end
  | JNum (Fin q) => q
  | _ => 0%Q
  end.

(** The characters [parseNumber] keeps. *)
Definition numericText (v : string) : list ascii := filter keep_numeric (chars v).

(** No character of the text is a separator of [normalizeHeader] or an
    upper-case letter. *)
Definition normalized (l : list ascii) : Prop :=
  Forall (fun c => is_sep c = false /\ lower_char c = c) l.

(** Every record of the map is stored under its own sku. *)
Definition keyedBySku (items : JsMap.t PlanningItem.t) : Prop :=
  Forall (fun entry => PlanningItem.sku (snd entry) = fst entry) items.

(** [response.payload?.ShipmentData ?? response.payload?.shipmentData ?? []] *)
Definition shipmentData (response : option ShipmentsResponse)
  : list (option RawShipment) :=
  nullish
    (nullish_opt
       (match response with Some p => p_ShipmentData p | None => None end)
       (match response with Some p => p_shipmentData p | None => None end))
    [].

(** The fields of an item that only a planning record fills are at their
    defaults. *)
Definition liveOnly (item : StoreInventoryItem.t) : Prop :=
  StoreInventoryItem.sales7d item = 0%Q
  /\ StoreInventoryItem.age90plus item = false
  /\ StoreInventoryItem.sellThrough item = 0%Q.

(** The same module state at a later clock. *)
Definition atClock (t : Z) (w : World) : World := set_clock t w.

(** A reply of [getReport] that lets the poll go on: neither done with a
    document nor cancelled nor fatal. *)
Definition stillPending (report : option ReportMeta) : bool :=
  match doneDocument report with
  | Some _ => false
  | None => negb (cancelledOrFatal report)
  end.

(** The reports [loadLatestPlanningReport] chooses among. *)
Definition dated (reports : list ReportMeta) : list ReportMeta :=
  filter (fun r => truthy_opt (createdTime r)) reports.

(** The token state of spapi.ts at another clock. *)
Definition tokensAt (t : Z) (s : SpApi.State) : SpApi.State :=
  {| SpApi.now := t;
     SpApi.tokenCache := SpApi.tokenCache s;
     SpApi.posted := SpApi.posted s |}.

(** The order ids of a review run, each with the number of its post. *)
Definition numbered (orderIds : list string) : list (nat * string) :=
  combine (seq 0 (length orderIds)) orderIds.

(** The post of a numbered order went through. *)
Definition delivered (posts : nat -> Outcome unit) (order : nat * string) : bool :=
  match posts (fst order) with Ok _ => true | Throw _ => false end.

(** What [downloadReport] makes of the downloaded bytes: they are
    decompressed when the document declares GZIP, in any casing. *)
Definition decoded (up : Upstream) (algorithm : option string) (buffer : string)
  : Outcome string :=
  match algorithm with
  | Some a => if String.eqb (toUpperCase a) "GZIP" then gunzipSync up buffer else Ok buffer
  | None => Ok buffer
  end.

(** The runtime's [localeCompare] is a collation: a total preorder whose
    answer for [b], [a] is the opposite of its answer for [a], [b]. *)
Definition collation (up : Upstream) : Prop :=
  (forall a, localeCompare up a a = Eq)
  /\ (forall a b, localeCompare up a b = CompOpp (localeCompare up b a))
  /\ (forall a b c,
         localeCompare up a b <> Gt -> localeCompare up b c <> Gt ->
         localeCompare up a c <> Gt).

(** The not-blank lines of a document, as [parseTabDelimited] keeps them. *)
Definition contentLines (content : string) : list string :=
  filter (fun line => negb (Nat.eqb (String.length (trim line)) 0))
         (split_lines content).

(* ===================================================================== *)
(** * Properties *)
(* ===================================================================== *)

(** ** Maps *)

Section JsMapFacts.
Context {V : Type}.
Implicit Types (m : JsMap.t V) (k : string) (v : V).

Lemma get_set_same k v m : JsMap.get k (JsMap.set k v m) = Some v.
Proof.
  induction m as [|[k' v'] r IH]; simpl.
  - now rewrite String.eqb_refl.
  - destruct (String.eqb k k') eqn:E; simpl; rewrite E; auto.
Qed.

Lemma get_set_other k k' v m :
  k <> k' -> JsMap.get k (JsMap.set k' v m) = JsMap.get k m.
Proof.
  intros Hne. induction m as [|[k'' v''] r IH]; simpl.
  - destruct (String.eqb k k') eqn:E; auto.
    apply String.eqb_eq in E. contradiction.
  - destruct (String.eqb k' k'') eqn:E; simpl.
    + apply String.eqb_eq in E. subst k''.
      destruct (String.eqb k k') eqn:E'; auto.
      apply String.eqb_eq in E'. contradiction.
    + now rewrite IH.
Qed.

Lemma get_delete_other k k' m :
  k <> k' -> JsMap.get k (JsMap.delete k' m) = JsMap.get k m.
Proof.
  intros Hne. induction m as [|[k'' v''] r IH]; simpl; auto.
  destruct (String.eqb k' k'') eqn:E; simpl.
  - apply String.eqb_eq in E. subst k''.
    destruct (String.eqb k k') eqn:E'; auto.
    apply String.eqb_eq in E'. contradiction.
  - now rewrite IH.
Qed.

End JsMapFacts.

(** ** The TTL caches *)

Lemma getPlanningCache_spec store w c :
  getPlanningCache store w = Some c <->
  planningCache w store = Some c
  /\ clock w - PlanningCache.fetchedAt c <= REPORT_CACHE_TTL_MS.
Proof.
  unfold getPlanningCache.
  destruct (planningCache w store) as [c'|]; [|split; [discriminate|intros [H _]; discriminate]].
  destruct (Z.gtb_spec (clock w - PlanningCache.fetchedAt c') REPORT_CACHE_TTL_MS) as [Hgt|Hle].
  - split; [discriminate|]. intros [H Hc]. inversion H; subst. lia.
  - split.
    + intros H; inversion H; subst. split; auto.
    + intros [H _]. exact H.
Qed.

Lemma getShipmentsCache_spec store w c :
  getShipmentsCache store w = Some c <->
  shipmentsCache w store = Some c
  /\ clock w - ShipmentsCache.fetchedAt c <= SHIPMENTS_CACHE_TTL_MS.
Proof.
  unfold getShipmentsCache.
  destruct (shipmentsCache w store) as [c'|]; [|split; [discriminate|intros [H _]; discriminate]].
  destruct (Z.gtb_spec (clock w - ShipmentsCache.fetchedAt c') SHIPMENTS_CACHE_TTL_MS) as [Hgt|Hle].
  - split; [discriminate|]. intros [H Hc]. inversion H; subst. lia.
  - split.
    + intros H; inversion H; subst. split; auto.
    + intros [H _]. exact H.
Qed.

Lemma StoreKey_eqb_eq a b : StoreKey_eqb a b = true <-> a = b.
Proof. destruct a, b; simpl; split; intro H; congruence. Qed.

Lemma StoreKey_eqb_refl a : StoreKey_eqb a a = true.
Proof. now destruct a. Qed.

Lemma store_set_same {V} (m : StoreMap V) k v : store_set m k v k = Some v.
Proof. unfold store_set. now rewrite StoreKey_eqb_refl. Qed.

Lemma store_set_other {V} (m : StoreMap V) k k' v :
  k <> k' -> store_set m k v k' = m k'.
Proof.
  intros Hne. unfold store_set.
  destruct (StoreKey_eqb k k') eqn:E; auto.
  apply StoreKey_eqb_eq in E. contradiction.
Qed.

(** What [cachePlanningReport] leaves behind: the store's entry is the
    freshly built one, stamped with the current clock; other stores, the
    clock and the requests are untouched. *)
Lemma cachePlanningReport_sets store content w :
  exists w',
    cachePlanningReport store content w = (Ok tt, w')
    /\ planningCache w' store =
         Some {| PlanningCache.fetchedAt := clock w;
                 PlanningCache.items := fst (buildPlanning (parseTabDelimited content));
                 PlanningCache.agingRisk := snd (buildPlanning (parseTabDelimited content)) |}
    /\ (forall other, store <> other -> planningCache w' other = planningCache w other)
    /\ clock w' = clock w
    /\ calls w' = calls w.
Proof.
  unfold cachePlanningReport, storePlanning, bind, gets, modify, log, ret.
  destruct (parseTabDelimited content) as [|first rest] eqn:Erows.
  - eexists; split; [reflexivity|]; simpl.
    repeat split; auto using store_set_same.
    intros other Hne. now apply store_set_other.
  - destruct (planningReportHeadersLogged w); simpl;
      (eexists; split; [reflexivity|]; simpl;
       repeat split; auto using store_set_same;
       intros other Hne; now apply store_set_other).
Qed.

(** C3, as stated, fails on the boundary: an entry whose age is exactly the
    TTL is still returned, for the planning cache (fetched at 0, read at
    21600000) and for the shipment cache (fetched at 0, read at 300000). *)
Lemma ttl_boundary_entry_still_served :
  let w := Scenario.cachedWorld 21600000 0 0 in
  let w' := Scenario.cachedWorld 300000 0 0 in
  getPlanningCache US w = Some (Scenario.widgetCache 0)
  /\ ~ (clock w - PlanningCache.fetchedAt (Scenario.widgetCache 0) < REPORT_CACHE_TTL_MS)
  /\ (exists c, getShipmentsCache US w' = Some c
                /\ ~ (clock w' - ShipmentsCache.fetchedAt c < SHIPMENTS_CACHE_TTL_MS)).
Proof.
  cbv zeta. split; [reflexivity|]. split.
  - vm_compute. intros H. discriminate H.
  - eexists. split; [reflexivity|]. vm_compute. intros H. discriminate H.
Qed.

(** C3, amended: for the planning and the shipment cache alike, a get
    returns the stored entry exactly when [now - fetchedAt <= ttl]: it is
    returned whenever [now - fetchedAt < ttl] and absent whenever
    [now - fetchedAt > ttl]; a get is a read of the module state that leaves
    a stale entry in the map, and a later set ([cachePlanningReport])
    replaces the stale entry by one stamped with the current clock, which is
    then returned. *)
Theorem ttl_cache_get :
  forall store w,
    (forall c, getPlanningCache store w = Some c <->
               planningCache w store = Some c
               /\ clock w - PlanningCache.fetchedAt c <= REPORT_CACHE_TTL_MS)
    /\ (forall c, getShipmentsCache store w = Some c <->
                  shipmentsCache w store = Some c
                  /\ clock w - ShipmentsCache.fetchedAt c <= SHIPMENTS_CACHE_TTL_MS)
    /\ (forall c, planningCache w store = Some c ->
                  (clock w - PlanningCache.fetchedAt c < REPORT_CACHE_TTL_MS ->
                   getPlanningCache store w = Some c)
                  /\ (REPORT_CACHE_TTL_MS < clock w - PlanningCache.fetchedAt c ->
                      getPlanningCache store w = None))
    /\ (forall c, shipmentsCache w store = Some c ->
                  (clock w - ShipmentsCache.fetchedAt c < SHIPMENTS_CACHE_TTL_MS ->
                   getShipmentsCache store w = Some c)
                  /\ (SHIPMENTS_CACHE_TTL_MS < clock w - ShipmentsCache.fetchedAt c ->
                      getShipmentsCache store w = None))
    /\ gets (getPlanningCache store) w = (Ok (getPlanningCache store w), w)
    /\ gets (getShipmentsCache store) w = (Ok (getShipmentsCache store w), w)
    /\ (forall content,
          exists w' fresh,
            cachePlanningReport store content w = (Ok tt, w')
            /\ getPlanningCache store w' = Some fresh
            /\ PlanningCache.fetchedAt fresh = clock w).
Proof.
  intros store w.
  split; [intros c; apply getPlanningCache_spec|].
  split; [intros c; apply getShipmentsCache_spec|].
  split.
  { intros c Hc. split; intros Hage.
    - apply getPlanningCache_spec. split; [assumption|lia].
    - unfold getPlanningCache. rewrite Hc.
      destruct (Z.gtb_spec (clock w - PlanningCache.fetchedAt c) REPORT_CACHE_TTL_MS);
        [reflexivity|lia]. }
  split.
  { intros c Hc. split; intros Hage.
    - apply getShipmentsCache_spec. split; [assumption|lia].
    - unfold getShipmentsCache. rewrite Hc.
      destruct (Z.gtb_spec (clock w - ShipmentsCache.fetchedAt c) SHIPMENTS_CACHE_TTL_MS);
        [reflexivity|lia]. }
  split; [reflexivity|]. split; [reflexivity|].
  intros content.
  destruct (cachePlanningReport_sets store content w) as (w' & Hrun & Hentry & _ & Hclock & _).
  eexists w', _. split; [exact Hrun|]. split.
  - apply getPlanningCache_spec. split; [exact Hentry|].
    simpl. rewrite Hclock. unfold REPORT_CACHE_TTL_MS. lia.
  - reflexivity.
Qed.

(** The stale US entry of [Scenario.staleWorld] (age seven hours) is absent
    for a get, and the younger one of [Scenario.cachedWorld] is returned. *)
Lemma ttl_cache_get_witness :
  getPlanningCache US Scenario.staleWorld = None
  /\ getPlanningCache US (Scenario.cachedWorld 1000000 900000 900000)
     = Some (Scenario.widgetCache 900000).
Proof.
  split.
  - apply (proj2 (proj1 (proj2 (proj2 (ttl_cache_get US Scenario.staleWorld)))
                        (Scenario.widgetCache 0) eq_refl)).
    vm_compute. reflexivity.
  - apply (proj1 (proj1 (proj2 (proj2 (ttl_cache_get US
                   (Scenario.cachedWorld 1000000 900000 900000))))
                        (Scenario.widgetCache 900000) eq_refl)).
    vm_compute. reflexivity.
Defined.

(** ** The cooldown tracker *)

Lemma backoffOf_positive e :
  backoffOf e = Inf false \/ exists b, backoffOf e = Fin b /\ (0 < b)%Q.
Proof.
  unfold backoffOf.
  set (retryAfter := match err_retryAfter e with
                     | Some header => Number header
                     | None => Fin 0
                     end).
  destruct retryAfter as [| [|] | q]; simpl.
  - right. eexists. split; [reflexivity|]. reflexivity.
  - right. eexists. split; [reflexivity|]. reflexivity.
  - left. reflexivity.
  - unfold gt, lt. destruct (Qle_bool q 0) eqn:E; simpl.
    + right. eexists. split; [reflexivity|]. reflexivity.
    + right. eexists. split; [reflexivity|].
      assert (Hq : (0 < q)%Q).
      { apply Qnot_le_lt. intros Hle. apply Qle_bool_iff in Hle. congruence. }
      apply Qmult_lt_0_compat; [exact Hq|reflexivity].
Qed.

(** A deadline set while the gate [Date.now() < cooldown] is open is not
    earlier than the deadline it replaces. *)
Lemma deadline_after_gate now now' old backoff :
  now <= now' ->
  lt (ofZ now) old = false ->
  (backoff = Inf false \/ exists b, backoff = Fin b /\ (0 < b)%Q) ->
  lt (add (ofZ now') backoff) old = false.
Proof.
  intros Htime Hgate [-> | (b & -> & Hb)].
  - destruct old as [| [|] | q]; reflexivity.
  - destruct old as [| [|] | q]; try reflexivity.
    + discriminate Hgate.
    + simpl in *. apply negb_false_iff in Hgate. apply negb_false_iff.
      apply Qle_bool_iff in Hgate. apply Qle_bool_iff.
      apply Qle_trans with (inject_Z now); [exact Hgate|].
      apply Qle_trans with (inject_Z now').
      * rewrite <- Zle_Qle. exact Htime.
      * rewrite <- (Qplus_0_r (inject_Z now')) at 1.
        apply Qplus_le_r. apply Qlt_le_weak. exact Hb.
Qed.

(** C1, as stated, fails: a region blocked at clock 1000000 for 5 minutes
    (retry-after 300) and blocked again one second later for 2 minutes
    (retry-after 120) ends with the 2-minute deadline 1121000, which is
    earlier than the 5-minute deadline 1300000 it replaced. *)
Lemma second_block_shortens_cooldown :
  let w1 := snd (createReportOnce Scenario.rateLimited US Scenario.started) in
  let w2 := snd (createReportOnce Scenario.rateLimited US w1) in
  reportCooldownUntil w1 US = Some (Fin 1300000)
  /\ clock w2 = 1001000
  /\ reportCooldownUntil w2 US = Some (Fin 1121000)
  /\ lt (Fin 1121000) (Fin 1300000) = true.
Proof. cbv zeta. repeat split; vm_compute; reflexivity. Qed.

(** C1, amended: a block is a plain overwrite. When report creation is
    rejected with status 429, the region's retry-not-before timestamp
    becomes the clock at the rejection plus the backoff of that rejection,
    whatever deadline was stored before; it is the maximum of the old and
    the new deadline whenever the block happens behind an open cooldown gate
    (the old deadline had passed when the creation was requested), which is
    how [refreshPlanningReport] reaches it. *)
Theorem block_overwrites_cooldown :
  forall up store w e,
    result (createReport_reply up (length (calls w))) = Throw e ->
    err_status e = Some 429 ->
    let reply := createReport_reply up (length (calls w)) in
    let deadline := add (ofZ (clock w + elapsed reply)) (backoffOf e) in
    exists w',
      createReportOnce up store w = (Ok (Some ""), w')
      /\ reportCooldownUntil w' store = Some deadline
      /\ (0 <= elapsed reply ->
          lt (ofZ (clock w)) (cooldownOf store w) = false ->
          lt deadline (cooldownOf store w) = false).
Proof.
  intros up store w e Hreply Hstatus reply deadline.
  unfold createReportOnce, try_catch, createReport, request.
  fold reply. unfold reply at 1. rewrite Hreply, Hstatus.
  unfold bind, modify, log, ret. simpl.
  eexists. split; [reflexivity|]. simpl. split.
  - rewrite store_set_same. reflexivity.
  - intros Helapsed Hgate. unfold deadline.
    apply deadline_after_gate with (now := clock w).
    + lia.
    + exact Hgate.
    + apply backoffOf_positive.
Qed.

(** The first rejection of [Scenario.rateLimited], on a server without a
    cooldown: the deadline is the clock plus 300 seconds. *)
Lemma block_overwrites_cooldown_witness :
  exists w',
    createReportOnce Scenario.rateLimited US Scenario.started = (Ok (Some ""), w')
    /\ reportCooldownUntil w' US
       = Some (add (ofZ (1000000 + 0))
                   (backoffOf (Scenario.httpError 429 (Some "300"))))
    /\ (0 <= 0 ->
        lt (ofZ 1000000) (cooldownOf US Scenario.started) = false ->
        lt (add (ofZ (1000000 + 0))
                (backoffOf (Scenario.httpError 429 (Some "300"))))
           (cooldownOf US Scenario.started) = false).
Proof.
  exact (block_overwrites_cooldown Scenario.rateLimited US Scenario.started
           (Scenario.httpError 429 (Some "300")) eq_refl eq_refl).
Defined.

(** ** The orchestrator's short circuit *)

(** C5: when the region has a planning entry younger than the 6-hour TTL,
    running [refreshPlanningReport] again returns at once: no request is
    issued and the module state, with the entry and its [fetchedAt], is
    what it was. *)
Theorem refresh_is_noop_on_fresh_cache :
  forall env up store w c,
    planningCache w store = Some c ->
    clock w - PlanningCache.fetchedAt c < REPORT_CACHE_TTL_MS ->
    refreshPlanningReport env up store w = (Ok tt, w)
    /\ calls (snd (refreshPlanningReport env up store w)) = calls w
    /\ planningCache (snd (refreshPlanningReport env up store w)) store = Some c.
Proof.
  intros env up store w c Hc Hage.
  assert (Hrun : refreshPlanningReport env up store w = (Ok tt, w)).
  { unfold refreshPlanningReport.
    destruct (hasCredentials env store); simpl; [|reflexivity].
    unfold bind, gets.
    assert (Hget : getPlanningCache store w = Some c).
    { apply getPlanningCache_spec. split; [exact Hc|lia]. }
    rewrite Hget. reflexivity. }
  rewrite Hrun. simpl. auto.
Qed.

(** With the US entry fetched 100 seconds ago, a refresh against an
    upstream that would rate limit report creation does nothing. *)
Lemma refresh_is_noop_on_fresh_cache_witness :
  refreshPlanningReport Scenario.env Scenario.rateLimited US
    (Scenario.cachedWorld 1000000 900000 900000)
  = (Ok tt, Scenario.cachedWorld 1000000 900000 900000).
Proof.
  apply (refresh_is_noop_on_fresh_cache Scenario.env Scenario.rateLimited US
           (Scenario.cachedWorld 1000000 900000 900000)
           (Scenario.widgetCache 900000) eq_refl).
  vm_compute. reflexivity.
Defined.

(** ** The status query *)

Lemma toISOString_valid q :
  validTime q -> toISOString (Fin q) = Ok (Iso (Z.quot (Qnum q) (Z.pos (Qden q)))).
Proof.
  intros [Hlo Hhi]. unfold toISOString.
  apply Qle_bool_iff in Hlo. apply Qle_bool_iff in Hhi.
  rewrite Hlo, Hhi. reflexivity.
Qed.

Lemma toISOString_clock t :
  validTime (inject_Z t) -> toISOString (ofZ t) = Ok (Iso t).
Proof.
  intros Hv. unfold ofZ. rewrite (toISOString_valid _ Hv). simpl.
  now rewrite Z.quot_1_r.
Qed.

(** C10: the status query reads the raw maps. For a stored planning entry
    it reports [cached = true] and the entry's [fetchedAt] as [cachedAt]
    whatever the clock is, in particular when the entry is older than the
    TTL and [getPlanningCache] gives nothing; and for a stored nonzero
    cooldown deadline it reports that deadline as [cooldownUntil] whatever
    the clock is, in particular when the deadline has passed and the
    cooldown gate is open. (The time values are those a [Date] can render;
    the other field of the row is any value the handler can print.) *)
Theorem status_reads_raw_maps :
  forall w,
    (forall c,
        planningCache w US = Some c ->
        validTime (inject_Z (PlanningCache.fetchedAt c)) ->
        printable (cooldownOf US w) ->
        (exists row,
            planningStatus w = Ok [row]
            /\ st_store row = US
            /\ st_cached row = true
            /\ st_cachedAt row = Some (Iso (PlanningCache.fetchedAt c)))
        /\ (REPORT_CACHE_TTL_MS < clock w - PlanningCache.fetchedAt c ->
            getPlanningCache US w = None))
    /\ (forall d,
           reportCooldownUntil w US = Some (Fin d) ->
           ~ (d == 0)%Q ->
           validTime d ->
           (forall c, planningCache w US = Some c ->
                      validTime (inject_Z (PlanningCache.fetchedAt c))) ->
           (exists row,
               planningStatus w = Ok [row]
               /\ st_store row = US
               /\ st_cooldownUntil row = Some (Iso (Z.quot (Qnum d) (Z.pos (Qden d)))))
           /\ ((d <= inject_Z (clock w))%Q ->
               lt (ofZ (clock w)) (cooldownOf US w) = false)).
Proof.
  intros w. split.
  - intros c Hc Hvalid Hprint. split.
    + unfold planningStatus, REPORT_STORES, mapOutcome, statusOf.
      rewrite Hc, (toISOString_clock _ Hvalid).
      destruct Hprint as [Hfalsy | [text Htext]].
      * rewrite Hfalsy. eexists. split; [reflexivity|]. simpl. auto.
      * rewrite Htext. destruct (truthy_num (cooldownOf US w));
          (eexists; split; [reflexivity|]; simpl; auto).
    + intros Hstale. unfold getPlanningCache. rewrite Hc.
      destruct (Z.gtb_spec (clock w - PlanningCache.fetchedAt c) REPORT_CACHE_TTL_MS);
        [reflexivity|lia].
  - intros d Hd Hnz Hvalid Hentry. split.
    + unfold planningStatus, REPORT_STORES, mapOutcome, statusOf, cooldownOf.
      rewrite Hd, (toISOString_valid _ Hvalid).
      assert (Htruthy : truthy_num (Fin d) = true).
      { simpl. apply negb_true_iff. destruct (Qeq_bool d 0) eqn:E; auto.
        apply Qeq_bool_iff in E. contradiction. }
      rewrite Htruthy.
      destruct (planningCache w US) as [c|] eqn:Hc.
      * rewrite (toISOString_clock _ (Hentry c eq_refl)).
        eexists. split; [reflexivity|]. simpl. auto.
      * eexists. split; [reflexivity|]. simpl. auto.
    + intros Hpast. unfold cooldownOf. rewrite Hd. simpl.
      apply negb_false_iff. apply Qle_bool_iff. exact Hpast.
Qed.

(** [Scenario.staleWorld]: the entry fetched seven hours ago and the
    cooldown that ended at 20000000 are both reported at clock 25200000. *)
Lemma status_reads_raw_maps_witness :
  (exists row,
      planningStatus Scenario.staleWorld = Ok [row]
      /\ st_store row = US
      /\ st_cached row = true
      /\ st_cachedAt row = Some (Iso 0))
  /\ getPlanningCache US Scenario.staleWorld = None
  /\ (exists row,
         planningStatus Scenario.staleWorld = Ok [row]
         /\ st_store row = US
         /\ st_cooldownUntil row = Some (Iso 20000000))
  /\ lt (ofZ (clock Scenario.staleWorld)) (cooldownOf US Scenario.staleWorld) = false.
Proof.
  assert (Hzero : validTime (inject_Z 0)) by (split; discriminate).
  assert (Hdeadline : validTime 20000000) by (split; discriminate).
  destruct (status_reads_raw_maps Scenario.staleWorld) as [Hcache Hcool].
  destruct (Hcache (Scenario.widgetCache 0) eq_refl Hzero
                   (or_intror (ex_intro _ (Iso 20000000) eq_refl)))
    as [Hrow Hstale].
  assert (Hnz : ~ (20000000 == 0)%Q) by (intros H; discriminate H).
  assert (Hentry : forall c, planningCache Scenario.staleWorld US = Some c ->
                             validTime (inject_Z (PlanningCache.fetchedAt c))).
  { intros c Hc. injection Hc as <-. exact Hzero. }
  destruct (Hcool 20000000%Q eq_refl Hnz Hdeadline Hentry)
    as [Hrow' Hgate].
  split; [exact Hrow|]. split; [apply Hstale; reflexivity|].
  split; [exact Hrow'|]. apply Hgate. discriminate.
Defined.

(** ** A snapshot fetch whose live call fails *)

Lemma mapSummaries_null l : In None l -> mapSummaries l = Throw TypeError.
Proof.
  induction l as [|[s|] r IH]; simpl; intros Hin.
  - contradiction.
  - destruct Hin as [Hin|Hin]; [discriminate|]. now rewrite IH.
  - reflexivity.
Qed.

(** [fetchInboundShipments] absorbs its own failures and never touches the
    planning cache. *)
Lemma fetchInboundShipments_total env up store w :
  exists shipments w',
    fetchInboundShipments env up store w = (Ok shipments, w')
    /\ planningCache w' = planningCache w
    /\ reviewStats w' = reviewStats w.
Proof.
  unfold fetchInboundShipments, bind, gets.
  destruct (getShipmentsCache store w) as [c|].
  - eexists _, _. split; [reflexivity|]. auto.
  - destruct (hasCredentials env store); simpl.
    + unfold try_catch, bind, request.
      destruct (result (shipments_reply up (length (calls w)))) as [response|e];
        [|eexists _, _; split; [reflexivity|]; auto].
      unfold liftOutcome.
      match goal with
      | |- context [mapShipments ?data] =>
          destruct (mapShipments data) as [shipments|e]
      end; (eexists _, _; split; [reflexivity|]; auto).
    + eexists _, _. split; [reflexivity|]. auto.
Qed.

(** C2, as stated, fails: with a fresh US planning entry (one record,
    aging risk 5) and a fresh US shipment list (one shipment) in the caches,
    a snapshot fetch whose live call answers 503 returns an empty inventory,
    no shipments and aging risk 0; the cached data is not in the answer. *)
Lemma failed_snapshot_does_not_serve_cache :
  let w := Scenario.cachedWorld 1000000 900000 900000 in
  getPlanningCache US w = Some (Scenario.widgetCache 900000)
  /\ PlanningCache.items (Scenario.widgetCache 900000) = [("A", Scenario.widget)]
  /\ (exists c, getShipmentsCache US w = Some c
                /\ ShipmentsCache.shipments c = [Scenario.pallet])
  /\ exists data w',
       fetchInventorySnapshot Scenario.env Scenario.inventoryDown US w = (Ok data, w')
       /\ StoreData.inventory data = []
       /\ StoreData.shipments data = []
       /\ StoreData.agingRisk data = 0%Q
       /\ PlanningCache.agingRisk (Scenario.widgetCache 900000) = 5%Q.
Proof.
  cbv zeta. split; [reflexivity|]. split; [reflexivity|]. split.
  - eexists. split; reflexivity.
  - eexists _, _. split; [vm_compute; reflexivity|]. repeat split.
Qed.

(** C2, amended: whenever the live part of a snapshot fetch throws (the
    request fails, as on a timeout or a 5xx, or the payload has a null
    summary), the failure is logged and the answer is the static fallback
    of the region: empty inventory, no shipments, aging risk 0. The region's
    planning cache stays as it was, and when it is the request that failed
    so do the shipment cache and the cooldowns; none of it is served in
    that answer. *)
Theorem failed_snapshot_returns_fallback :
  forall env up store w e,
    hasCredentials env store = true ->
    liveFetchFails up w e ->
    exists w',
      fetchInventorySnapshot env up store w
      = (Ok (fallback store (reviewStats w)), w')
      /\ StoreData.inventory (fallback store (reviewStats w)) = []
      /\ StoreData.shipments (fallback store (reviewStats w)) = []
      /\ StoreData.agingRisk (fallback store (reviewStats w)) = 0%Q
      /\ planningCache w' = planningCache w
      /\ (exists earlier, console w' = (earlier ++ [InventoryFetchFailed store e])%list)
      /\ (result (inventory_reply up (length (calls w))) = Throw e ->
          shipmentsCache w' = shipmentsCache w
          /\ reportCooldownUntil w' = reportCooldownUntil w
          /\ console w' = (console w ++ [InventoryFetchFailed store e])%list
          /\ calls w' = (calls w ++ [GetInventorySummaries store])%list).
Proof.
  intros env up store w e Hcred Hfail.
  unfold fetchInventorySnapshot, try_catch, bind, gets, request.
  rewrite Hcred. cbn [negb].
  destruct Hfail as [e Hthrow | payload Hok Hnull].
  - rewrite Hthrow. unfold log, modify, ret.
    eexists. split; [reflexivity|]. simpl.
    repeat split; eauto.
  - rewrite Hok.
    match goal with
    | |- context [fetchInboundShipments env up store ?w1] =>
        destruct (fetchInboundShipments_total env up store w1)
          as (shipments & w2 & Hship & Hplan & Hstats);
        rewrite Hship
    end.
    rewrite (mapSummaries_null _ Hnull).
    unfold liftOutcome, throw, log, modify, ret.
    eexists. split; [reflexivity|]. simpl.
    repeat split; eauto; congruence.
Qed.

(** The 503 of [Scenario.inventoryDown], with both caches fresh. *)
Lemma failed_snapshot_returns_fallback_witness :
  exists w',
    fetchInventorySnapshot Scenario.env Scenario.inventoryDown US
      (Scenario.cachedWorld 1000000 900000 900000)
    = (Ok (fallback US Scenario.noStats), w')
    /\ planningCache w' = planningCache (Scenario.cachedWorld 1000000 900000 900000)
    /\ console w' = [InventoryFetchFailed US (Scenario.httpError 503 None)].
Proof.
  destruct (failed_snapshot_returns_fallback Scenario.env Scenario.inventoryDown US
              (Scenario.cachedWorld 1000000 900000 900000)
              (Scenario.httpError 503 None) eq_refl
              (RequestThrows Scenario.inventoryDown
                 (Scenario.cachedWorld 1000000 900000 900000)
                 (Scenario.httpError 503 None) eq_refl))
    as (w' & Hrun & _ & _ & _ & Hplan & _ & Hrequest).
  exists w'. split; [exact Hrun|]. split; [exact Hplan|].
  destruct (Hrequest eq_refl) as (_ & _ & Hconsole & _). exact Hconsole.
Defined.

(** ** The snapshot merge *)

Lemma mergeInventory_app merged pre rest :
  mergeInventory merged (pre ++ rest) =
  (fst (mergeInventory merged pre)
   ++ fst (mergeInventory (snd (mergeInventory merged pre)) rest),
   snd (mergeInventory (snd (mergeInventory merged pre)) rest))%list.
Proof.
  revert merged. induction pre as [|item pre IH]; intros merged; simpl.
  - now destruct (mergeInventory merged rest).
  - destruct (mergeItem merged item) as [item' merged'].
    rewrite IH.
    destruct (mergeInventory merged' pre) as [pre' merged''].
    simpl. reflexivity.
Qed.

Lemma mergeInventory_length merged inventory :
  length (fst (mergeInventory merged inventory)) = length inventory.
Proof.
  revert merged. induction inventory as [|item rest IH]; intros merged; simpl; auto.
  destruct (mergeItem merged item) as [item' merged'].
  specialize (IH merged').
  destruct (mergeInventory merged' rest). simpl in *. now rewrite IH.
Qed.

(** A planning record is still in the working copy as long as no live item
    with its sku has been processed. *)
Lemma mergeInventory_keeps sku merged pre :
  ~ In sku (map StoreInventoryItem.sku pre) ->
  JsMap.get sku (snd (mergeInventory merged pre)) = JsMap.get sku merged.
Proof.
  revert merged. induction pre as [|item pre IH]; intros merged Hfresh; simpl; auto.
  simpl in Hfresh.
  assert (Hne : sku <> StoreInventoryItem.sku item) by (intros ->; apply Hfresh; now left).
  assert (Hrest : ~ In sku (map StoreInventoryItem.sku pre)) by (intros H; apply Hfresh; now right).
  unfold mergeItem.
  destruct (JsMap.get (StoreInventoryItem.sku item) merged) as [p|].
  - specialize (IH (JsMap.delete (StoreInventoryItem.sku item) merged) Hrest).
    destruct (mergeInventory (JsMap.delete (StoreInventoryItem.sku item) merged) pre).
    simpl in *. rewrite IH. now apply get_delete_other.
  - specialize (IH merged Hrest).
    destruct (mergeInventory merged pre). simpl in *. exact IH.
Qed.

(** C4, as stated, fails for a live list that repeats a sku: the first live
    item consumes the planning record, so the second live item "A" is passed
    through with [onHand] 0 and [sales7d] 0 although the fresh cache holds a
    record for "A" with [available] 42 and [sales7d] 3. *)
Lemma repeated_live_sku_is_not_merged :
  let planning := Scenario.widgetCache 900000 in
  let inventory := [Scenario.live "A" 0; Scenario.live "A" 0] in
  JsMap.get "A" (PlanningCache.items planning) = Some Scenario.widget
  /\ PlanningItem.available Scenario.widget = 42%Q
  /\ PlanningItem.sales7d Scenario.widget = 3%Q
  /\ nth_error (mergePlanning planning inventory) 1 = Some (Scenario.live "A" 0)
  /\ StoreInventoryItem.onHand (Scenario.live "A" 0) = 0%Q
  /\ StoreInventoryItem.sales7d (Scenario.live "A" 0) = 0%Q.
Proof. cbv zeta. repeat split. Qed.

(** C4, amended: for every live item whose sku has a record in the fresh
    planning cache and is the first live item with that sku, the merge takes
    the planning title if it is non-empty and keeps the live title otherwise;
    takes [available], [reserved], [inbound] of the record for [onHand],
    [reserved], [inbound] where the live value is zero and keeps the live
    value otherwise; and always takes [sales7d], [age90plus] (true exactly
    when [age90plusUnits > 0]) and [sellThrough] from the record. *)
Theorem merge_first_live_item :
  forall planning pre item post record,
    JsMap.get (StoreInventoryItem.sku item) (PlanningCache.items planning) = Some record ->
    ~ In (StoreInventoryItem.sku item) (map StoreInventoryItem.sku pre) ->
    exists merged,
      nth_error (mergePlanning planning (pre ++ item :: post)) (length pre) = Some merged
      /\ StoreInventoryItem.sku merged = StoreInventoryItem.sku item
      /\ (PlanningItem.title record <> "" ->
          StoreInventoryItem.title merged = PlanningItem.title record)
      /\ (PlanningItem.title record = "" ->
          StoreInventoryItem.title merged = StoreInventoryItem.title item)
      /\ ((StoreInventoryItem.onHand item == 0)%Q ->
          StoreInventoryItem.onHand merged = PlanningItem.available record)
      /\ (~ (StoreInventoryItem.onHand item == 0)%Q ->
          StoreInventoryItem.onHand merged = StoreInventoryItem.onHand item)
      /\ ((StoreInventoryItem.reserved item == 0)%Q ->
          StoreInventoryItem.reserved merged = PlanningItem.reserved record)
      /\ (~ (StoreInventoryItem.reserved item == 0)%Q ->
          StoreInventoryItem.reserved merged = StoreInventoryItem.reserved item)
      /\ ((StoreInventoryItem.inbound item == 0)%Q ->
          StoreInventoryItem.inbound merged = PlanningItem.inbound record)
      /\ (~ (StoreInventoryItem.inbound item == 0)%Q ->
          StoreInventoryItem.inbound merged = StoreInventoryItem.inbound item)
      /\ StoreInventoryItem.sales7d merged = PlanningItem.sales7d record
      /\ (StoreInventoryItem.age90plus merged = true <->
          (0 < PlanningItem.age90plusUnits record)%Q)
      /\ StoreInventoryItem.sellThrough merged = PlanningItem.sellThrough record.
Proof.
  intros planning pre item post record Hrecord Hfirst.
  unfold mergePlanning.
  rewrite mergeInventory_app.
  pose proof (mergeInventory_keeps _ (PlanningCache.items planning) pre Hfirst) as Hkept.
  pose proof (mergeInventory_length (PlanningCache.items planning) pre) as Hlen.
  destruct (mergeInventory (PlanningCache.items planning) pre) as [pre' working].
  simpl in Hkept, Hlen. simpl fst. simpl snd.
  rewrite Hrecord in Hkept.
  simpl mergeInventory. unfold mergeItem. rewrite Hkept.
  destruct (mergeInventory (JsMap.delete (StoreInventoryItem.sku item) working) post)
    as [post' final].
  simpl fst. simpl snd.
  eexists. split.
  { rewrite <- app_assoc. rewrite nth_error_app2 by lia.
    rewrite Hlen, Nat.sub_diag. reflexivity. }
  simpl.
  assert (Hzero : forall x (a b : Q),
            ((x == 0)%Q -> (if Qeq_bool x 0 then a else b) = a)
            /\ (~ (x == 0)%Q -> (if Qeq_bool x 0 then a else b) = b)).
  { intros x a b. destruct (Qeq_bool x 0) eqn:E.
    - apply Qeq_bool_iff in E. split; [reflexivity|contradiction].
    - apply Qeq_bool_neq in E. split; [contradiction|reflexivity]. }
  split; [reflexivity|].
  split. { intros Hne. destruct (PlanningItem.title record); [contradiction|reflexivity]. }
  split. { intros ->. reflexivity. }
  split; [apply Hzero|]. split; [apply Hzero|].
  split; [apply Hzero|]. split; [apply Hzero|].
  split; [apply Hzero|]. split; [apply Hzero|].
  split; [reflexivity|].
  split; [|reflexivity].
  unfold Qgt_bool. rewrite negb_true_iff. split.
  - intros E. apply Qnot_le_lt. intros Hle. apply Qle_bool_iff in Hle. congruence.
  - intros Hlt. destruct (Qle_bool (PlanningItem.age90plusUnits record) 0) eqn:E; auto.
    apply Qle_bool_iff in E. exfalso. exact (Qlt_not_le _ _ Hlt E).
Qed.

(** The specification's example: a live [onHand] of 0 becomes the 42 of the
    planning record, a live [onHand] of 10 stays 10. *)
Lemma merge_first_live_item_witness :
  (exists merged,
      nth_error (mergePlanning (Scenario.widgetCache 900000) [Scenario.live "A" 0]) 0
      = Some merged
      /\ StoreInventoryItem.onHand merged = 42%Q)
  /\ (exists merged,
         nth_error (mergePlanning (Scenario.widgetCache 900000) [Scenario.live "A" 10]) 0
         = Some merged
         /\ StoreInventoryItem.onHand merged = 10%Q).
Proof.
  split.
  - destruct (merge_first_live_item (Scenario.widgetCache 900000) []
                (Scenario.live "A" 0) [] Scenario.widget eq_refl (fun H => H))
      as (merged & Hnth & _ & _ & _ & Hzero & _).
    exists merged. split; [exact Hnth|]. apply Hzero. reflexivity.
  - destruct (merge_first_live_item (Scenario.widgetCache 900000) []
                (Scenario.live "A" 10) [] Scenario.widget eq_refl (fun H => H))
      as (merged & Hnth & _ & _ & _ & _ & Hkeep & _).
    exists merged. split; [exact Hnth|]. apply Hkeep. intros H. discriminate H.
Defined.

(** ** The extractors of reports.ts *)

Lemma chars_str l : chars (str l) = l.
Proof. apply list_ascii_of_string_of_list_ascii. Qed.

Lemma str_chars s : str (chars s) = s.
Proof. apply string_of_list_ascii_of_string. Qed.

Lemma truthy_str_false s : truthy_str s = false <-> s = "".
Proof. destruct s; simpl; split; congruence. Qed.

(** [parseNumber] reads a text as it reads the text without its [%]
    characters. *)
Lemma parseNumber_ignores_percent v :
  parseNumber (Some v) = parseNumber (Some (str (filter notPercent (chars v)))).
Proof.
  assert (Hkeep : forall l, filter keep_numeric (filter notPercent l) = filter keep_numeric l).
  { induction l as [|c l IH]; simpl; auto.
    destruct (notPercent c) eqn:Ep; simpl.
    - destruct (keep_numeric c); now rewrite IH.
    - assert (Hc : keep_numeric c = false).
      { unfold notPercent in Ep. apply negb_false_iff in Ep.
        apply Ascii.eqb_eq in Ep. subst c. reflexivity. }
      now rewrite Hc. }
  unfold parseNumber.
  destruct (truthy_str v) eqn:Ev; simpl.
  - destruct (truthy_str (str (filter notPercent (chars v)))) eqn:Es; simpl.
    + now rewrite chars_str, Hkeep.
    + apply truthy_str_false in Es.
      assert (Hnil : filter notPercent (chars v) = []).
      { rewrite <- (chars_str (filter notPercent (chars v))), Es. reflexivity. }
      rewrite <- Hkeep, Hnil. reflexivity.
  - apply truthy_str_false in Ev. subst v. reflexivity.
Qed.

(** C7: percent parsing. A text that contains [%] gives its number, read
    with the [%] stripped, divided by 100; a text without [%] gives its
    number divided by 100 when that number is greater than 1 and the number
    itself otherwise; so "12.5%", "0.125" and "12.5" all give 0.125, and ""
    gives 0. *)
Theorem parsePercent_cases :
  forall v,
    (includes v "%" = true ->
     parsePercent (Some v)
     = (parseNumber (Some (str (filter notPercent (chars v)))) / 100)%Q)
    /\ (includes v "%" = false -> (1 < parseNumber (Some v))%Q ->
        parsePercent (Some v) = (parseNumber (Some v) / 100)%Q)
    /\ (includes v "%" = false -> (parseNumber (Some v) <= 1)%Q ->
        parsePercent (Some v) = parseNumber (Some v))
    /\ (parsePercent (Some "12.5%") == 0.125)%Q
    /\ (parsePercent (Some "0.125") == 0.125)%Q
    /\ (parsePercent (Some "12.5") == 0.125)%Q
    /\ (parsePercent (Some "") == 0)%Q.
Proof.
  intros v.
  assert (Hempty : truthy_str v = false -> parseNumber (Some v) = 0%Q).
  { intros E. unfold parseNumber. now rewrite E. }
  split; [|split; [|split]].
  - intros Hpct. unfold parsePercent.
    destruct (truthy_str v) eqn:Ev; cbn [negb].
    + rewrite Hpct. now rewrite <- parseNumber_ignores_percent.
    + apply truthy_str_false in Ev. subst v. discriminate Hpct.
  - intros Hpct Hgt. unfold parsePercent.
    destruct (truthy_str v) eqn:Ev; cbn [negb].
    + rewrite Hpct. unfold Qgt_bool.
      destruct (Qle_bool (parseNumber (Some v)) 1) eqn:E; cbn [negb]; auto.
      apply Qle_bool_iff in E. exfalso. exact (Qlt_not_le _ _ Hgt E).
    + rewrite (Hempty eq_refl) in Hgt. discriminate Hgt.
  - intros Hpct Hle. unfold parsePercent.
    destruct (truthy_str v) eqn:Ev; cbn [negb].
    + rewrite Hpct. unfold Qgt_bool.
      apply Qle_bool_iff in Hle. now rewrite Hle.
    + now rewrite (Hempty eq_refl).
  - repeat split; vm_compute; reflexivity.
Qed.

(** "12.5%" contains a percent sign, "12.5" is greater than 1 and "0.125"
    is not. *)
Lemma parsePercent_cases_witness :
  parsePercent (Some "12.5%") = (parseNumber (Some "12.5") / 100)%Q
  /\ parsePercent (Some "12.5") = (parseNumber (Some "12.5") / 100)%Q
  /\ parsePercent (Some "0.125") = parseNumber (Some "0.125").
Proof.
  split; [|split].
  - exact (proj1 (parsePercent_cases "12.5%") eq_refl).
  - exact (proj1 (proj2 (parsePercent_cases "12.5")) eq_refl eq_refl).
  - apply (proj1 (proj2 (proj2 (parsePercent_cases "0.125"))) eq_refl).
    intros H. discriminate H.
Defined.

Lemma sumQ_app l x : (sumQ (l ++ [x]) == sumQ l + x)%Q.
Proof.
  induction l as [|y l IH]; simpl.
  - ring.
  - rewrite IH. ring.
Qed.

Lemma age_step_spec total entry :
  age_step total entry =
  if withoutBucketText (fst entry)
  then (total + parseNumber (Some (snd entry)))%Q else total.
Proof.
  destruct entry as [key value]. unfold age_step, withoutBucketText. simpl.
  destruct (startsWith key "inv-age-"); simpl; auto.
  destruct (includes key "0-to-90"); simpl; auto.
  destruct (includes key "0-to-30"); simpl; auto.
  destruct (includes key "31-to-60"); simpl; auto.
  destruct (includes key "61-to-90"); simpl; auto.
Qed.

Lemma computeAge90Plus_from total row :
  (fold_left age_step row total == total + unitsWithoutBucketText row)%Q.
Proof.
  revert total. induction row as [|entry row IH]; intros total.
  - unfold unitsWithoutBucketText. simpl. ring.
  - simpl fold_left. rewrite IH, age_step_spec.
    unfold unitsWithoutBucketText. simpl filter.
    destruct (withoutBucketText (fst entry)); simpl; ring.
Qed.

(** C6, as stated, fails: in the record of [Scenario.wideBuckets] the
    columns inv-age-91-to-180-days (7), inv-age-180-to-900-days (9) and
    inv-age-100-to-300-days (4) all start with inv-age- and none is one of
    the buckets 0-to-90, 0-to-30, 31-to-60, 61-to-90, so the claim's sum is
    20; [age90plusUnits] is 7, the last two columns being left out because
    the texts 0-to-90 and 0-to-30 occur inside their names. *)
Lemma aging_sum_drops_unnamed_buckets :
  exists row,
    parseTabDelimited Scenario.wideBuckets = [row]
    /\ map (fun entry => (fst entry, spec_olderThan90 (fst entry))) row
       = [("sku", false);
          ("inv-age-91-to-180-days", true);
          ("inv-age-180-to-900-days", true);
          ("inv-age-100-to-300-days", true)]
    /\ (spec_age90PlusUnits row == 20)%Q
    /\ (PlanningItem.age90plusUnits (planningItemOfRow (rowSku row) row) == 7)%Q
    /\ ~ (7 == 20)%Q.
Proof.
  eexists. split; [vm_compute; reflexivity|].
  split; [vm_compute; reflexivity|].
  split; [vm_compute; reflexivity|].
  split; [vm_compute; reflexivity|].
  intros H. discriminate H.
Qed.

(** C6, amended: the [age90plusUnits] of every parsed record is the sum of
    the parsed values of the columns whose normalized name starts with
    [inv-age-] and holds the text of none of 0-to-90, 0-to-30, 31-to-60 and
    61-to-90 anywhere in it; the record with 5 units in 0-to-90 days, 7 in
    91-to-180 and 3 in 181-to-365 has 10, which there is also the sum over
    the buckets other than the four named ones. *)
Theorem age90PlusUnits_sums_columns_without_bucket_text :
  (forall sku row,
      (PlanningItem.age90plusUnits (planningItemOfRow sku row)
       == unitsWithoutBucketText row)%Q)
  /\ (exists row,
         parseTabDelimited Scenario.agingReport = [row]
         /\ JsMap.get "inv-age-0-to-90-days" row = Some "5"
         /\ JsMap.get "inv-age-91-to-180-days" row = Some "7"
         /\ JsMap.get "inv-age-181-to-365-days" row = Some "3"
         /\ (computeAge90Plus row == 10)%Q
         /\ (spec_age90PlusUnits row == 10)%Q).
Proof.
  split.
  - intros sku row. simpl. unfold computeAge90Plus.
    rewrite computeAge90Plus_from. ring.
  - eexists. split; [vm_compute; reflexivity|].
    repeat split; vm_compute; reflexivity.
Qed.

(** ** The planning records of a report *)

Lemma buildPlanning_snoc rows row :
  buildPlanning (rows ++ [row]) = planningStep (buildPlanning rows) row.
Proof. unfold buildPlanning. now rewrite fold_left_app. Qed.

Lemma planningStep_stores items risk row :
  hasSku row = true ->
  planningStep (items, risk) row
  = (JsMap.set (rowSku row) (planningItemOfRow (rowSku row) row) items,
     (risk + riskOf (planningItemOfRow (rowSku row) row))%Q).
Proof. unfold planningStep, hasSku. intros ->. reflexivity. Qed.

Lemma planningStep_drops acc row :
  hasSku row = false -> planningStep acc row = acc.
Proof. unfold planningStep, hasSku. destruct acc. intros ->. reflexivity. Qed.

(** C8: the [sales7d] of every parsed record is the parsed value of
    [units-shipped-t7], unless that value is zero, in which case it is the
    parsed value of [sales-shipped-last-7-days]: a column holding exactly 0
    falls back like a missing one. The record is the one the loop stores
    under the row's sku. *)
Theorem sales7d_falls_back_on_zero :
  forall row,
    let units := parseNumber (JsMap.get "units-shipped-t7" row) in
    let secondary := parseNumber (JsMap.get "sales-shipped-last-7-days" row) in
    let record := planningItemOfRow (rowSku row) row in
    (~ (units == 0)%Q -> PlanningItem.sales7d record = units)
    /\ ((units == 0)%Q -> PlanningItem.sales7d record = secondary)
    /\ (JsMap.get "units-shipped-t7" row = None ->
        PlanningItem.sales7d record = secondary)
    /\ (JsMap.get "units-shipped-t7" row = Some "0" ->
        PlanningItem.sales7d record = secondary)
    /\ (hasSku row = true ->
        forall items risk,
          JsMap.get (rowSku row) (fst (planningStep (items, risk) row)) = Some record).
Proof.
  intros row units secondary record.
  assert (Hnonzero : ~ (units == 0)%Q -> PlanningItem.sales7d record = units).
  { intros Hne. simpl. unfold rowSales7d. fold units.
    destruct (Qeq_bool units 0) eqn:E; simpl; auto.
    apply Qeq_bool_iff in E. contradiction. }
  assert (Hzero : (units == 0)%Q -> PlanningItem.sales7d record = secondary).
  { intros Heq. simpl. unfold rowSales7d. fold units.
    apply Qeq_bool_iff in Heq. now rewrite Heq. }
  split; [exact Hnonzero|]. split; [exact Hzero|].
  split; [|split].
  - intros Hmissing. apply Hzero. unfold units. rewrite Hmissing. reflexivity.
  - intros Hexact. apply Hzero. unfold units. rewrite Hexact. reflexivity.
  - intros Hsku items risk. rewrite (planningStep_stores _ _ _ Hsku). simpl.
    apply get_set_same.
Qed.

(** The first line of [Scenario.duplicateReport] has 0 shipped units and 4
    in the secondary column; the second has 5 shipped units. *)
Lemma sales7d_falls_back_on_zero_witness :
  exists first second,
    parseTabDelimited Scenario.duplicateReport = [first; second]
    /\ PlanningItem.sales7d (planningItemOfRow (rowSku first) first)
       = parseNumber (JsMap.get "sales-shipped-last-7-days" first)
    /\ PlanningItem.sales7d (planningItemOfRow (rowSku second) second)
       = parseNumber (JsMap.get "units-shipped-t7" second).
Proof.
  eexists _, _. split; [vm_compute; reflexivity|]. split.
  - refine (proj1 (proj2 (proj2 (proj2 (sales7d_falls_back_on_zero _)))) _).
    reflexivity.
  - refine (proj1 (sales7d_falls_back_on_zero _) _).
    intros H. discriminate H.
Defined.

Lemma agingRisk_total rows :
  (snd (buildPlanning rows)
   == sumQ (map (fun row => riskOf (planningItemOfRow (rowSku row) row))
                (filter hasSku rows)))%Q.
Proof.
  induction rows as [|row rows IH] using rev_ind.
  - reflexivity.
  - rewrite buildPlanning_snoc, filter_app. simpl filter.
    destruct (hasSku row) eqn:Hsku.
    + destruct (buildPlanning rows) as [items risk].
      rewrite (planningStep_stores _ _ _ Hsku). simpl snd in *.
      rewrite map_app. simpl map. rewrite sumQ_app, IH. reflexivity.
    + rewrite (planningStep_drops _ _ Hsku), app_nil_r. exact IH.
Qed.

Lemma items_last_write_wins rows sku :
  sku <> "" ->
  JsMap.get sku (fst (buildPlanning rows))
  = option_map (planningItemOfRow sku) (lastRowOf sku rows).
Proof.
  intros Hsku. induction rows as [|row rows IH] using rev_ind.
  - reflexivity.
  - rewrite buildPlanning_snoc. unfold lastRowOf in *.
    rewrite rev_app_distr. simpl rev. simpl app. simpl find.
    destruct (hasSku row) eqn:Hrow.
    + destruct (buildPlanning rows) as [items risk].
      rewrite (planningStep_stores _ _ _ Hrow). simpl fst in *.
      destruct (String.eqb (rowSku row) sku) eqn:E.
      * apply String.eqb_eq in E. subst sku. simpl. apply get_set_same.
      * rewrite get_set_other; [exact IH|].
        intros ->. now rewrite String.eqb_refl in E.
    + rewrite (planningStep_drops _ _ Hrow).
      assert (E : String.eqb (rowSku row) sku = false).
      { unfold hasSku in Hrow. apply truthy_str_false in Hrow. rewrite Hrow.
        destruct sku; [contradiction|reflexivity]. }
      rewrite E. exact IH.
Qed.

(** C9: the cached [agingRisk] is the total of
    [estimatedLtsf + estimatedStorage] over every row with a non-empty sku,
    repeated skus included, while the [items] map holds for each sku the
    record of the last row that carries it; so for the two-line report
    [Scenario.duplicateReport], whose lines share the sku "A", the cached
    [agingRisk] (7.5) exceeds the total over the records of the final map
    (4). *)
Theorem agingRisk_counts_repeated_skus :
  (forall rows,
      (snd (buildPlanning rows)
       == sumQ (map (fun row => riskOf (planningItemOfRow (rowSku row) row))
                    (filter hasSku rows)))%Q)
  /\ (forall rows sku,
         sku <> "" ->
         JsMap.get sku (fst (buildPlanning rows))
         = option_map (planningItemOfRow sku) (lastRowOf sku rows))
  /\ (exists first second w' cache,
         parseTabDelimited Scenario.duplicateReport = [first; second]
         /\ rowSku first = "A" /\ rowSku second = "A"
         /\ cachePlanningReport US Scenario.duplicateReport Scenario.started = (Ok tt, w')
         /\ planningCache w' US = Some cache
         /\ JsMap.keys (PlanningCache.items cache) = ["A"]
         /\ (sumQ (map riskOf (JsMap.values (PlanningCache.items cache)))
             < PlanningCache.agingRisk cache)%Q).
Proof.
  split; [exact agingRisk_total|]. split; [exact items_last_write_wins|].
  eexists _, _, _, _.
  split; [vm_compute; reflexivity|].
  split; [vm_compute; reflexivity|].
  split; [vm_compute; reflexivity|].
  split; [vm_compute; reflexivity|].
  split; [vm_compute; reflexivity|].
  split; vm_compute; reflexivity.
Qed.

(** The record kept for "A" in [Scenario.duplicateReport] is the one of the
    second line. *)
Lemma agingRisk_counts_repeated_skus_witness :
  JsMap.get "A" (fst (buildPlanning (parseTabDelimited Scenario.duplicateReport)))
  = option_map (planningItemOfRow "A")
               (lastRowOf "A" (parseTabDelimited Scenario.duplicateReport)).
Proof.
  apply (proj1 (proj2 agingRisk_counts_repeated_skus)).
  intros H. discriminate H.
Defined.

(** ** Worked runs *)

(** A first refresh on a server that has just started lists the reports,
    creates one, polls it three times (two waits of ten seconds), fetches
    the document and caches the parsed records; a second refresh right
    after it does nothing. *)
Example refresh_creates_polls_and_caches :
  exists w' cache,
    refreshPlanningReport Scenario.env Scenario.reportReady US Scenario.started
    = (Ok tt, w')
    /\ calls w' = [ListReports US; CreateReport US; GetReport "R1"; GetReport "R1";
                   GetReport "R1"; GetReportDocument "D1";
                   Download "https://documents/D1"]
    /\ clock w' = 1020300
    /\ planningCache w' US = Some cache
    /\ PlanningCache.fetchedAt cache = 1020300
    /\ JsMap.keys (PlanningCache.items cache) = ["A"]
    /\ refreshPlanningReport Scenario.env Scenario.reportReady US w' = (Ok tt, w').
Proof.
  eexists _, _. split; [vm_compute; reflexivity|].
  repeat split; vm_compute; reflexivity.
Qed.

(** A live payload that merely lacks its list of summaries is an empty live
    list: the fresh planning record is emitted as a synthetic item, with the
    cached shipments and the cached aging risk. *)
Example empty_live_payload_serves_planning :
  exists data w',
    fetchInventorySnapshot Scenario.env Scenario.idle US
      (Scenario.cachedWorld 1000000 900000 900000) = (Ok data, w')
    /\ StoreData.inventory data = [syntheticItem Scenario.widget]
    /\ StoreData.shipments data = [Scenario.pallet]
    /\ StoreData.agingRisk data = 5%Q.
Proof.
  eexists _, _. split; [vm_compute; reflexivity|]. repeat split.
Qed.

(** Number parsing drops every character that is not a digit, a dot or a
    minus sign, and reads what cannot be a number as 0. *)
Example parseNumber_examples :
  (parseNumber (Some "1,234") == 1234)%Q
  /\ (parseNumber (Some "abc") == 0)%Q
  /\ (parseNumber (Some "$ -12.50") == -12.5)%Q
  /\ (parseNumber (Some "1-2") == 0)%Q
  /\ (parseNumber None == 0)%Q.
Proof. repeat split; vm_compute; reflexivity. Qed.

(** Header names are trimmed, lower-cased and have each run of white space
    and underscores replaced by one hyphen. *)
Example normalizeHeader_examples :
  normalizeHeader " Inv_Age  0 to 90 Days " = "inv-age-0-to-90-days"
  /\ normalizeHeader "Seller__SKU" = "seller-sku".
Proof. split; reflexivity. Qed.

(* ===================================================================== *)
(** * Further properties of reports.ts *)
(* ===================================================================== *)

(** X1: [parseNumber] depends only on the digits, dots and minus signs of a
    text: two texts with the same such characters, in the same order, parse
    to the same number, whatever else (currency signs, thousands
    separators, spaces, letters) surrounds them. *)
Theorem parseNumber_reads_numeric_text_only :
  forall a b,
    numericText a = numericText b ->
    parseNumber (Some a) = parseNumber (Some b).
Proof.
  assert (Hblank : forall v, numericText v = [] -> parseNumber (Some v) = 0%Q).
  { intros v Hv. unfold parseNumber.
    destruct (truthy_str v); simpl; auto.
    unfold numericText in Hv. rewrite Hv. reflexivity. }
  intros a b Hsame.
  destruct (truthy_str a) eqn:Ea; destruct (truthy_str b) eqn:Eb.
  - unfold parseNumber. rewrite Ea, Eb. simpl.
    unfold numericText in Hsame. now rewrite Hsame.
  - apply truthy_str_false in Eb. subst b.
    rewrite (Hblank a Hsame). reflexivity.
  - apply truthy_str_false in Ea. subst a.
    symmetry in Hsame. rewrite (Hblank b Hsame). reflexivity.
  - apply truthy_str_false in Ea. apply truthy_str_false in Eb. now subst.
Qed.

(** "$1,234.50 USD" reads like "1234.50". *)
Lemma parseNumber_reads_numeric_text_only_witness :
  parseNumber (Some "$1,234.50 USD") = parseNumber (Some "1234.50").
Proof.
  apply (parseNumber_reads_numeric_text_only "$1,234.50 USD" "1234.50").
  reflexivity.
Defined.



Lemma lower_char_fixed c : lower_char (lower_char c) = lower_char c.
Proof.
  destruct c as [b0 b1 b2 b3 b4 b5 b6 b7].
  destruct b0, b1, b2, b3, b4, b5, b6, b7; reflexivity.
Qed.

Lemma is_space_sep c : is_sep c = false -> is_space c = false.
Proof. unfold is_sep. now intros H%orb_false_iff. Qed.

Lemma collapse_normalized in_run l :
  normalized (collapse_seps in_run (map lower_char l)).
Proof.
  revert in_run. induction l as [|c l IH]; intros in_run; simpl.
  - constructor.
  - destruct (is_sep (lower_char c)) eqn:E.
    + destruct in_run; [apply IH|].
      constructor; [split; reflexivity|apply IH].
    + constructor; [|apply IH]. split; [exact E|apply lower_char_fixed].
Qed.

Lemma dropWhile_head_kept {A} (p : A -> bool) l :
  Forall (fun x => p x = false) l -> dropWhile p l = l.
Proof. intros H. destruct H as [|x l Hx _]; simpl; auto. now rewrite Hx. Qed.

Lemma normalized_fixed l :
  normalized l ->
  trim_chars l = l /\ map lower_char l = l /\ collapse_seps false l = l.
Proof.
  intros Hn.
  assert (Hspace : Forall (fun c => is_space c = false) l).
  { eapply Forall_impl; [|exact Hn]. intros c [Hc _]. now apply is_space_sep. }
  split; [|split].
  - unfold trim_chars. rewrite (dropWhile_head_kept _ _ Hspace).
    rewrite dropWhile_head_kept; [apply rev_involutive|].
    now apply Forall_rev.
  - induction Hn as [|c l [_ Hc] _ IH]; simpl; auto.
    rewrite Hc, IH; auto. now inversion Hspace.
  - clear Hspace. induction Hn as [|c l [Hc _] _ IH]; simpl; auto.
    now rewrite Hc, IH.
Qed.

(** X3: a normalized header holds no white space, no underscore and no
    upper-case letter, and normalizing it again changes nothing. *)
Theorem normalizeHeader_idempotent :
  forall header,
    normalized (chars (normalizeHeader header))
    /\ normalizeHeader (normalizeHeader header) = normalizeHeader header.
Proof.
  intros header.
  assert (Hn : normalized (chars (normalizeHeader header))).
  { unfold normalizeHeader, toLowerCase. rewrite !chars_str. apply collapse_normalized. }
  split; [exact Hn|].
  destruct (normalized_fixed _ Hn) as (Htrim & Hlower & Hcollapse).
  set (once := normalizeHeader header) in *.
  unfold normalizeHeader at 1. unfold toLowerCase, trim.
  rewrite !chars_str, Htrim, Hlower, Hcollapse. apply str_chars.
Qed.

Section JsMapKeys.
Context {V : Type}.
Implicit Types (m : JsMap.t V) (k : string) (v : V).

Lemma keys_set_in k v m :
  In k (JsMap.keys m) -> JsMap.keys (JsMap.set k v m) = JsMap.keys m.
Proof.
  induction m as [|[k' v'] r IH]; simpl; intros Hin; [contradiction|].
  destruct (String.eqb k k') eqn:E; simpl; auto.
  f_equal. apply IH. destruct Hin as [->|Hin]; auto.
  now rewrite String.eqb_refl in E.
Qed.

Lemma keys_set_new k v m :
  ~ In k (JsMap.keys m) -> JsMap.keys (JsMap.set k v m) = (JsMap.keys m ++ [k])%list.
Proof.
  induction m as [|[k' v'] r IH]; simpl; intros Hnew; auto.
  destruct (String.eqb k k') eqn:E; simpl.
  - apply String.eqb_eq in E. subst k'. exfalso. apply Hnew. now left.
  - f_equal. apply IH. intros Hin. apply Hnew. now right.
Qed.

Lemma keys_set k k' v m :
  In k (JsMap.keys (JsMap.set k' v m)) <-> k = k' \/ In k (JsMap.keys m).
Proof.
  destruct (in_dec string_dec k' (JsMap.keys m)) as [Hin|Hnew].
  - rewrite (keys_set_in _ _ _ Hin). split; auto.
    intros [->|H]; auto.
  - rewrite (keys_set_new _ _ _ Hnew), in_app_iff. simpl. split.
    + intros [H|[H|[]]]; auto.
    + intros [->|H]; auto.
Qed.

Lemma get_in_keys k m :
  (exists v, JsMap.get k m = Some v) <-> In k (JsMap.keys m).
Proof.
  induction m as [|[k' v'] r IH]; simpl.
  - split; [intros [v H]; discriminate|contradiction].
  - destruct (String.eqb k k') eqn:E.
    + apply String.eqb_eq in E. subst k'. split; eauto.
    + rewrite IH. split; auto. intros [->|H]; auto.
      now rewrite String.eqb_refl in E.
Qed.

Lemma get_in_entries k v m : JsMap.get k m = Some v -> In (k, v) m.
Proof.
  induction m as [|[k' v'] r IH]; simpl; [discriminate|].
  destruct (String.eqb k k') eqn:E.
  - apply String.eqb_eq in E. subst k'. intros [= ->]. now left.
  - intros H. right. now apply IH.
Qed.

Lemma set_entries k v m entry :
  In entry (JsMap.set k v m) -> entry = (k, v) \/ In entry m.
Proof.
  induction m as [|[k' v'] r IH]; simpl.
  - intros [<-|[]]. now left.
  - destruct (String.eqb k k') eqn:E; simpl.
    + apply String.eqb_eq in E. subst k'. intros [<-|H]; auto.
    + intros [<-|H]; auto. destruct (IH H); auto.
Qed.

Lemma size_keys m : JsMap.size m = length (JsMap.keys m).
Proof. unfold JsMap.size, JsMap.keys. now rewrite length_map. Qed.

End JsMapKeys.

Lemma fill_row_keys headers values row column :
  In column (JsMap.keys (fill_row headers values row))
  <-> In column headers \/ In column (JsMap.keys row).
Proof.
  revert values row. induction headers as [|h hs IH]; intros values row; simpl.
  - split; auto. intros [[]|H]; auto.
  - rewrite IH, keys_set. split.
    + intros [H|[->|H]]; auto.
    + intros [[<-|H]|H]; auto.
Qed.

(** X4: the shape of a parsed document. A document without a not-blank
    line, or with its header line only, gives no record; otherwise there is
    one record per not-blank line after the header line, and every record
    has a value for each normalized header name and for nothing else,
    however many fields its line has. *)
Theorem parseTabDelimited_shape :
  forall content,
    (contentLines content = [] -> parseTabDelimited content = [])
    /\ (forall first rest,
           contentLines content = first :: rest ->
           length (parseTabDelimited content) = length rest
           /\ forall row column,
               In row (parseTabDelimited content) ->
               ((exists value, JsMap.get column row = Some value)
                <-> In column (map normalizeHeader (split TAB first)))).
Proof.
  intros content. unfold parseTabDelimited. fold (contentLines content).
  split.
  - intros ->. reflexivity.
  - intros first rest ->. split.
    + apply length_map.
    + intros row column Hrow. apply in_map_iff in Hrow.
      destruct Hrow as (line & <- & _).
      rewrite get_in_keys, fill_row_keys. simpl. split; auto.
      intros [H|[]]. exact H.
Qed.

(** A header line, a full line, a blank line and a line with one field. *)
Lemma parseTabDelimited_shape_witness :
  let content := "SKU	Product Name
A	Widget

B" in
  length (parseTabDelimited content) = 2%nat
  /\ forall row column,
      In row (parseTabDelimited content) ->
      ((exists value, JsMap.get column row = Some value)
       <-> In column ["sku"; "product-name"]).
Proof.
  cbv zeta.
  exact (proj2 (parseTabDelimited_shape "SKU	Product Name
A	Widget

B") "SKU	Product Name" ["A	Widget"; "B"] eq_refl).
Defined.

Lemma keyedBySku_set sku item items :
  PlanningItem.sku item = sku -> keyedBySku items ->
  keyedBySku (JsMap.set sku item items).
Proof.
  unfold keyedBySku. rewrite !Forall_forall.
  intros Hsku Hitems entry Hin.
  destruct (set_entries _ _ _ _ Hin) as [->|Hold]; auto.
Qed.

(** X5: the [items] map built from the rows of a report has one entry per
    distinct non-empty sku: its keys do not repeat, none is the empty text,
    every record is stored under its own sku, and there are at most as many
    entries as rows with a sku. *)
Theorem buildPlanning_invariant :
  forall rows,
    let items := fst (buildPlanning rows) in
    NoDup (JsMap.keys items)
    /\ Forall (fun sku => sku <> "") (JsMap.keys items)
    /\ keyedBySku items
    /\ (JsMap.size items <= length (filter hasSku rows))%nat
    /\ (forall sku, In sku (JsMap.keys items)
                    <-> exists row, In row rows /\ hasSku row = true /\ rowSku row = sku).
Proof.
  induction rows as [|row rows IH] using rev_ind.
  - simpl. split; [constructor|]. split; [constructor|]. split; [constructor|].
    split; [lia|]. intros sku. split; [contradiction|]. intros (row & [] & _).
  - cbv zeta in *. rewrite buildPlanning_snoc, filter_app, length_app. simpl filter.
    destruct IH as (Hnodup & Hnonempty & Hkeyed & Hsize & Hkeys).
    destruct (hasSku row) eqn:Hrow.
    + destruct (buildPlanning rows) as [items risk].
      rewrite (planningStep_stores _ _ _ Hrow). simpl fst in *.
      assert (Hne : rowSku row <> "").
      { intros E. unfold hasSku in Hrow. rewrite E in Hrow. discriminate. }
      assert (Hiff : forall sku,
                 In sku (JsMap.keys (JsMap.set (rowSku row)
                           (planningItemOfRow (rowSku row) row) items))
                 <-> exists r, In r (rows ++ [row]) /\ hasSku r = true /\ rowSku r = sku).
      { intros sku. rewrite keys_set, Hkeys. split.
        - intros [->|(r & Hin & Hr & Hs)].
          + exists row. rewrite in_app_iff. simpl. auto.
          + exists r. rewrite in_app_iff. auto.
        - intros (r & Hin & Hr & Hs). apply in_app_iff in Hin.
          destruct Hin as [Hin|[<-|[]]]; [right; eauto|left; auto]. }
      destruct (in_dec string_dec (rowSku row) (JsMap.keys items)) as [Hin|Hnew].
      * rewrite size_keys in *. rewrite (keys_set_in _ _ _ Hin).
        split; [exact Hnodup|]. split; [exact Hnonempty|].
        split; [now apply keyedBySku_set|]. split; [simpl; lia|].
        intros sku. rewrite <- Hiff, (keys_set_in _ _ _ Hin). reflexivity.
      * pose proof (keys_set_new (rowSku row) (planningItemOfRow (rowSku row) row)
                      items Hnew) as Hk.
        rewrite size_keys in *. rewrite Hk, length_app.
        split.
        { apply NoDup_app; [exact Hnodup|repeat constructor; auto|].
          intros x Hx [<-|[]]. contradiction. }
        split; [apply Forall_app; auto|].
        split; [now apply keyedBySku_set|]. split; [simpl; lia|].
        intros sku. rewrite <- Hiff, Hk. reflexivity.
    + rewrite (planningStep_drops _ _ Hrow).
      split; [exact Hnodup|]. split; [exact Hnonempty|]. split; [exact Hkeyed|].
      split; [simpl; lia|].
      intros sku. rewrite Hkeys. split.
      * intros (r & Hin & Hr & Hs). exists r. rewrite in_app_iff. auto.
      * intros (r & Hin & Hr & Hs). apply in_app_iff in Hin.
        destruct Hin as [Hin|[<-|[]]]; [eauto|congruence].
Qed.

(* ===================================================================== *)
(** * Further properties of index.ts: extraction and merge *)
(* ===================================================================== *)

Lemma pickNumber_skip v rest : skipped v = true -> pickNumber (v :: rest) = pickNumber rest.
Proof.
  destruct v as [|s|n]; simpl; auto.
  - destruct (truthy_str s); simpl; auto.
    destruct (Number s); simpl; auto. discriminate.
  - destruct n; simpl; auto. discriminate.
Qed.

Lemma pickNumber_take v rest : skipped v = false -> pickNumber (v :: rest) = Some (numberOf v).
Proof.
  destruct v as [|s|n]; simpl; try discriminate.
  - destruct (truthy_str s); simpl; try discriminate.
    destruct (Number s); simpl; auto; discriminate.
  - destruct n; simpl; auto; discriminate.
Qed.

(** X6: [pickNumber] gives the number of the first candidate that is
    neither [null], nor the empty text, nor something without a finite
    number, and gives [null] exactly when every candidate is one of
    these. *)
Theorem pickNumber_first_usable :
  forall values,
    (pickNumber values = None <-> forallb skipped values = true)
    /\ (forall before value after,
           values = (before ++ value :: after)%list ->
           forallb skipped before = true ->
           skipped value = false ->
           pickNumber values = Some (numberOf value)).
Proof.
  intros values. split.
  - induction values as [|v rest IH]; [split; reflexivity|].
    cbn [forallb]. destruct (skipped v) eqn:E.
    + rewrite (pickNumber_skip v rest E). exact IH.
    + rewrite (pickNumber_take v rest E). split; discriminate.
  - intros before value after -> Hbefore Hvalue.
    induction before as [|v before IH].
    + now apply pickNumber_take.
    + cbn [forallb] in Hbefore. apply andb_true_iff in Hbefore.
      destruct Hbefore as [Hv Hrest].
      rewrite <- (IH Hrest). now apply pickNumber_skip.
Qed.

(** After [null], the text "n/a" and [NaN], the text " 7 " gives 7. *)
Lemma pickNumber_first_usable_witness :
  pickNumber [JNull; JStr "n/a"; JNum NaN; JStr " 7 "; JNum (Fin 9)]
  = Some (numberOf (JStr " 7 ")).
Proof.
  apply (proj2 (pickNumber_first_usable _) [JNull; JStr "n/a"; JNum NaN]
               (JStr " 7 ") [JNum (Fin 9)] eq_refl); reflexivity.
Defined.

Lemma mergeInventory_skus merged inventory :
  map StoreInventoryItem.sku (fst (mergeInventory merged inventory))
  = map StoreInventoryItem.sku inventory.
Proof.
  revert merged. induction inventory as [|item rest IH]; intros merged; simpl; auto.
  unfold mergeItem.
  destruct (JsMap.get (StoreInventoryItem.sku item) merged) as [p|].
  - specialize (IH (JsMap.delete (StoreInventoryItem.sku item) merged)).
    destruct (mergeInventory (JsMap.delete (StoreInventoryItem.sku item) merged) rest).
    simpl in *. now rewrite IH.
  - specialize (IH merged). destruct (mergeInventory merged rest).
    simpl in *. now rewrite IH.
Qed.

(** X7: the merge keeps the live list in front, in its order: the merged
    inventory starts with one item per live item, carrying the live skus in
    the live order, and whatever follows is a synthetic item of a planning
    record. *)
Theorem mergePlanning_keeps_live_order :
  forall planning inventory,
    exists merged synthetic,
      mergePlanning planning inventory = (merged ++ synthetic)%list
      /\ length merged = length inventory
      /\ map StoreInventoryItem.sku merged = map StoreInventoryItem.sku inventory
      /\ (forall item, In item synthetic ->
                       exists record,
                         In record (JsMap.values (PlanningCache.items planning))
                         /\ item = syntheticItem record).
Proof.
  intros planning inventory. unfold mergePlanning.
  pose proof (mergeInventory_length (PlanningCache.items planning) inventory) as Hlen.
  pose proof (mergeInventory_skus (PlanningCache.items planning) inventory) as Hskus.
  assert (Hleft : forall m inv entry,
             In entry (snd (mergeInventory m inv)) -> In entry m).
  { intros m inv. revert m. induction inv as [|item rest IH]; intros m entry; simpl; auto.
    unfold mergeItem.
    destruct (JsMap.get (StoreInventoryItem.sku item) m) as [p|].
    - specialize (IH (JsMap.delete (StoreInventoryItem.sku item) m) entry).
      destruct (mergeInventory (JsMap.delete (StoreInventoryItem.sku item) m) rest).
      simpl in *. intros H. specialize (IH H). clear - IH.
      induction m as [|[k v] r IHm]; simpl in *; auto.
      destruct (String.eqb (StoreInventoryItem.sku item) k); simpl in *; auto.
      destruct IH; auto.
    - specialize (IH m entry). destruct (mergeInventory m rest). simpl in *. exact IH. }
  specialize (Hleft (PlanningCache.items planning) inventory).
  destruct (mergeInventory (PlanningCache.items planning) inventory) as [merged working].
  simpl in *. exists merged, (map syntheticItem (JsMap.values working)).
  split; [reflexivity|]. split; [exact Hlen|]. split; [exact Hskus|].
  intros item Hin. apply in_map_iff in Hin. destruct Hin as (record & <- & Hrec).
  exists record. split; [|reflexivity].
  unfold JsMap.values in *. apply in_map_iff in Hrec. destruct Hrec as (entry & <- & He).
  apply in_map. now apply Hleft.
Qed.

Lemma get_delete_none {V} k k' (m : JsMap.t V) :
  JsMap.get k m = None -> JsMap.get k (JsMap.delete k' m) = None.
Proof.
  induction m as [|[k'' v''] r IH]; simpl; auto.
  destruct (String.eqb k k'') eqn:E; [discriminate|].
  intros Hnone. destruct (String.eqb k' k''); simpl; auto.
  rewrite E. auto.
Qed.

Lemma mergeInventory_absent sku merged pre :
  JsMap.get sku merged = None ->
  JsMap.get sku (snd (mergeInventory merged pre)) = None.
Proof.
  revert merged. induction pre as [|item pre IH]; intros merged Hnone; simpl; auto.
  unfold mergeItem.
  destruct (JsMap.get (StoreInventoryItem.sku item) merged) as [p|].
  - specialize (IH (JsMap.delete (StoreInventoryItem.sku item) merged)
                   (get_delete_none _ _ _ Hnone)).
    destruct (mergeInventory (JsMap.delete (StoreInventoryItem.sku item) merged) pre).
    exact IH.
  - specialize (IH merged Hnone). destruct (mergeInventory merged pre). exact IH.
Qed.

(** X8: a live item whose sku has no record in the planning cache comes
    out of the merge exactly as it went in, at its own position. *)
Theorem mergePlanning_passes_unmatched :
  forall planning before item after,
    JsMap.get (StoreInventoryItem.sku item) (PlanningCache.items planning) = None ->
    nth_error (mergePlanning planning (before ++ item :: after)) (length before)
    = Some item.
Proof.
  intros planning before item after Hnone. unfold mergePlanning.
  rewrite mergeInventory_app.
  pose proof (mergeInventory_absent _ _ before Hnone) as Habsent.
  pose proof (mergeInventory_length (PlanningCache.items planning) before) as Hlen.
  destruct (mergeInventory (PlanningCache.items planning) before) as [before' working].
  simpl in Habsent, Hlen. simpl fst. simpl snd.
  simpl mergeInventory. unfold mergeItem. rewrite Habsent.
  destruct (mergeInventory working after) as [after' final]. simpl fst. simpl snd.
  rewrite <- app_assoc, nth_error_app2 by lia.
  rewrite Hlen, Nat.sub_diag. reflexivity.
Qed.

(** A live item "B" next to the planning record of "A". *)
Lemma mergePlanning_passes_unmatched_witness :
  nth_error (mergePlanning (Scenario.widgetCache 0)
               [Scenario.live "A" 0; Scenario.live "B" 3]) 1
  = Some (Scenario.live "B" 3).
Proof.
  exact (mergePlanning_passes_unmatched (Scenario.widgetCache 0)
           [Scenario.live "A" 0] (Scenario.live "B" 3) [] eq_refl).
Defined.

(** X9: the merge drops no planning record: when every record is stored
    under its own sku (as [buildPlanning] stores them), each sku of the
    planning cache is the sku of some item of the merged inventory, be it a
    live item or a synthetic one. *)
Theorem mergePlanning_covers_planning :
  forall planning inventory sku record,
    keyedBySku (PlanningCache.items planning) ->
    JsMap.get sku (PlanningCache.items planning) = Some record ->
    In sku (map StoreInventoryItem.sku (mergePlanning planning inventory)).
Proof.
  intros planning inventory sku record Hkeyed Hrecord. unfold mergePlanning.
  pose proof (mergeInventory_skus (PlanningCache.items planning) inventory) as Hskus.
  destruct (in_dec string_dec sku (map StoreInventoryItem.sku inventory)) as [Hlive|Hnone].
  - destruct (mergeInventory (PlanningCache.items planning) inventory) as [merged working].
    simpl in *. rewrite map_app, in_app_iff. left. now rewrite Hskus.
  - pose proof (mergeInventory_keeps sku (PlanningCache.items planning) inventory Hnone)
      as Hkept.
    destruct (mergeInventory (PlanningCache.items planning) inventory) as [merged working].
    simpl in *. rewrite Hrecord in Hkept.
    rewrite map_app, in_app_iff. right.
    apply in_map_iff. exists (syntheticItem record). split.
    + simpl. unfold keyedBySku in Hkeyed. rewrite Forall_forall in Hkeyed.
      exact (Hkeyed _ (get_in_entries _ _ _ Hrecord)).
    + apply in_map. unfold JsMap.values. apply in_map_iff.
      exists (sku, record). split; [reflexivity|]. now apply get_in_entries.
Qed.

(** The record "A" of [Scenario.widgetCache] with only "B" live. *)
Lemma mergePlanning_covers_planning_witness :
  In "A" (map StoreInventoryItem.sku
              (mergePlanning (Scenario.widgetCache 0) [Scenario.live "B" 3])).
Proof.
  apply (mergePlanning_covers_planning (Scenario.widgetCache 0)
           [Scenario.live "B" 3] "A" Scenario.widget).
  - repeat constructor.
  - reflexivity.
Defined.

(* ===================================================================== *)
(** * Further properties of index.ts: snapshot and shipments *)
(* ===================================================================== *)

Lemma fetchInboundShipments_frame env up store w :
  exists shipments w',
    fetchInboundShipments env up store w = (Ok shipments, w')
    /\ planningCache w' = planningCache w
    /\ reportCooldownUntil w' = reportCooldownUntil w
    /\ reviewStats w' = reviewStats w.
Proof.
  unfold fetchInboundShipments, bind, gets.
  destruct (getShipmentsCache store w) as [c|].
  - eexists _, _. split; [reflexivity|]. auto.
  - destruct (hasCredentials env store); simpl.
    + unfold try_catch, bind, request.
      destruct (result (shipments_reply up (length (calls w)))) as [response|e];
        [|eexists _, _; split; [reflexivity|]; auto].
      unfold liftOutcome.
      match goal with
      | |- context [mapShipments ?data] =>
          destruct (mapShipments data) as [shipments|e]
      end; (eexists _, _; split; [reflexivity|]; auto).
    + eexists _, _. split; [reflexivity|]. auto.
Qed.

Lemma mapSummaries_liveOnly l items :
  mapSummaries l = Ok items -> Forall liveOnly items.
Proof.
  revert items. induction l as [|[s|] r IH]; simpl; intros items H.
  - injection H as <-. constructor.
  - destruct (mapSummaries r) as [rest|e]; [|discriminate].
    injection H as <-. constructor; [|now apply IH].
    repeat split.
  - discriminate.
Qed.

(** X10: a snapshot fetch never throws and never writes the planning cache
    or the cooldowns: whatever the upstream answers, the caller gets a
    [StoreData] for the store asked for, with that store's name and
    currency. *)
Theorem fetchInventorySnapshot_never_throws :
  forall env up store w,
    exists data w',
      fetchInventorySnapshot env up store w = (Ok data, w')
      /\ StoreData.code data = store
      /\ StoreData.name data = storeName store
      /\ StoreData.currency data = storeCurrency store
      /\ planningCache w' = planningCache w
      /\ reportCooldownUntil w' = reportCooldownUntil w.
Proof.
  intros env up store w.
  unfold fetchInventorySnapshot, try_catch, bind, gets, request.
  destruct (hasCredentials env store); cbn [negb].
  2: { eexists _, _. split; [reflexivity|]. simpl. auto. }
  destruct (result (inventory_reply up (length (calls w)))) as [payload|e].
  2: { unfold log, modify, ret. eexists _, _. split; [reflexivity|]. simpl. auto. }
  match goal with
  | |- context [fetchInboundShipments env up store ?w1] =>
      destruct (fetchInboundShipments_frame env up store w1)
        as (shipments & w2 & Hship & Hplan & Hcool & _);
      rewrite Hship
  end.
  unfold liftOutcome.
  destruct (mapSummaries (nullish payload [])) as [inventory|e]; unfold ret, throw.
  - destruct (getPlanningCache store w2) as [planning|];
      (eexists _, _; split; [reflexivity|]; simpl; auto).
  - unfold log, modify. eexists _, _. split; [reflexivity|]. simpl. auto.
Qed.

(** X11: a snapshot built while the store has no fresh planning entry
    carries live data only: aging risk 0, and on every item [sales7d] 0,
    [age90plus] false and [sellThrough] 0. *)
Theorem snapshot_without_planning_is_live_only :
  forall env up store w data w',
    fetchInventorySnapshot env up store w = (Ok data, w') ->
    getPlanningCache store w' = None ->
    StoreData.agingRisk data = 0%Q
    /\ Forall liveOnly (StoreData.inventory data).
Proof.
  intros env up store w data w'.
  unfold fetchInventorySnapshot, try_catch, bind, gets, request.
  destruct (hasCredentials env store); cbn [negb].
  2: { unfold ret. intros [= <- <-] _. simpl. auto. }
  destruct (result (inventory_reply up (length (calls w)))) as [payload|e].
  2: { unfold log, modify, ret. intros [= <- <-] _. simpl. auto. }
  match goal with
  | |- context [fetchInboundShipments env up store ?w1] =>
      destruct (fetchInboundShipments env up store w1) as [[shipments|e] w2]
  end.
  2: { unfold log, modify, ret. intros [= <- <-] _. simpl. auto. }
  unfold liftOutcome.
  destruct (mapSummaries (nullish payload [])) as [inventory|e] eqn:Hmap;
    unfold ret, throw.
  - destruct (getPlanningCache store w2) as [planning|] eqn:Hplanning.
    + intros [= <- <-] Hnone. congruence.
    + intros [= <- <-] _. simpl. split; [reflexivity|].
      exact (mapSummaries_liveOnly _ _ Hmap).
  - unfold log, modify. intros [= <- <-] _. simpl. auto.
Qed.

(** Two live items, "B" with 3 units and "C" with none, on a server
    without any planning entry. *)
Lemma snapshot_without_planning_is_live_only_witness :
  exists data w',
    fetchInventorySnapshot Scenario.env Scenario.liveInventory US Scenario.started
    = (Ok data, w')
    /\ StoreData.inventory data
       = [itemOfSummary (Scenario.bareSummary "B" 3);
          itemOfSummary (Scenario.bareSummary "C" 0)]
    /\ map StoreInventoryItem.onHand (StoreData.inventory data) = [3%Q; 0%Q]
    /\ StoreData.agingRisk data = 0%Q
    /\ Forall liveOnly (StoreData.inventory data).
Proof.
  exists (withSnapshot (fallback US Scenario.noStats)
            [itemOfSummary (Scenario.bareSummary "B" 3);
             itemOfSummary (Scenario.bareSummary "C" 0)] [] 0%Q),
         (snd (fetchInventorySnapshot Scenario.env Scenario.liveInventory US
                 Scenario.started)).
  split; [reflexivity|]. split; [reflexivity|]. split; [reflexivity|].
  exact (snapshot_without_planning_is_live_only Scenario.env Scenario.liveInventory US
           Scenario.started
           (withSnapshot (fallback US Scenario.noStats)
              [itemOfSummary (Scenario.bareSummary "B" 3);
               itemOfSummary (Scenario.bareSummary "C" 0)] [] 0%Q)
           (snd (fetchInventorySnapshot Scenario.env Scenario.liveInventory US
                   Scenario.started))
           eq_refl eq_refl).
Defined.

(** X12: a shipment list that was fetched is served from the cache: when
    the cache misses and the request succeeds, the list is stored with the
    clock of its arrival, and a second call, at once or at any clock up to
    five minutes later, returns the same list without a request, whatever
    the upstream would answer. *)
Theorem fetched_shipments_are_reused :
  forall env up store w response shipments,
    getShipmentsCache store w = None ->
    hasCredentials env store = true ->
    result (shipments_reply up (length (calls w))) = Ok response ->
    mapShipments up (shipmentData response) = Ok shipments ->
    exists w',
      fetchInboundShipments env up store w = (Ok shipments, w')
      /\ calls w' = (calls w ++ [GetShipments store])%list
      /\ shipmentsCache w' store
         = Some {| ShipmentsCache.fetchedAt := clock w';
                   ShipmentsCache.shipments := shipments |}
      /\ forall up' later,
          clock w' <= later <= clock w' + SHIPMENTS_CACHE_TTL_MS ->
          fetchInboundShipments env up' store (atClock later w')
          = (Ok shipments, atClock later w').
Proof.
  intros env up store w response shipments Hmiss Hcred Hreply Hmap.
  unfold fetchInboundShipments at 1.
  unfold bind, gets at 1. rewrite Hmiss, Hcred. cbn [negb].
  unfold try_catch, bind, request. rewrite Hreply.
  fold (shipmentData response). rewrite Hmap.
  unfold liftOutcome, ret, modify.
  eexists. split; [reflexivity|]. simpl.
  split; [reflexivity|]. split; [apply store_set_same|].
  intros up' later Hlater.
  unfold fetchInboundShipments, bind, gets, getShipmentsCache. simpl.
  rewrite store_set_same. simpl.
  destruct (Z.gtb_spec
              (later - (clock w + elapsed (shipments_reply up (length (calls w)))))
              SHIPMENTS_CACHE_TTL_MS) as [Hgt|Hle]; [lia|reflexivity].
Qed.

(** The empty answer of [Scenario.idle] on a server that has just started. *)
Lemma fetched_shipments_are_reused_witness :
  exists w',
    fetchInboundShipments Scenario.env Scenario.idle US Scenario.started = (Ok [], w')
    /\ calls w' = [GetShipments US]
    /\ fetchInboundShipments Scenario.env Scenario.inventoryDown US (atClock 1200000 w')
       = (Ok [], atClock 1200000 w').
Proof.
  destruct (fetched_shipments_are_reused Scenario.env Scenario.idle US Scenario.started
              None [] eq_refl eq_refl eq_refl eq_refl)
    as (w' & Hrun & Hcalls & Hentry & Hreuse).
  exists w'. split; [exact Hrun|]. split; [exact Hcalls|].
  apply Hreuse. injection Hrun as <-. simpl. unfold SHIPMENTS_CACHE_TTL_MS. lia.
Defined.

(** X13: a shipment fetch that fails is absorbed and not cached: the caller
    gets the empty list, the failure is logged and the shipment cache is
    left as it was, so (with a clock that does not run backwards) the
    cache still misses afterwards and the next call asks again. *)
Theorem failed_shipments_fetch_is_not_cached :
  forall env up store w e,
    getShipmentsCache store w = None ->
    hasCredentials env store = true ->
    result (shipments_reply up (length (calls w))) = Throw e ->
    0 <= elapsed (shipments_reply up (length (calls w))) ->
    exists w',
      fetchInboundShipments env up store w = (Ok [], w')
      /\ shipmentsCache w' = shipmentsCache w
      /\ console w' = (console w ++ [ShipmentsFetchFailed store e])%list
      /\ calls w' = (calls w ++ [GetShipments store])%list
      /\ forall later, clock w' <= later ->
                       getShipmentsCache store (atClock later w') = None.
Proof.
  intros env up store w e Hmiss Hcred Hreply Helapsed.
  unfold fetchInboundShipments.
  unfold bind, gets at 1. rewrite Hmiss, Hcred. cbn [negb].
  unfold try_catch, bind, request. rewrite Hreply.
  unfold log, modify, ret.
  eexists. split; [reflexivity|]. simpl.
  repeat split.
  intros later Hlater. unfold getShipmentsCache in *. simpl.
  destruct (shipmentsCache w store) as [c|]; auto.
  destruct (Z.gtb_spec (clock w - ShipmentsCache.fetchedAt c) SHIPMENTS_CACHE_TTL_MS)
    as [Hgt|Hle]; [|discriminate].
  destruct (Z.gtb_spec (later - ShipmentsCache.fetchedAt c) SHIPMENTS_CACHE_TTL_MS)
    as [Hgt'|Hle']; auto.
  lia.
Qed.

(** A shipments endpoint that answers 503, on a server that has just
    started. *)
Lemma failed_shipments_fetch_is_not_cached_witness :
  let down := {| inventory_reply := Scenario.always None;
                 shipments_reply := Scenario.failing 100 (Scenario.httpError 503 None);
                 listReports_reply := Scenario.always None;
                 getReport_reply := Scenario.always None;
                 getReportDocument_reply := Scenario.always None;
                 createReport_reply := Scenario.always None;
                 download_reply := Scenario.always "";
                 gunzipSync := fun s => Ok s;
                 toLocaleDateString := fun s => Some s;
     localeCompare := String.compare |} in
  exists w',
    fetchInboundShipments Scenario.env down US Scenario.started = (Ok [], w')
    /\ shipmentsCache w' = shipmentsCache Scenario.started
    /\ console w' = [ShipmentsFetchFailed US (Scenario.httpError 503 None)].
Proof.
  cbv zeta.
  match goal with
  | |- exists w', fetchInboundShipments _ ?down _ _ = _ /\ _ =>
      destruct (failed_shipments_fetch_is_not_cached Scenario.env down US Scenario.started
                  (Scenario.httpError 503 None) eq_refl eq_refl eq_refl)
        as (w' & Hrun & Hcache & Hconsole & _)
  end.
  - simpl. lia.
  - exists w'. auto.
Defined.

(* ===================================================================== *)
(** * Further properties of index.ts: the report refresh *)
(* ===================================================================== *)

(** Whatever the body of the [try] does, the [catch] of
    [refreshPlanningReport] ends it normally. *)
Ltac absorb_refresh env up store w :=
  unfold refreshPlanningReport;
  destruct (hasCredentials env store); cbn [negb]; [|eexists; reflexivity];
  unfold bind at 1, gets at 1;
  destruct (getPlanningCache store w); [eexists; reflexivity|];
  unfold try_catch;
  match goal with |- context [match ?body w with _ => _ end] =>
    destruct (body w) as [[[]|?] ?] end;
  [eexists; reflexivity | unfold log, modify; eexists; reflexivity].

(** X14: a report refresh never throws: a failure of any request, of the
    decompression or of the parse ends in a log line and the refresh
    returns normally, for every upstream and every state. *)
Theorem refreshPlanningReport_never_throws :
  forall env up store w,
    exists w', refreshPlanningReport env up store w = (Ok tt, w').
Proof.
  intros env up store w. absorb_refresh env up store w.
Qed.

(** X15: without credentials for a store nothing goes upstream: a report
    refresh and a snapshot fetch both return with the state untouched (the
    snapshot being the static fallback), and so does a shipment fetch on a
    cache miss, with an empty list. *)
Theorem no_credentials_no_requests :
  forall env up store w,
    hasCredentials env store = false ->
    refreshPlanningReport env up store w = (Ok tt, w)
    /\ fetchInventorySnapshot env up store w = (Ok (fallback store (reviewStats w)), w)
    /\ (getShipmentsCache store w = None ->
        fetchInboundShipments env up store w = (Ok [], w)).
Proof.
  intros env up store w Hcred. split; [|split].
  - unfold refreshPlanningReport. now rewrite Hcred.
  - unfold fetchInventorySnapshot, bind, gets. now rewrite Hcred.
  - intros Hmiss. unfold fetchInboundShipments, bind, gets. now rewrite Hmiss, Hcred.
Qed.

(** [Scenario.env] has no refresh token for the EU, so nothing is requested
    for the UK store. *)
Lemma no_credentials_no_requests_witness :
  refreshPlanningReport Scenario.env Scenario.reportReady UK Scenario.started
  = (Ok tt, Scenario.started).
Proof.
  exact (proj1 (no_credentials_no_requests Scenario.env Scenario.reportReady UK
                  Scenario.started eq_refl)).
Defined.

Lemma cooldownOf_request store t c w :
  cooldownOf store (set_clock t (set_calls c w)) = cooldownOf store w.
Proof. reflexivity. Qed.

Lemma loadLatest_nothing up store w reports :
  result (listReports_reply up (length (calls w))) = Ok reports ->
  nullish reports [] = [] ->
  loadLatestPlanningReport up store w
  = (Ok false,
     set_clock (clock w + elapsed (listReports_reply up (length (calls w))))
               (set_calls (calls w ++ [ListReports store]) w)).
Proof.
  intros Hreply Hnone.
  unfold loadLatestPlanningReport, listReports, bind, request, ret.
  rewrite Hreply, Hnone. reflexivity.
Qed.

(** X16: the cooldown gate: when there is no report to reuse and the region
    is still cooling down once the report list has arrived, the refresh
    stops there: the list request is the only request, no report is
    created, and cache, cooldown and console are as before. *)
Theorem blocked_region_creates_no_report :
  forall env up store w reports,
    hasCredentials env store = true ->
    getPlanningCache store w = None ->
    result (listReports_reply up (length (calls w))) = Ok reports ->
    nullish reports [] = [] ->
    lt (ofZ (clock w + elapsed (listReports_reply up (length (calls w)))))
       (cooldownOf store w) = true ->
    exists w',
      refreshPlanningReport env up store w = (Ok tt, w')
      /\ calls w' = (calls w ++ [ListReports store])%list
      /\ planningCache w' = planningCache w
      /\ reportCooldownUntil w' = reportCooldownUntil w
      /\ console w' = console w.
Proof.
  intros env up store w reports Hcred Hmiss Hreply Hnone Hblocked.
  unfold refreshPlanningReport. rewrite Hcred. cbn [negb].
  unfold bind at 1, gets at 1. rewrite Hmiss.
  unfold try_catch, bind at 1.
  rewrite (loadLatest_nothing up store w reports Hreply Hnone).
  unfold bind, gets.
  rewrite cooldownOf_request. cbn [clock set_clock]. rewrite Hblocked. unfold ret.
  eexists. split; [reflexivity|]. simpl. auto.
Qed.



(** X18: a rate-limited creation blocks the region: when there is no report
    to reuse, the gate is open and the creation is rejected with 429, the
    refresh makes no further request, touches no cache, logs the rate
    limit only, and leaves the region blocked at the moment it returns. *)
Theorem rate_limited_refresh_blocks_region :
  forall env up store w reports e,
    hasCredentials env store = true ->
    getPlanningCache store w = None ->
    result (listReports_reply up (length (calls w))) = Ok reports ->
    nullish reports [] = [] ->
    lt (ofZ (clock w + elapsed (listReports_reply up (length (calls w)))))
       (cooldownOf store w) = false ->
    result (createReport_reply up (S (length (calls w)))) = Throw e ->
    err_status e = Some 429 ->
    exists w',
      refreshPlanningReport env up store w = (Ok tt, w')
      /\ calls w' = (calls w ++ [ListReports store; CreateReport store])%list
      /\ planningCache w' = planningCache w
      /\ console w' = (console w ++ [RateLimited (backoffOf e)])%list
      /\ lt (ofZ (clock w')) (cooldownOf store w') = true.
Proof.
  intros env up store w reports e Hcred Hmiss Hreply Hnone Hopen Hcreate Hstatus.
  unfold refreshPlanningReport. rewrite Hcred. cbn [negb].
  unfold bind at 1, gets at 1. rewrite Hmiss.
  unfold try_catch, bind at 1.
  rewrite (loadLatest_nothing up store w reports Hreply Hnone).
  unfold bind at 1, gets at 1. unfold bind at 1, gets at 1.
  rewrite cooldownOf_request. cbn [clock set_clock]. rewrite Hopen.
  unfold bind at 1.
  set (w1 := set_clock _ _).
  assert (Hcreate1 : result (createReport_reply up (length (calls w1))) = Throw e).
  { unfold w1. simpl. rewrite length_app, Nat.add_1_r. exact Hcreate. }
  unfold createReportOnce, try_catch, createReport, request.
  rewrite Hcreate1, Hstatus.
  unfold bind, modify, log, ret. unfold w1.
  eexists. split; [reflexivity|]. simpl.
  rewrite <- app_assoc. repeat split.
  unfold cooldownOf. simpl. rewrite store_set_same.
  set (now2 := clock w + _ + _).
  destruct (backoffOf_positive e) as [-> | (b & -> & Hb)]; simpl; [reflexivity|].
  apply negb_true_iff. destruct (Qle_bool (inject_Z now2 + b) (inject_Z now2)) eqn:E; auto.
  apply Qle_bool_iff in E. exfalso.
  apply (Qlt_not_le _ _ Hb).
  apply (Qplus_le_r _ _ (inject_Z now2)). now rewrite Qplus_0_r.
Qed.

(** A server whose US region is blocked until 2000000, at clock 1000000. *)
Lemma blocked_region_creates_no_report_witness :
  let w := set_reportCooldownUntil (store_set (fun _ => None) US (Fin 2000000))
                                   Scenario.started in
  exists w',
    refreshPlanningReport Scenario.env Scenario.reportReady US w = (Ok tt, w')
    /\ calls w' = [ListReports US]
    /\ planningCache w' = planningCache w.
Proof.
  cbv zeta.
  destruct (blocked_region_creates_no_report Scenario.env Scenario.reportReady US
              (set_reportCooldownUntil (store_set (fun _ => None) US (Fin 2000000))
                                       Scenario.started)
              None eq_refl eq_refl eq_refl eq_refl eq_refl)
    as (w' & Hrun & Hcalls & Hplan & _).
  exists w'. auto.
Defined.


(** The second rejection of [Scenario.rateLimited] (retry-after 120): the
    region is blocked when the refresh returns. *)
Lemma rate_limited_refresh_blocks_region_witness :
  exists w',
    refreshPlanningReport Scenario.env Scenario.rateLimited US Scenario.started
    = (Ok tt, w')
    /\ calls w' = [ListReports US; CreateReport US]
    /\ lt (ofZ (clock w')) (cooldownOf US w') = true.
Proof.
  destruct (rate_limited_refresh_blocks_region Scenario.env Scenario.rateLimited US
              Scenario.started None (Scenario.httpError 429 (Some "120"))
              eq_refl eq_refl eq_refl eq_refl eq_refl eq_refl eq_refl)
    as (w' & Hrun & Hcalls & _ & _ & Hblocked).
  exists w'. auto.
Defined.

Lemma repeat_snoc {A} (x : A) k : (repeat x k ++ [x] = x :: repeat x k)%list.
Proof. induction k; simpl; auto. now rewrite IHk. Qed.

(** X19: the poll of a created report is bounded: with [attempts] attempts
    it issues at most [attempts] requests, all of them status requests for
    that report, and it writes neither a cache nor the cooldowns nor the
    console. *)
Theorem pollCreated_is_bounded :
  forall up attempts id w,
    exists outcome w' requests,
      pollCreated up attempts id w = (outcome, w')
      /\ (requests <= attempts)%nat
      /\ calls w' = (calls w ++ repeat (GetReport id) requests)%list
      /\ planningCache w' = planningCache w
      /\ shipmentsCache w' = shipmentsCache w
      /\ reportCooldownUntil w' = reportCooldownUntil w
      /\ console w' = console w.
Proof.
  intros up attempts id. induction attempts as [|n IH]; intros w.
  - eexists _, _, 0%nat. split; [reflexivity|]. simpl. rewrite app_nil_r.
    repeat split; auto.
  - cbn [pollCreated]. unfold bind at 1, getReport, request.
    destruct (result (getReport_reply up (length (calls w)))) as [report|e].
    + destruct (doneDocument report) as [documentId|].
      { eexists _, _, 1%nat. split; [reflexivity|]. simpl. repeat split; auto. lia. }
      destruct (cancelledOrFatal report).
      { eexists _, _, 1%nat. split; [reflexivity|]. simpl. repeat split; auto. lia. }
      unfold bind, sleep, modify.
      match goal with |- context [pollCreated up n id ?w2] =>
        destruct (IH w2)
          as (outcome & w' & k & Hrun & Hk & Hcalls & Hplan & Hship & Hcool & Hconsole)
      end.
      rewrite Hrun. exists outcome, w', (S k). split; [reflexivity|].
      rewrite Hcalls, Hplan, Hship, Hcool, Hconsole. simpl.
      rewrite <- app_assoc. simpl. repeat split; auto. lia.
    + eexists _, _, 1%nat. split; [reflexivity|]. simpl. repeat split; auto. lia.
Qed.

(** X20: a report that never finishes is given up: when every status
    request is answered and none of the answers is done, cancelled or
    fatal, the poll makes exactly [attempts] requests and ends with no
    document, after at least ten seconds per attempt (on a clock that does
    not run backwards). *)
Theorem pollCreated_gives_up :
  forall up attempts id w,
    (forall n, exists report,
          result (getReport_reply up n) = Ok report /\ stillPending report = true) ->
    (forall n, 0 <= elapsed (getReport_reply up n)) ->
    exists w',
      pollCreated up attempts id w = (Ok "", w')
      /\ calls w' = (calls w ++ repeat (GetReport id) attempts)%list
      /\ clock w + 10000 * Z.of_nat attempts <= clock w'.
Proof.
  intros up attempts id w Hpending Hclock. revert w.
  induction attempts as [|n IH]; intros w.
  - eexists. split; [reflexivity|]. simpl. rewrite app_nil_r. split; [auto|lia].
  - cbn [pollCreated]. unfold bind at 1, getReport, request.
    destruct (Hpending (length (calls w))) as (report & Hreply & Hstill).
    rewrite Hreply. unfold stillPending in Hstill.
    destruct (doneDocument report); [discriminate|].
    apply negb_true_iff in Hstill. rewrite Hstill.
    unfold bind, sleep, modify.
    match goal with |- context [pollCreated up n id ?w2] =>
      destruct (IH w2) as (w' & Hrun & Hcalls & Hlater)
    end.
    rewrite Hrun. exists w'. split; [reflexivity|]. split.
    + rewrite Hcalls. simpl. rewrite <- app_assoc. reflexivity.
    + cbn [clock set_clock set_calls] in Hlater.
      specialize (Hclock (length (calls w))). rewrite Nat2Z.inj_succ. lia.
Qed.

(** A report that stays in progress, polled twelve times from clock
    1000000. *)
Lemma pollCreated_gives_up_witness :
  let stuck := {| inventory_reply := Scenario.always None;
                  shipments_reply := Scenario.always None;
                  listReports_reply := Scenario.always None;
                  getReport_reply := fun _ => Scenario.pending "IN_PROGRESS";
                  getReportDocument_reply := Scenario.always None;
                  createReport_reply := Scenario.always None;
                  download_reply := Scenario.always "";
                  gunzipSync := fun s => Ok s;
                  toLocaleDateString := fun s => Some s;
     localeCompare := String.compare |} in
  exists w',
    pollCreated stuck 12 "R1" Scenario.started = (Ok "", w')
    /\ calls w' = repeat (GetReport "R1") 12
    /\ 1120000 <= clock w'.
Proof.
  cbv zeta.
  match goal with
  | |- exists w', pollCreated ?stuck _ _ _ = _ /\ _ =>
      destruct (pollCreated_gives_up stuck 12 "R1" Scenario.started)
        as (w' & Hrun & Hcalls & Hclock)
  end.
  - intros n. eexists. split; [reflexivity|]. reflexivity.
  - intros n. simpl. lia.
  - exists w'. auto.
Defined.

Lemma sortNewestFirst_head up l :
  collation up ->
  match sortNewestFirst up l with
  | [] => l = []
  | newest :: _ =>
      In newest l
      /\ forall r, In r l -> localeCompare up (created r) (created newest) <> Gt
  end.
Proof.
  intros (Hrefl & Hopp & Htrans).
  induction l as [|x l IH]; simpl; auto.
  destruct (sortNewestFirst up l) as [|y sorted]; simpl.
  - subst l. split; [now left|]. intros r [<-|[]]. rewrite Hrefl. discriminate.
  - destruct IH as [Hin Hmax].
    destruct (localeCompare up (created y) (created x)) eqn:E.
    + split; [now left|]. intros r [<-|Hr]; [rewrite Hrefl; discriminate|].
      apply Htrans with (b := created y); [now apply Hmax|]. rewrite E. discriminate.
    + split; [now left|]. intros r [<-|Hr]; [rewrite Hrefl; discriminate|].
      apply Htrans with (b := created y); [now apply Hmax|]. rewrite E. discriminate.
    + split; [now right|]. intros r [<-|Hr]; [|now apply Hmax].
      rewrite Hopp, E. discriminate.
Qed.

(** X21: the report the reuse check works on is the newest dated one, in
    the order of the runtime's [localeCompare] (a total preorder): the head
    of the sorted list is one of the listed reports, it has a creation
    time, and no listed report with a creation time collates after it;
    there is no head only when no listed report has a creation time. *)
Theorem latest_report_is_newest :
  forall up reports,
    collation up ->
    match sortNewestFirst up (dated reports) with
    | [] => forall r, In r reports -> truthy_opt (createdTime r) = false
    | latest :: _ =>
        In latest reports
        /\ truthy_opt (createdTime latest) = true
        /\ forall r, In r reports -> truthy_opt (createdTime r) = true ->
                     localeCompare up (created r) (created latest) <> Gt
    end.
Proof.
  intros up reports Hcollation.
  pose proof (sortNewestFirst_head up (dated reports) Hcollation) as H.
  destruct (sortNewestFirst up (dated reports)) as [|latest rest].
  - intros r Hr. destruct (truthy_opt (createdTime r)) eqn:E; auto.
    assert (Hin : In r (dated reports)) by (apply filter_In; auto).
    rewrite H in Hin. contradiction.
  - destruct H as [Hin Hmax]. apply filter_In in Hin. destruct Hin as [Hin Hdated].
    split; [exact Hin|]. split; [exact Hdated|].
    intros r Hr Hd. apply Hmax. apply filter_In. auto.
Qed.

Lemma compare_refl s : String.compare s s = Eq.
Proof. now apply String_as_OT.cmp_eq. Qed.

Lemma compare_not_after a b c :
  String.compare a b <> Gt -> String.compare b c <> Gt -> String.compare a c <> Gt.
Proof.
  intros Hab Hbc Hac.
  assert (Hca : String_as_OT.lt c a).
  { apply String_as_OT.cmp_lt. unfold String_as_OT.cmp.
    rewrite String.compare_antisym, Hac. reflexivity. }
  destruct (String.compare a b) eqn:Eab; [| |congruence].
  - apply String.compare_eq_iff in Eab. subst b.
    apply String_as_OT.cmp_lt in Hca. unfold String_as_OT.cmp in Hca.
    rewrite String.compare_antisym, Hca in Hbc. apply Hbc. reflexivity.
  - assert (Hab' : String_as_OT.lt a b) by (now apply String_as_OT.cmp_lt).
    pose proof (String_as_OT.lt_trans _ _ _ Hca Hab') as Hcb.
    apply String_as_OT.cmp_lt in Hcb. unfold String_as_OT.cmp in Hcb.
    rewrite String.compare_antisym, Hcb in Hbc. apply Hbc. reflexivity.
Qed.

(** The order of character codes is a collation. *)
Lemma code_order_collation up :
  localeCompare up = String.compare -> collation up.
Proof.
  intros H. unfold collation. rewrite H.
  split; [exact compare_refl|]. split.
  - exact String.compare_antisym.
  - exact compare_not_after.
Qed.

Lemma refreshEach_never_throws env up stores w :
  exists w', refreshEach env up stores w = (Ok tt, w').
Proof.
  revert w. induction stores as [|store rest IH]; intros w; simpl.
  - eexists; reflexivity.
  - unfold bind at 1.
    assert (Hrun : exists w1, refreshPlanningReport env up store w = (Ok tt, w1))
      by (absorb_refresh env up store w).
    destruct Hrun as (w1 & ->).
    unfold bind, sleep, modify.
    match goal with |- context [refreshEach env up rest ?w2] =>
      destruct (IH w2) as (w3 & ->) end.
    eexists; reflexivity.
Qed.

(** X22: the sweep guard: a sweep that finds another one in progress does
    nothing at all; a sweep that starts never throws and has cleared the
    in-progress flag when it returns. *)
Theorem sweep_guard :
  forall env up w,
    (planningRefreshInProgress w = true ->
     refreshAllPlanningReports env up w = (Ok tt, w))
    /\ (planningRefreshInProgress w = false ->
        exists w',
          refreshAllPlanningReports env up w = (Ok tt, w')
          /\ planningRefreshInProgress w' = false).
Proof.
  intros env up w. unfold refreshAllPlanningReports, bind, gets. split; intros ->.
  - reflexivity.
  - unfold modify, try_finally.
    match goal with |- context [refreshEach env up REPORT_STORES ?w1] =>
      destruct (refreshEach_never_throws env up REPORT_STORES w1) as (w2 & ->) end.
    eexists. split; reflexivity.
Qed.

(** A sweep on a server that has just started. *)
Lemma sweep_guard_witness :
  exists w',
    refreshAllPlanningReports Scenario.env Scenario.reportReady Scenario.started = (Ok tt, w')
    /\ planningRefreshInProgress w' = false.
Proof.
  exact (proj2 (sweep_guard Scenario.env Scenario.reportReady Scenario.started) eq_refl).
Defined.

(* ===================================================================== *)
(** * Properties of spapi.ts and reviews.ts *)
(* ===================================================================== *)

(** X23: an access token is reused until 60 seconds before it expires, and
    its life is counted from the moment the token request was sent: after a
    refresh that answered [seconds] as [expires_in], a call at a clock
    [later] with [later + 60000 < start + seconds * 1000] returns the same
    token without a request, and a call at any other clock posts a new
    token request. *)
Theorem access_token_is_reused_until_margin :
  forall replies replies' config s data seconds later,
    SpApi.usable (JsMap.get (SpApi.cacheKey config) (SpApi.tokenCache s)) (SpApi.now s)
    = false ->
    result (replies (length (SpApi.posted s))) = Ok data ->
    SpApi.lifetime data = Fin seconds ->
    exists s1,
      SpApi.getAccessToken replies config s = (Ok (SpApi.access_token data), s1)
      /\ SpApi.posted s1 = (SpApi.posted s ++ [SpApi.refresh config])%list
      /\ ((inject_Z (later + 60000) < inject_Z (SpApi.now s) + seconds * 1000)%Q ->
          SpApi.getAccessToken replies' config (tokensAt later s1)
          = (Ok (SpApi.access_token data), tokensAt later s1))
      /\ ((inject_Z (SpApi.now s) + seconds * 1000 <= inject_Z (later + 60000))%Q ->
          SpApi.posted (snd (SpApi.getAccessToken replies' config (tokensAt later s1)))
          = (SpApi.posted s1 ++ [SpApi.refresh config])%list).
Proof.
  intros replies replies' config s data seconds later Hmiss Hreply Hlife.
  unfold SpApi.getAccessToken at 1. rewrite Hmiss, Hreply, Hlife.
  eexists. split; [reflexivity|]. cbn [SpApi.posted].
  split; [reflexivity|].
  assert (Hhit : forall b,
             SpApi.usable
               (JsMap.get (SpApi.cacheKey config)
                  (JsMap.set (SpApi.cacheKey config)
                     {| SpApi.token := SpApi.access_token data;
                        SpApi.expiresAt :=
                          add (ofZ (SpApi.now s)) (mul (Fin seconds) (ofZ 1000)) |}
                     (SpApi.tokenCache s)))
               later = b
             <-> negb (Qle_bool (inject_Z (SpApi.now s) + seconds * 1000)
                                (inject_Z (later + 60000))) = b).
  { intros b. rewrite get_set_same. reflexivity. }
  split.
  - intros Hfresh. unfold SpApi.getAccessToken, tokensAt.
    cbn [SpApi.now SpApi.tokenCache SpApi.posted].
    assert (Husable : negb (Qle_bool (inject_Z (SpApi.now s) + seconds * 1000)
                                     (inject_Z (later + 60000))) = true).
    { apply negb_true_iff.
      destruct (Qle_bool (inject_Z (SpApi.now s) + seconds * 1000)
                         (inject_Z (later + 60000))) eqn:E; auto.
      apply Qle_bool_iff in E. exfalso. exact (Qlt_not_le _ _ Hfresh E). }
    apply Hhit in Husable. rewrite Husable, get_set_same. reflexivity.
  - intros Hlate. unfold SpApi.getAccessToken, tokensAt.
    cbn [SpApi.now SpApi.tokenCache SpApi.posted].
    assert (Hstale : negb (Qle_bool (inject_Z (SpApi.now s) + seconds * 1000)
                                    (inject_Z (later + 60000))) = false).
    { apply negb_false_iff. now apply Qle_bool_iff. }
    apply Hhit in Hstale. rewrite Hstale.
    destruct (result (replies' (length (SpApi.posted s ++ [SpApi.refresh config]))));
      reflexivity.
Qed.

(** A token of one hour fetched at clock 0 is reused at clock 3000000 (fifty
    minutes). *)
Lemma access_token_is_reused_until_margin_witness :
  let replies := fun _ : nat =>
    {| elapsed := 400;
       result := Ok {| SpApi.access_token := Some "Atza|token";
                       SpApi.expires_in := JNum (Fin 3600) |} |} in
  let config := {| SpApi.clientId := "client"; SpApi.refresh := "token-na" |} in
  exists s1,
    SpApi.getAccessToken replies config
      {| SpApi.now := 0; SpApi.tokenCache := []; SpApi.posted := [] |}
    = (Ok (Some "Atza|token"), s1)
    /\ SpApi.getAccessToken replies config (tokensAt 3000000 s1)
       = (Ok (Some "Atza|token"), tokensAt 3000000 s1).
Proof.
  cbv zeta.
  match goal with
  | |- exists s1, SpApi.getAccessToken ?replies ?config ?s = _ /\ _ =>
      destruct (access_token_is_reused_until_margin replies replies config s
                  {| SpApi.access_token := Some "Atza|token";
                     SpApi.expires_in := JNum (Fin 3600) |}
                  3600%Q 3000000 eq_refl eq_refl eq_refl)
        as (s1 & Hrun & _ & Hreuse & _)
  end.
  exists s1. split; [exact Hrun|]. apply Hreuse. reflexivity.
Defined.

(** X24: the token cache is keyed per credential pair: a call for one pair
    never changes what is cached under the key of another pair, and a token
    request that fails changes no entry at all and throws to the caller. *)
Theorem token_cache_is_per_credentials :
  forall replies config s,
    (forall other,
        SpApi.cacheKey other <> SpApi.cacheKey config ->
        JsMap.get (SpApi.cacheKey other)
                  (SpApi.tokenCache (snd (SpApi.getAccessToken replies config s)))
        = JsMap.get (SpApi.cacheKey other) (SpApi.tokenCache s))
    /\ (forall e,
           SpApi.usable (JsMap.get (SpApi.cacheKey config) (SpApi.tokenCache s))
                        (SpApi.now s) = false ->
           result (replies (length (SpApi.posted s))) = Throw e ->
           fst (SpApi.getAccessToken replies config s) = Throw e
           /\ SpApi.tokenCache (snd (SpApi.getAccessToken replies config s))
              = SpApi.tokenCache s).
Proof.
  intros replies config s. split.
  - intros other Hother. unfold SpApi.getAccessToken.
    destruct (SpApi.usable _ _); [reflexivity|].
    destruct (result (replies (length (SpApi.posted s)))); simpl; [|reflexivity].
    now apply get_set_other.
  - intros e Hmiss Hreply. unfold SpApi.getAccessToken.
    rewrite Hmiss, Hreply. split; reflexivity.
Qed.

(** A token request of the EU pair that fails leaves the cached NA token
    alone. *)
Lemma token_cache_is_per_credentials_witness :
  let s := {| SpApi.now := 1000;
              SpApi.tokenCache :=
                [("client:token-na",
                  {| SpApi.token := Some "na"; SpApi.expiresAt := Fin 3600000 |})];
              SpApi.posted := [] |} in
  let replies := fun _ : nat =>
    {| elapsed := 50; result := Throw (Scenario.httpError 400 None) |} in
  let eu := {| SpApi.clientId := "client"; SpApi.refresh := "token-eu" |} in
  fst (SpApi.getAccessToken replies eu s) = Throw (Scenario.httpError 400 None)
  /\ SpApi.tokenCache (snd (SpApi.getAccessToken replies eu s)) = SpApi.tokenCache s.
Proof.
  cbv zeta.
  match goal with
  | |- fst (SpApi.getAccessToken ?replies ?eu ?s) = _ /\ _ =>
      exact (proj2 (token_cache_is_per_credentials replies eu s)
                   (Scenario.httpError 400 None) eq_refl eq_refl)
  end.
Defined.

Lemma filter_split_length {A} (f : A -> bool) l :
  (length (filter f l) + length (filter (fun x => negb (f x)) l) = length l)%nat.
Proof.
  induction l as [|x l IH]; simpl; auto.
  destruct (f x); simpl; lia.
Qed.

Lemma requestLoop_spec posts orderIds :
  forall sent results,
    Reviews.success (Reviews.requestLoop posts sent orderIds results)
    = (Reviews.success results
       ++ map snd (filter (delivered posts)
                          (combine (seq sent (length orderIds)) orderIds)))%list
    /\ Reviews.failed (Reviews.requestLoop posts sent orderIds results)
       = (Reviews.failed results
          ++ map (fun order => (snd order, "Request failed"))
                 (filter (fun order => negb (delivered posts order))
                         (combine (seq sent (length orderIds)) orderIds)))%list.
Proof.
  induction orderIds as [|orderId rest IH]; intros sent results.
  - simpl. now rewrite !app_nil_r.
  - cbn [Reviews.requestLoop length seq combine filter].
    assert (Hd : delivered posts (sent, orderId)
                 = match posts sent with Ok _ => true | Throw _ => false end)
      by reflexivity.
    rewrite !Hd. clear Hd.
    destruct (posts sent) as [u|e]; cbn [negb map snd];
      match goal with
      | |- context [Reviews.requestLoop posts (S sent) rest ?r] =>
          destruct (IH (S sent) r) as [Hs Hf]; rewrite Hs, Hf
      end; cbn [Reviews.success Reviews.failed];
      rewrite <- app_assoc; split; reflexivity.
Qed.

(** X25: a review run sorts every order into exactly one of its two lists:
    [success] holds, in order, the ids whose post went through, [failed]
    holds, in order, the ids whose post threw, each with the reason
    "Request failed", and together they are as many as the orders; a
    failing post never stops the run. *)
Theorem requestReviews_sorts_every_order :
  forall posts orderIds,
    let results := Reviews.requestReviews posts orderIds in
    Reviews.success results
    = map snd (filter (delivered posts) (numbered orderIds))
    /\ Reviews.failed results
       = map (fun order => (snd order, "Request failed"))
             (filter (fun order => negb (delivered posts order)) (numbered orderIds))
    /\ (length (Reviews.success results) + length (Reviews.failed results)
        = length orderIds)%nat.
Proof.
  intros posts orderIds. cbv zeta. unfold Reviews.requestReviews.
  destruct (requestLoop_spec posts orderIds 0
              {| Reviews.success := []; Reviews.failed := [] |}) as [Hs Hf].
  simpl in Hs, Hf. fold (numbered orderIds) in Hs, Hf.
  split; [exact Hs|]. split; [exact Hf|].
  rewrite Hs, Hf, !length_map, filter_split_length.
  unfold numbered. rewrite length_combine, length_seq. apply Nat.min_id.
Qed.

(** X26: review statistics only accumulate: after two runs the 7-day and
    30-day totals are the old totals plus both increments, whatever the
    dates of the runs (nothing is ever taken out of a window); today's
    count adds the second increment to the first run's count when the first
    run's timestamp starts with the second run's date, and restarts at the
    second increment otherwise. *)
Theorem mergeReviewStats_accumulates :
  forall current first firstIso second secondIso,
    let once := Reviews.mergeReviewStats current first firstIso in
    let twice := Reviews.mergeReviewStats once second secondIso in
    last7Days twice = (last7Days current + first + second)%Q
    /\ last30Days twice = (last30Days current + first + second)%Q
    /\ lastRunAt twice = Some secondIso
    /\ (startsWith firstIso (substring 0 10 secondIso) = true ->
        today twice = (today once + second)%Q)
    /\ (startsWith firstIso (substring 0 10 secondIso) = false ->
        today twice = second).
Proof.
  intros current first firstIso second secondIso. cbv zeta.
  unfold Reviews.mergeReviewStats. simpl.
  split; [reflexivity|]. split; [reflexivity|]. split; [reflexivity|].
  split; intros ->; reflexivity.
Qed.

(** Two runs on 3 November, then the same with the second run a day
    later. *)
Lemma mergeReviewStats_accumulates_witness :
  today (Reviews.mergeReviewStats
           (Reviews.mergeReviewStats Scenario.noStats 2 "2026-11-03T09:00:00.000Z")
           3 "2026-11-03T21:30:00.000Z")
  = (today (Reviews.mergeReviewStats Scenario.noStats 2 "2026-11-03T09:00:00.000Z") + 3)%Q
  /\ today (Reviews.mergeReviewStats
              (Reviews.mergeReviewStats Scenario.noStats 2 "2026-11-03T09:00:00.000Z")
              3 "2026-11-04T09:00:00.000Z")
     = 3%Q.
Proof.
  split.
  - apply (mergeReviewStats_accumulates Scenario.noStats 2 "2026-11-03T09:00:00.000Z"
             3 "2026-11-03T21:30:00.000Z"). reflexivity.
  - apply (mergeReviewStats_accumulates Scenario.noStats 2 "2026-11-03T09:00:00.000Z"
             3 "2026-11-04T09:00:00.000Z"). reflexivity.
Defined.

(** X27: the daily batch, as written, is idle: with the list of eligible
    orders left empty it sends no review request and leaves the review
    statistics, like all the rest of the state, as they were, for every
    configuration of credentials. *)
Theorem dailyBatch_is_idle :
  forall env posts nowIso w, dailyBatch env posts nowIso w = w.
Proof.
  intros env posts nowIso w. unfold dailyBatch. simpl.
  destruct (hasCredentials env US), (hasCredentials env UK),
           (hasCredentials env CA), (hasCredentials env AU); reflexivity.
Qed.

(* ===================================================================== *)
(** * Reuse of a finished report, and header casing *)
(* ===================================================================== *)

(** X28: a finished report is reused instead of a new one being created:
    when the newest dated report of the list is DONE and names a document
    that can be fetched and decoded, the refresh makes three requests (the
    list, the document, the download) and none to create a report, and the
    store's planning entry becomes the records parsed from that document,
    stamped with the clock at the end of the download. *)
Theorem finished_report_is_reused :
  forall env up store w reports latest others documentId doc buffer content,
    hasCredentials env store = true ->
    getPlanningCache store w = None ->
    result (listReports_reply up (length (calls w))) = Ok (Some reports) ->
    sortNewestFirst up (dated reports) = latest :: others ->
    processingStatus latest = Some "DONE" ->
    reportDocumentId latest = Some documentId ->
    documentId <> "" ->
    result (getReportDocument_reply up (S (length (calls w)))) = Ok (Some doc) ->
    url doc <> "" ->
    result (download_reply up (S (S (length (calls w))))) = Ok buffer ->
    decoded up (compressionAlgorithm doc) buffer = Ok content ->
    exists w',
      refreshPlanningReport env up store w = (Ok tt, w')
      /\ calls w' = (calls w ++ [ListReports store; GetReportDocument documentId;
                                 Download (url doc)])%list
      /\ planningCache w' store
         = Some {| PlanningCache.fetchedAt := clock w';
                   PlanningCache.items := fst (buildPlanning (parseTabDelimited content));
                   PlanningCache.agingRisk :=
                     snd (buildPlanning (parseTabDelimited content)) |}
      /\ reportCooldownUntil w' = reportCooldownUntil w.
Proof.
  intros env up store w reports latest others documentId doc buffer content
         Hcred Hmiss Hlist Hsort Hdone Hdoc Hid Hdocument Hurl Hdownload Hdecoded.
  assert (Hreports : reports <> []).
  { intros ->. discriminate Hsort. }
  assert (Htruthy : forall x, x <> "" -> truthy_str x = true).
  { intros x Hx. destruct x; [contradiction|reflexivity]. }
  unfold refreshPlanningReport. rewrite Hcred. cbn [negb].
  unfold bind at 1, gets at 1. rewrite Hmiss.
  unfold try_catch, bind at 1.
  unfold loadLatestPlanningReport, listReports.
  unfold bind at 1. unfold bind at 1, request at 1. rewrite Hlist.
  unfold ret at 1. cbn [nullish].
  destruct reports as [|r0 reports']; [contradiction|].
  fold (dated (r0 :: reports')). rewrite Hsort.
  unfold status_is, truthy_opt. rewrite Hdone, Hdoc.
  cbn [String.eqb Ascii.eqb Bool.eqb negb andb truthy_str].
  rewrite (Htruthy _ Hid). cbn [negb nullish].
  unfold bind at 1, getReportDocument, request at 1.
  cbn [calls set_clock set_calls]. rewrite length_app, Nat.add_1_r, Hdocument.
  rewrite (Htruthy _ Hurl).
  unfold bind at 1, downloadReport, bind at 1, request at 1.
  cbn [calls set_clock set_calls]. rewrite !length_app. cbn [length].
  rewrite !Nat.add_1_r, Hdownload.
  fold (decoded up (compressionAlgorithm doc) buffer).
  assert (Hlift : forall w0,
             match compressionAlgorithm doc with
             | Some algorithm =>
                 if String.eqb (toUpperCase algorithm) "GZIP"
                 then liftOutcome (gunzipSync up buffer)
                 else ret buffer
             | None => ret buffer
             end w0 = (Ok content, w0)).
  { intros w0. unfold decoded in Hdecoded.
    destruct (compressionAlgorithm doc) as [a|]; [|now injection Hdecoded as ->].
    destruct (String.eqb (toUpperCase a) "GZIP").
    - rewrite Hdecoded. reflexivity.
    - now injection Hdecoded as ->. }
  rewrite Hlift. unfold bind at 1.
  match goal with |- context [cachePlanningReport store content ?w3] =>
    destruct (cachePlanningReport_sets store content w3)
      as (w4 & Hcache & Hentry & _ & Hclock & Hcalls);
    set (w3' := w3) in *
  end.
  rewrite Hcache.
  unfold bind, log, modify, ret.
  eexists. split; [reflexivity|]. cbn [calls planningCache clock reportCooldownUntil
                                         set_console].
  rewrite Hcalls, Hentry, Hclock. unfold w3'. cbn [calls clock set_clock set_calls].
  rewrite <- !app_assoc. cbn [app].
  split; [reflexivity|]. split; [reflexivity|].
  assert (Hframe : forall s c w0,
             reportCooldownUntil (snd (cachePlanningReport s c w0)) = reportCooldownUntil w0).
  { intros s c w0. unfold cachePlanningReport, storePlanning, bind, gets, modify, log, ret.
    destruct (parseTabDelimited c); [reflexivity|].
    destruct (planningReportHeadersLogged w0); reflexivity. }
  specialize (Hframe store content w3'). rewrite Hcache in Hframe. exact Hframe.
Qed.

(** One finished report in the list, its document compressed with gzip
    (which [Scenario.reportReady] decodes to [Scenario.duplicateReport]). *)
Lemma finished_report_is_reused_witness :
  let finished := {| reportId := Some "R0"; reportDocumentId := Some "D0";
                     createdTime := Some "2026-11-03T08:00:00+00:00";
                     processingStatus := Some "DONE" |} in
  let up := {| inventory_reply := Scenario.always None;
               shipments_reply := Scenario.always None;
               listReports_reply := Scenario.always (Some [finished]);
               getReport_reply := Scenario.always None;
               getReportDocument_reply :=
                 Scenario.always (Some {| url := "https://documents/D0";
                                          compressionAlgorithm := Some "GZIP" |});
               createReport_reply := Scenario.always None;
               download_reply := Scenario.always Scenario.duplicateReport;
               gunzipSync := fun s => Ok s;
               toLocaleDateString := fun s => Some s;
     localeCompare := String.compare |} in
  exists w',
    refreshPlanningReport Scenario.env up US Scenario.started = (Ok tt, w')
    /\ calls w' = [ListReports US; GetReportDocument "D0"; Download "https://documents/D0"].
Proof.
  cbv zeta.
  match goal with
  | |- exists w', refreshPlanningReport _ ?up _ _ = _ /\ _ =>
      destruct (finished_report_is_reused Scenario.env up US Scenario.started
                  [ {| reportId := Some "R0"; reportDocumentId := Some "D0";
                       createdTime := Some "2026-11-03T08:00:00+00:00";
                       processingStatus := Some "DONE" |} ]
                  {| reportId := Some "R0"; reportDocumentId := Some "D0";
                     createdTime := Some "2026-11-03T08:00:00+00:00";
                     processingStatus := Some "DONE" |}
                  [] "D0"
                  {| url := "https://documents/D0"; compressionAlgorithm := Some "GZIP" |}
                  Scenario.duplicateReport Scenario.duplicateReport
                  eq_refl eq_refl eq_refl eq_refl eq_refl eq_refl)
        as (w' & Hrun & Hcalls & _)
  end; try reflexivity; try (intros H; discriminate H).
  exists w'. auto.
Defined.

Lemma upper_then_lower c : lower_char (upper_char c) = lower_char c.
Proof.
  destruct c as [b0 b1 b2 b3 b4 b5 b6 b7].
  destruct b0, b1, b2, b3, b4, b5, b6, b7; reflexivity.
Qed.

Lemma upper_space c : is_space (upper_char c) = is_space c.
Proof.
  destruct c as [b0 b1 b2 b3 b4 b5 b6 b7].
  destruct b0, b1, b2, b3, b4, b5, b6, b7; reflexivity.
Qed.

Lemma dropWhile_space_upper l :
  dropWhile is_space (map upper_char l) = map upper_char (dropWhile is_space l).
Proof.
  induction l as [|c l IH]; simpl; auto.
  rewrite upper_space. destruct (is_space c); auto.
Qed.

(** X29: header lookup does not depend on the casing of the source: a
    header of ASCII characters written in upper case normalizes to the same
    name as the header itself. *)
Theorem normalizeHeader_ignores_case :
  forall header,
    isAscii header = true ->
    normalizeHeader (toUpperCase header) = normalizeHeader header.
Proof.
  intros header _. unfold normalizeHeader, toLowerCase, toUpperCase, trim.
  rewrite !chars_str. f_equal. f_equal.
  unfold trim_chars.
  rewrite dropWhile_space_upper, <- map_rev, dropWhile_space_upper, <- map_rev.
  rewrite map_map. apply map_ext. apply upper_then_lower.
Qed.

(** " Seller_Sku " in upper case. *)
Lemma normalizeHeader_ignores_case_witness :
  normalizeHeader (toUpperCase " Seller_Sku ") = normalizeHeader " Seller_Sku ".
Proof.
  apply (normalizeHeader_ignores_case " Seller_Sku "). reflexivity.
Defined.

(** An older report, a newer one and one without a creation time, under
    the scenarios' collation: the newer one is chosen. *)
Lemma latest_report_is_newest_witness :
  let report := fun (id : string) (time : option string) =>
    {| reportId := Some id; reportDocumentId := None;
       createdTime := time; processingStatus := Some "IN_PROGRESS" |} in
  let reports := [report "R1" (Some "2026-11-02T08:00:00+00:00");
                  report "R2" (Some "2026-11-03T08:00:00+00:00");
                  report "R3" None] in
  In (report "R2" (Some "2026-11-03T08:00:00+00:00")) reports
  /\ truthy_opt (createdTime (report "R2" (Some "2026-11-03T08:00:00+00:00"))) = true
  /\ forall r, In r reports -> truthy_opt (createdTime r) = true ->
               localeCompare Scenario.idle (created r)
                 (created (report "R2" (Some "2026-11-03T08:00:00+00:00"))) <> Gt.
Proof.
  cbv zeta.
  exact (latest_report_is_newest Scenario.idle
           [ {| reportId := Some "R1"; reportDocumentId := None;
                createdTime := Some "2026-11-02T08:00:00+00:00";
                processingStatus := Some "IN_PROGRESS" |};
             {| reportId := Some "R2"; reportDocumentId := None;
                createdTime := Some "2026-11-03T08:00:00+00:00";
                processingStatus := Some "IN_PROGRESS" |};
             {| reportId := Some "R3"; reportDocumentId := None;
                createdTime := None;
                processingStatus := Some "IN_PROGRESS" |} ]
           (code_order_collation Scenario.idle eq_refl)).
Defined.
